(** * discordSend: the dispatch scheduler of [backend/auto_sender.py], the
    cooldown table and the reply path of [backend/bot.py] and the sender
    endpoints of [backend/app.py], embedded and checked against the
    specification.

    Definitions:
    - [Py]        the few Python values and conversions the code relies on
                  ([int(..)], [str(..)], truthiness, the digit class of
                  [re]);
    - [Cooldown]  [account_last_sent] with [is_account_on_cooldown] and
                  [set_account_cooldown];
    - [Sender]    [task_status], the persisted campaign record, the control
                  functions and [auto_send_loop];
    - [Trace]     what is said about a run of the loop;
    - [Reply]     the send section of [DiscordBotClient.schedule_reply];
    - [Demo]      sample data;
    - [CooldownView], [Select], [App], [LoopInv]
                  the listing of the table, the choice of the sender of a
                  reply, the sender endpoints, and what the passes of the
                  loop keep.

    Facts: [PyFacts], [CooldownFacts], [ControlFacts], [LoopFacts],
    [ReplyFacts], then [ControlMore], [LoopMore], [ExtractFacts],
    [CooldownMore], [SelectFacts], [AppFacts], [ReplyMore].

    Clock readings ([time.time()]) and intervals are exact integers in one
    common unit; wall-clock stamps ([datetime.now().isoformat()]) are strings
    handed in by the environment. A [str] is held as its UTF-8 bytes, and
    the character classes are those of CPython 3.11; logger calls are left
    out of [Sender] and kept, by kind, in [Reply]. *)

From Stdlib Require Import ZArith Lia Bool Ascii String Decimal DecimalString DecimalPos DecimalZ.
From stdpp Require Import base option list gmap strings.

Local Open Scope string_scope.
Local Open Scope list_scope.
Local Open Scope Z_scope.

(* ===================================================================== *)
(** * Python values *)
(* ===================================================================== *)

Module Py.

(** The values that reach [int(..)], [str(..)] and the truth tests of the
    modelled functions: [None], an [int], a [str]. A [str] is held as its
    UTF-8 bytes (a [str] with a lone surrogate has none and is not
    covered). *)
Inductive pyval : Type :=
  | PNone
  | PInt (z : Z)
  | PStr (s : string).

Definition code (c : ascii) : Z := Z.of_nat (nat_of_ascii c).

(** A continuation byte of UTF-8. *)
Definition cont (c : ascii) : bool := (128 <=? code c) && (code c <? 192).

(** The character at the head of a text: its code point and the number of
    bytes it takes. [None] at the end of the text and on bytes that are not
    the UTF-8 encoding of a character. *)
Definition head_char (s : string) : option (Z * nat) :=
  match s with
  | EmptyString => None
  | String c1 s1 =>
      let b1 := code c1 in
      if b1 <? 128 then Some (b1, 1%nat)
      else if b1 <? 194 then None
      else if b1 <? 224 then
        match s1 with
        | String c2 _ =>
            if cont c2
            then Some ((b1 - 192) * 64 + (code c2 - 128), 2%nat)
            else None
        | EmptyString => None
        end
      else if b1 <? 240 then
        match s1 with
        | String c2 (String c3 _) =>
            let cp :=
              (b1 - 224) * 4096 + (code c2 - 128) * 64 + (code c3 - 128) in
            if cont c2 && cont c3 && (2048 <=? cp)
               && negb ((55296 <=? cp) && (cp <=? 57343))
            then Some (cp, 3%nat)
            else None
        | _ => None
        end
      else if b1 <? 245 then
        match s1 with
        | String c2 (String c3 (String c4 _)) =>
            let cp :=
              (b1 - 240) * 262144 + (code c2 - 128) * 4096
              + (code c3 - 128) * 64 + (code c4 - 128) in
            if cont c2 && cont c3 && cont c4 && (65536 <=? cp)
               && (cp <=? 1114111)
            then Some (cp, 4%nat)
            else None
        | _ => None
        end
      else None
  end.

(** The code points of a text; [None] when the bytes are not UTF-8. *)
Fixpoint code_points (s : string) : option (list Z) :=
  match head_char s, s with
  | Some (cp, len), String _ s1 =>
      cons cp <$>
        match len, s1 with
        | 1%nat, _ => code_points s1
        | 2%nat, String _ s2 => code_points s2
        | 3%nat, String _ (String _ s3) => code_points s3
        | 4%nat, String _ (String _ (String _ s4)) => code_points s4
        | _, _ => None
        end
  | None, EmptyString => Some []
  | _, _ => None
  end.

(** [s[:n]]: the first [n] characters of a text. *)
Fixpoint take_chars (n : nat) (s : string) : string :=
  match s with
  | EmptyString => EmptyString
  | String c s' =>
      if cont c then String c (take_chars n s')
      else
        match n with
        | O => EmptyString
        | S n' => String c (take_chars n' s')
        end
  end.

(** The first code point of each run of ten decimal digits (category Nd)
    in the character database of CPython 3.11 (Unicode 14.0): ASCII,
    Arabic-Indic, .., fullwidth, .., the mathematical digits, ... *)
Definition decimal_zeros : list Z :=
  [48; 1632; 1776; 1984; 2406; 2534; 2662; 2790; 2918; 3046; 3174; 3302;
   3430; 3558; 3664; 3792; 3872; 4160; 4240; 6112; 6160; 6470; 6608;
   6784; 6800; 6992; 7088; 7232; 7248; 42528; 43216; 43264; 43472; 43504;
   43600; 44016; 65296; 66720; 68912; 69734; 69872; 69942; 70096; 70384;
   70736; 70864; 71248; 71360; 71472; 71904; 72016; 72784; 73040; 73120;
   92768; 92864; 93008; 120782; 120792; 120802; 120812; 120822; 123200;
   123632; 125264; 130032].

(** [Py_UNICODE_TODECIMAL]: the value of a decimal digit, [None] for any
    other character. *)
Definition uni_decimal (cp : Z) : option Z :=
  (λ zero, cp - zero)
    <$> List.find (λ zero, (zero <=? cp) && (cp <? zero + 10)) decimal_zeros.

(** [Py_UNICODE_ISDECIMAL], the class [\d] of a [str] pattern. *)
Definition is_decimal (cp : Z) : bool :=
  match uni_decimal cp with Some _ => true | None => false end.

(** [Py_UNICODE_ISSPACE] from code point 127 on. *)
Definition uni_space (cp : Z) : bool :=
  (cp =? 133) || (cp =? 160) || (cp =? 5760)
  || ((8192 <=? cp) && (cp <=? 8202))
  || (cp =? 8232) || (cp =? 8233) || (cp =? 8239) || (cp =? 8287)
  || (cp =? 12288).

(** [Py_ISSPACE]: the bytes [PyLong_FromString] skips around a literal:
    TAB..CR and SPACE. *)
Definition is_space (c : ascii) : bool :=
  let n := code c in
  ((9 <=? n) && (n <=? 13)) || (n =? 32).

Fixpoint lstrip (s : string) : string :=
  match s with
  | String c s' => if is_space c then lstrip s' else s
  | EmptyString => EmptyString
  end.

Fixpoint rstrip (s : string) : string :=
  match s with
  | String c s' =>
      match rstrip s' with
      | EmptyString => if is_space c then EmptyString else String c EmptyString
      | r => String c r
      end
  | EmptyString => EmptyString
  end.

Definition strip (s : string) : string := rstrip (lstrip s).

Definition digit_of (c : ascii) : option Z :=
  let n := code c in
  if (48 <=? n) && (n <=? 57) then Some (n - 48) else None.

(** The digit part of a decimal literal accepted by [int(str)]: at least one
    digit, single underscores allowed between digits only. [prev] tells
    whether the previous character was a digit. *)
Fixpoint digits_value (acc : Z) (prev : bool) (s : string) : option Z :=
  match s with
  | EmptyString => if prev then Some acc else None
  | String c s' =>
      match digit_of c with
      | Some d => digits_value (10 * acc + d) true s'
      | None =>
          if Ascii.eqb c "_"%char
          then (if prev then digits_value acc false s' else None)
          else None
      end
  end.

(** [PyLong_FromString(.., 10)] on a buffer that has to be used up: blanks,
    a sign, the digits, blanks. [None] stands for [ValueError]. *)
Definition long_from_string (s : string) : option Z :=
  match strip s with
  | String c r =>
      if Ascii.eqb c "-"%char then Z.opp <$> digits_value 0 false r
      else if Ascii.eqb c "+"%char then digits_value 0 false r
      else digits_value 0 false (String c r)
  | EmptyString => None
  end.

Definition ascii_text (s : string) : bool :=
  forallb (λ c, code c <? 128) (list_ascii_of_string s).

Definition digit_char (d : Z) : ascii := ascii_of_nat (Z.to_nat (48 + d)).

(** [_PyUnicode_TransformDecimalAndSpaceToASCII] past its shortcut for
    ASCII text: characters below 127 are copied, a space becomes a blank, a
    decimal digit of any script its ASCII digit, and the text is cut with
    [?] at the first character that is none of these. *)
Fixpoint to_ascii (s : string) : string :=
  match head_char s, s with
  | Some (cp, len), String c1 s1 =>
      let out :=
        if cp <? 127 then Some c1
        else if uni_space cp then Some " "%char
        else digit_char <$> uni_decimal cp in
      match out with
      | Some a =>
          String a
            match len, s1 with
            | 1%nat, _ => to_ascii s1
            | 2%nat, String _ s2 => to_ascii s2
            | 3%nat, String _ (String _ s3) => to_ascii s3
            | 4%nat, String _ (String _ (String _ s4)) => to_ascii s4
            | _, _ => EmptyString
            end
      | None => "?"
      end
  | None, EmptyString => EmptyString
  | _, _ => "?"
  end.

(** [int(s)] for a [str] in base 10, as [PyLong_FromUnicodeObject] does it;
    [None] stands for [ValueError]. The interpreter's cap on the length of
    decimal conversions ([sys.set_int_max_str_digits], 4300 digits by
    default from 3.11 on) is taken as switched off, here and in
    [str_of_int]. *)
Definition int_of_str (s : string) : option Z :=
  long_from_string (if ascii_text s then s else to_ascii s).

(** [str(n)] for an [int]. *)
Definition str_of_int (z : Z) : string :=
  NilZero.string_of_int (Z.to_int z).

(** [int(v)]; [None] stands for the [TypeError] / [ValueError] raised. *)
Definition py_int (v : pyval) : option Z :=
  match v with
  | PNone => None
  | PInt z => Some z
  | PStr s => int_of_str s
  end.

(** [str(v)]. *)
Definition py_str (v : pyval) : string :=
  match v with
  | PNone => "None"
  | PInt z => str_of_int z
  | PStr s => s
  end.

(** Truth value of a Python object. *)
Definition truthy (v : pyval) : bool :=
  match v with
  | PNone => false
  | PInt z => negb (z =? 0)
  | PStr s => negb (String.eqb s "")
  end.

(** Value of a digit sequence read most significant digit first. *)
Fixpoint uint_val (acc : Z) (d : uint) : Z :=
  match d with
  | Nil => acc
  | D0 d => uint_val (10 * acc + 0) d
  | D1 d => uint_val (10 * acc + 1) d
  | D2 d => uint_val (10 * acc + 2) d
  | D3 d => uint_val (10 * acc + 3) d
  | D4 d => uint_val (10 * acc + 4) d
  | D5 d => uint_val (10 * acc + 5) d
  | D6 d => uint_val (10 * acc + 6) d
  | D7 d => uint_val (10 * acc + 7) d
  | D8 d => uint_val (10 * acc + 8) d
  | D9 d => uint_val (10 * acc + 9) d
  end.

End Py.

(* ===================================================================== *)
(** * The cooldown table of [bot.py] *)
(* ===================================================================== *)

Module Cooldown.
Import Py.

(** [account_last_sent]: (account_id, channel_id) -> clock reading of the
    last send. *)
Abbreviation table := (gmap (Z * string) Z).

(** The key both functions build: [(int(account_id), str(channel_id))];
    [None] when [int(..)] raises. *)
Definition cooldown_key (account_id channel_id : pyval) : option (Z * string) :=
  a ← py_int account_id; Some (a, py_str channel_id).

(** [is_account_on_cooldown(account_id, channel_id, interval)] run at clock
    reading [now]; [None] when [int(account_id)] raises. *)
Definition is_account_on_cooldown
    (account_id channel_id : pyval) (interval : Z)
    (now : Z) (account_last_sent : table) : option bool :=
  key ← cooldown_key account_id channel_id;
  let last := default 0 (account_last_sent !! key) in
  let time_passed := now - last in
  let is_cooldown := bool_decide (time_passed < interval) in
  Some is_cooldown.

(** [set_account_cooldown(account_id, channel_id)] run at clock reading
    [now]. *)
Definition set_account_cooldown
    (account_id channel_id : pyval)
    (now : Z) (account_last_sent : table) : option table :=
  key ← cooldown_key account_id channel_id;
  Some (<[key := now]> account_last_sent).

(** [cleanup_expired_cooldowns()]: entries older than 24h are dropped. *)
Definition cleanup_expired_cooldowns (now : Z) (account_last_sent : table) : table :=
  filter (λ kv, ¬ (now - kv.2 > 86400)) account_last_sent.

End Cooldown.

(* ===================================================================== *)
(** * The campaign scheduler of [auto_sender.py] *)
(* ===================================================================== *)

Module Sender.
Import Py.

(** ** Data *)

(** The global dict [task_status], one field per key. *)
Record TaskStatus : Type := mkTaskStatus {
  is_running : bool;
  is_paused : bool;
  shop_id : option Z;
  channel_id : option string;
  account_ids : list Z;
  interval : option Z;
  total_products : Z;
  sent_count : Z;
  current_product : option string;
  current_account : option string;
  started_at : option string;
  last_sent_at : option string;
  error : option string;
  next_product_index : Z;
  next_account_index : Z }.

(** The dict handed to [db.save_sender_task_state]: the keys of
    [task_status] except ['error']. *)
Record SavedState : Type := mkSavedState {
  s_is_running : bool;
  s_is_paused : bool;
  s_shop_id : option Z;
  s_channel_id : option string;
  s_account_ids : list Z;
  s_interval : option Z;
  s_total_products : Z;
  s_sent_count : Z;
  s_next_product_index : Z;
  s_next_account_index : Z;
  s_current_product : option string;
  s_current_account : option string;
  s_started_at : option string;
  s_last_sent_at : option string }.

(** A row of the [products] table as the loop selects it. *)
Record Product : Type := mkProduct {
  p_shop_name : string;
  p_id : Z;
  product_url : option string;
  title : option string;
  cnfans_url : option string;
  item_id : pyval }.

(** Modelled from the spec: the database object [db] of [database.py].
    The persistence interface is [load/save/clear campaign state] over one
    durable slot, the item source is an ordered sequence of rows, and a
    shop is found by its id. *)
Record DB : Type := mkDB {
  sender_task_state : option SavedState;
  shops : gmap Z string;
  products_table : list Product }.

(** Modelled from the spec: [db.get_sender_task_state()], the [load] of the
    campaign state store; [None] when nothing is stored. *)
Definition get_sender_task_state (d : DB) : option SavedState :=
  sender_task_state d.

(** Modelled from the spec: [db.save_sender_task_state(state)], the [save]
    of the campaign state store; it overwrites the slot. *)
Definition save_sender_task_state (s : SavedState) (d : DB) : DB :=
  mkDB (Some s) (shops d) (products_table d).

(** Modelled from the spec: [db.clear_sender_task_state()], the [clear] of
    the campaign state store. *)
Definition clear_sender_task_state (d : DB) : DB :=
  mkDB None (shops d) (products_table d).

(** Modelled from the spec: [db.get_shop_by_id(shop_id)]; the result is the
    shop's ['name'], [None] when there is no such shop. *)
Definition get_shop_by_id (id : Z) (d : DB) : option string := shops d !! id.

(** Modelled from the spec: the rows the cursor returns for
    [SELECT .. FROM products WHERE shop_name = ?], in table order. *)
Definition select_products (shop_name : string) (d : DB) : list Product :=
  filter (λ p, p_shop_name p = shop_name) (products_table d).

(** What [client.account_id] evaluates to: the attribute may be missing
    ([hasattr] false), [None] (the constructor default) or an account id. *)
Inductive attr : Type :=
  | NoAttr
  | AttrNone
  | AttrInt (z : Z).

(** A bot client as the scheduler sees it. [user] is [str(client.user)] when
    the client has a user, [channels] the ids [get_channel] resolves. *)
Record Client : Type := mkClient {
  account_id : attr;
  is_ready : bool;
  is_closed : bool;
  user : option string;
  channels : list Z }.

(** The arguments of one [auto_send_loop(..)] coroutine handed to
    [asyncio.run_coroutine_threadsafe]. *)
Record LoopCall : Type := mkLoopCall {
  call_shop_id : Z;
  call_target_channel_id : string;
  call_selected_account_ids : list Z;
  call_interval : Z;
  call_start_product_index : Z;
  call_start_account_index : Z }.

(** The module's globals [task_status], [stop_sender_event] and
    [stop_sender_reason], the database behind [db], and the coroutines
    submitted to the bot's event loop so far. *)
Record World : Type := mkWorld {
  task_status : TaskStatus;
  stop_sender_event : bool;
  stop_sender_reason : option string;
  db : DB;
  submitted : list LoopCall }.

(** The return dicts [{'success': True, 'message': ..}] and
    [{'success': False, 'error': ..}]. *)
Inductive Reply : Type :=
  | Success (message : string)
  | Failure (error_text : string).

Definition rejected (r : Reply) : bool :=
  match r with Failure _ => true | Success _ => false end.

(** [bot_loop]: [run_coroutine_threadsafe] either accepts the coroutine or
    raises with the given text. *)
Inductive EventLoop : Type :=
  | LoopOk
  | LoopError (text : string).

(** ** Field updates of [task_status] *)

Definition set_is_running (v : bool) (t : TaskStatus) : TaskStatus :=
  mkTaskStatus v (is_paused t) (shop_id t) (channel_id t) (account_ids t)
    (interval t) (total_products t) (sent_count t) (current_product t)
    (current_account t) (started_at t) (last_sent_at t) (error t)
    (next_product_index t) (next_account_index t).

Definition set_is_paused (v : bool) (t : TaskStatus) : TaskStatus :=
  mkTaskStatus (is_running t) v (shop_id t) (channel_id t) (account_ids t)
    (interval t) (total_products t) (sent_count t) (current_product t)
    (current_account t) (started_at t) (last_sent_at t) (error t)
    (next_product_index t) (next_account_index t).

(** [shop_id], [channel_id], [account_ids] and [interval] are always
    assigned together. *)
Definition set_target (shop : option Z) (channel : option string)
    (accounts : list Z) (every : option Z) (t : TaskStatus) : TaskStatus :=
  mkTaskStatus (is_running t) (is_paused t) shop channel accounts
    every (total_products t) (sent_count t) (current_product t)
    (current_account t) (started_at t) (last_sent_at t) (error t)
    (next_product_index t) (next_account_index t).

Definition set_total_products (v : Z) (t : TaskStatus) : TaskStatus :=
  mkTaskStatus (is_running t) (is_paused t) (shop_id t) (channel_id t)
    (account_ids t) (interval t) v (sent_count t) (current_product t)
    (current_account t) (started_at t) (last_sent_at t) (error t)
    (next_product_index t) (next_account_index t).

Definition set_sent_count (v : Z) (t : TaskStatus) : TaskStatus :=
  mkTaskStatus (is_running t) (is_paused t) (shop_id t) (channel_id t)
    (account_ids t) (interval t) (total_products t) v (current_product t)
    (current_account t) (started_at t) (last_sent_at t) (error t)
    (next_product_index t) (next_account_index t).

Definition set_current_product (v : option string) (t : TaskStatus) : TaskStatus :=
  mkTaskStatus (is_running t) (is_paused t) (shop_id t) (channel_id t)
    (account_ids t) (interval t) (total_products t) (sent_count t) v
    (current_account t) (started_at t) (last_sent_at t) (error t)
    (next_product_index t) (next_account_index t).

Definition set_current_account (v : option string) (t : TaskStatus) : TaskStatus :=
  mkTaskStatus (is_running t) (is_paused t) (shop_id t) (channel_id t)
    (account_ids t) (interval t) (total_products t) (sent_count t)
    (current_product t) v (started_at t) (last_sent_at t) (error t)
    (next_product_index t) (next_account_index t).

Definition set_started_at (v : option string) (t : TaskStatus) : TaskStatus :=
  mkTaskStatus (is_running t) (is_paused t) (shop_id t) (channel_id t)
    (account_ids t) (interval t) (total_products t) (sent_count t)
    (current_product t) (current_account t) v (last_sent_at t) (error t)
    (next_product_index t) (next_account_index t).

Definition set_last_sent_at (v : option string) (t : TaskStatus) : TaskStatus :=
  mkTaskStatus (is_running t) (is_paused t) (shop_id t) (channel_id t)
    (account_ids t) (interval t) (total_products t) (sent_count t)
    (current_product t) (current_account t) (started_at t) v (error t)
    (next_product_index t) (next_account_index t).

Definition set_error (v : option string) (t : TaskStatus) : TaskStatus :=
  mkTaskStatus (is_running t) (is_paused t) (shop_id t) (channel_id t)
    (account_ids t) (interval t) (total_products t) (sent_count t)
    (current_product t) (current_account t) (started_at t) (last_sent_at t) v
    (next_product_index t) (next_account_index t).

(** [next_product_index] and [next_account_index] are always assigned
    together. *)
Definition set_cursors (item bot : Z) (t : TaskStatus) : TaskStatus :=
  mkTaskStatus (is_running t) (is_paused t) (shop_id t) (channel_id t)
    (account_ids t) (interval t) (total_products t) (sent_count t)
    (current_product t) (current_account t) (started_at t) (last_sent_at t)
    (error t) item bot.

Definition set_task_status (t : TaskStatus) (w : World) : World :=
  mkWorld t (stop_sender_event w) (stop_sender_reason w) (db w) (submitted w).

Definition set_db (d : DB) (w : World) : World :=
  mkWorld (task_status w) (stop_sender_event w) (stop_sender_reason w) d
    (submitted w).

(** ** [reset_task_status], [_persist_task_state], [_has_online_bots] *)

Definition initial_task_status : TaskStatus :=
  mkTaskStatus false false None None [] None 0 0 None None None None None 0 0.

Definition reset_task_status (w : World) : World :=
  set_task_status initial_task_status w.

(** The dict [_persist_task_state] builds from [task_status]. *)
Definition saved_of (t : TaskStatus) : SavedState :=
  mkSavedState (is_running t) (is_paused t) (shop_id t) (channel_id t)
    (account_ids t) (interval t) (total_products t) (sent_count t)
    (next_product_index t) (next_account_index t) (current_product t)
    (current_account t) (started_at t) (last_sent_at t).

(** [_persist_task_state(db)] with [task_status = t]. Its [except
    Exception: return] has nothing to catch here: the store of this model
    does not raise. *)
Definition _persist_task_state (t : TaskStatus) (d : DB) : DB :=
  save_sender_task_state (saved_of t) d.

(** The test both [_has_online_bots] and the [active_bots] comprehension
    apply to a client. *)
Definition online_and_selected (ids : list Z) (client : Client) : bool :=
  match account_id client with
  | AttrInt a => bool_decide (a ∈ ids) && is_ready client && negb (is_closed client)
  | AttrNone | NoAttr => false
  end.

Definition _has_online_bots (bot_clients : list Client) (ids : list Z) : bool :=
  match ids with
  | [] => false
  | _ => existsb (online_and_selected ids) bot_clients
  end.

(** ** [load_task_state] *)

Definition int_or_none (o : option Z) : pyval := from_option PInt PNone o.
Definition str_or_none (o : option string) : pyval := from_option PStr PNone o.

Definition load_task_state (w : World) : World :=
  match get_sender_task_state (db w) with
  | None => w
  | Some state =>
      if negb (truthy (int_or_none (s_shop_id state)))
         || negb (truthy (str_or_none (s_channel_id state)))
      then w
      else
        let t :=
          mkTaskStatus false false (s_shop_id state) (s_channel_id state)
            (s_account_ids state) (s_interval state) (s_total_products state)
            (s_sent_count state) (s_current_product state)
            (s_current_account state) (s_started_at state)
            (s_last_sent_at state) None (s_next_product_index state)
            (s_next_account_index state) in
        if s_is_running state then
          let t := set_is_paused true (set_is_running false t) in
          set_db (_persist_task_state t (db w)) (set_task_status t w)
        else
          set_task_status (set_is_paused (s_is_paused state) t) w
  end.

(** ** [_extract_item_id] *)

(** The group [(\d+)] matched greedily at the head of [s]: the longest
    run of decimal digits, of whatever script. *)
Fixpoint leading_digits (s : string) : string :=
  match head_char s, s with
  | Some (cp, len), String c1 s1 =>
      if is_decimal cp then
        match len, s1 with
        | 1%nat, _ => String c1 (leading_digits s1)
        | 2%nat, String c2 s2 => String c1 (String c2 (leading_digits s2))
        | 3%nat, String c2 (String c3 s3) =>
            String c1 (String c2 (String c3 (leading_digits s3)))
        | 4%nat, String c2 (String c3 (String c4 s4)) =>
            String c1 (String c2 (String c3 (String c4 (leading_digits s4))))
        | _, _ => ""
        end
      else ""
  | _, _ => ""
  end.

Fixpoint drop_prefix (lit s : string) : option string :=
  match lit with
  | EmptyString => Some s
  | String a lit' =>
      match s with
      | String b s' => if Ascii.eqb a b then drop_prefix lit' s' else None
      | EmptyString => None
      end
  end.

(** [lit(\d+)] matched at the head of [s]; the group is returned. *)
Definition digits_after (lit s : string) : option string :=
  rest ← drop_prefix lit s;
  match leading_digits rest with
  | EmptyString => None
  | g => Some g
  end.

(** [re.search]: the leftmost position at which the pattern matches. *)
Fixpoint re_search (at_head : string → option string) (s : string) : option string :=
  match at_head s with
  | Some g => Some g
  | None =>
      match s with
      | String _ s' => re_search at_head s'
      | EmptyString => None
      end
  end.

(** [re.search(r'itemID=(\d+)', url)] *)
Definition search_itemID (url : string) : option string :=
  re_search (digits_after "itemID=") url.

(** [re.search(r'[?&]id=(\d+)', url)] *)
Definition search_id (url : string) : option string :=
  re_search
    (λ s, match s with
          | String c s' =>
              if Ascii.eqb c "?"%char || Ascii.eqb c "&"%char
              then digits_after "id=" s' else None
          | EmptyString => None
          end) url.

(** [a or b] on optional strings: the first truthy one. *)
Definition or_str (a b : option string) : option string :=
  if truthy (str_or_none a) then a else b.

Definition _extract_item_id (product : Product) : string :=
  if truthy (item_id product) then py_str (item_id product)
  else
    (* the SELECT has no acbuy_url column: product.get('acbuy_url') is None *)
    let url :=
      default "" (or_str (product_url product)
                    (or_str (cnfans_url product) (or_str None (Some "")))) in
    if negb (String.eqb url "") then
      match search_itemID url with
      | Some g => g
      | None =>
          match search_id url with
          | Some g => g
          | None => ""
          end
      end
    else "".

(** ** [auto_send_loop] *)

(** What the surroundings decide during one pass of the [while]: whether
    [stop_sender_event.is_set()] holds at the loop head, how the awaited
    [channel.send] ends and how the interruptible wait ends. *)
Inductive SendOutcome : Type :=
  | SendOk (stamp : string)   (* returns; [stamp] is the next [datetime.now()] *)
  | SendRaises                (* raises an [Exception] *)
  | SendCancelled.            (* raises [asyncio.CancelledError] *)

Inductive WaitOutcome : Type :=
  | Signalled                 (* [stop_sender_event.wait()] returned *)
  | TimedOut                  (* [asyncio.TimeoutError] *)
  | WaitCancelled.            (* [asyncio.CancelledError] *)

Record Tick : Type := mkTick {
  stop_is_set : bool;
  send_outcome : SendOutcome;
  wait_outcome : WaitOutcome }.

(** [start_stamp] is [datetime.now().isoformat()] at entry, [tick n] drives
    the [n]-th pass, [reason_at_exit] is the global [stop_sender_reason] as
    the [finally] block reads it (the control thread writes it). *)
Record Env : Type := mkEnv {
  start_stamp : string;
  tick : nat → Tick;
  reason_at_exit : option string }.

(** One [channel.send(message_content)] awaited by the loop. *)
Record Message : Type := mkMessage {
  sender : Client;
  to_channel : Z;
  content : string }.

(** The product index, the bot index and the bot chosen in one pass. *)
Record Pick : Type := mkPick {
  pick_product_idx : Z;
  pick_bot_idx : Z;
  pick_bot : Client }.

(** The loop's view of the globals together with what it did: [history]
    lists [task_status] after each group of assignments, [picks] the
    selections and [sends] the sends awaited, all in program order. *)
Record Run : Type := mkRun {
  status : TaskStatus;
  store : DB;
  history : list TaskStatus;
  picks : list Pick;
  sends : list Message }.

Inductive Exit : Type :=
  | Returned                  (* [return], [break] or the loop condition *)
  | Cancelled                 (* [except asyncio.CancelledError] *)
  | Raised (text : string)    (* [except Exception as e], [text] is [str(e)] *)
  | OutOfFuel.                (* the model's recursion bound was hit *)

(** How a pass of the loop ends: round again, or out with an [Exit]. *)
Inductive Next : Type :=
  | Again
  | Leave (ex : Exit).

Definition assign (f : TaskStatus → TaskStatus) (r : Run) : Run :=
  let t := f (status r) in
  mkRun t (store r) (history r ++ [t]) (picks r) (sends r).

Definition persist (r : Run) : Run :=
  mkRun (status r) (_persist_task_state (status r) (store r)) (history r)
    (picks r) (sends r).

Definition clear (r : Run) : Run :=
  mkRun (status r) (clear_sender_task_state (store r)) (history r)
    (picks r) (sends r).

Definition note_pick (p : Pick) (r : Run) : Run :=
  mkRun (status r) (store r) (history r) (picks r ++ [p]) (sends r).

Definition note_send (m : Message) (r : Run) : Run :=
  mkRun (status r) (store r) (history r) (picks r) (sends r ++ [m]).

(** [l[i]] for a Python list: negative indices count from the end, [None]
    stands for [IndexError]. *)
Definition py_index {A} (l : list A) (i : Z) : option A :=
  let j := if bool_decide (i < 0) then i + Z.of_nat (length l) else i in
  if bool_decide (j < 0) then None else l !! Z.to_nat j.

Definition newline : string := String (ascii_of_nat 10) EmptyString.

(** [f"{v}"] for an optional string: [None] prints as ["None"]. *)
Definition fmt (o : option string) : string := py_str (str_or_none o).

(** [message_content = f"{title}\n{link_to_send}"] *)
Definition message_content (product : Product) : string :=
  fmt (title product) +:+ newline +:+ fmt (product_url product).

(** [task_status['current_product']]: [_extract_item_id(product) or
    title[:50]]; [None] when [title] is [None] and the slice raises. *)
Definition product_label (product : Product) : option string :=
  let found := _extract_item_id product in
  if negb (String.eqb found "") then Some found
  else take_chars 50 <$> title product.

Section Loop.
Context (env : Env) (target_channel_id : string).
Context (products : list Product) (active_bots : list Client).

(** The inner [try]: the run after it, and whether a [CancelledError]
    left it. Every other exception is caught and logged there. *)
Definition attempt (tk : Tick) (product : Product) (current_bot : Client)
    (product_idx bot_idx : Z) (r : Run) : Run * bool :=
  match int_of_str target_channel_id with
  | None => (r, false)
  | Some cid =>
      if bool_decide (cid ∈ channels current_bot) then
        let r :=
          note_send (mkMessage current_bot cid (message_content product)) r in
        match send_outcome tk with
        | SendOk stamp =>
            (persist
               (assign (λ t, set_cursors (product_idx + 1) (bot_idx + 1)
                               (set_last_sent_at (Some stamp)
                                  (set_sent_count (sent_count t + 1) t))) r),
             false)
        | SendRaises => (r, false)
        | SendCancelled => (r, true)
        end
      else (r, false)
  end.

(** One pass of the [while]: the loop test, the body up to the wait, and
    whether the loop goes round again. *)
Definition pass (tk : Tick) (product_idx bot_idx : Z) (r : Run) : Run * Next :=
  if stop_is_set tk then (r, Leave Returned)
  else if bool_decide (Z.of_nat (length products) ≤ product_idx)
  then (r, Leave Returned)
  else
    match py_index products product_idx with
    | None => (r, Leave (Raised "list index out of range"))
    | Some product =>
        if bool_decide (length active_bots = 0%nat)
        then (r, Leave (Raised "integer modulo by zero"))
        else
          match py_index active_bots
                  (bot_idx `mod` Z.of_nat (length active_bots)) with
          | None => (r, Leave (Raised "list index out of range"))
          | Some current_bot =>
              let r := note_pick (mkPick product_idx bot_idx current_bot) r in
              match product_label product with
              | None =>
                  (r, Leave (Raised "'NoneType' object is not subscriptable"))
              | Some label =>
                  let r :=
                    persist
                      (assign (λ t, set_cursors product_idx bot_idx
                                      (set_current_account (user current_bot)
                                         (set_current_product (Some label) t)))
                         r) in
                  match attempt tk product current_bot product_idx bot_idx r with
                  | (r, true) => (r, Leave Cancelled)
                  | (r, false) =>
                      match wait_outcome tk with
                      | Signalled => (r, Leave Returned)
                      | WaitCancelled => (r, Leave Cancelled)
                      | TimedOut => (r, Again)
                      end
                  end
              end
          end
    end.

(** The [while not stop_sender_event.is_set()] loop; [n] counts the
    passes, [product_idx] and [bot_idx] are the loop's local cursors, both
    incremented at the end of a pass. *)
Fixpoint send_loop (fuel n : nat) (product_idx bot_idx : Z) (r : Run)
    : Run * Exit :=
  match fuel with
  | O => (r, OutOfFuel)
  | S fuel' =>
      match pass (tick env n) product_idx bot_idx r with
      | (r', Again) => send_loop fuel' (S n) (product_idx + 1) (bot_idx + 1) r'
      | (r', Leave ex) => (r', ex)
      end
  end.
End Loop.

(** The [active_bots] comprehension. *)
Definition active_bots_of (bot_clients : list Client) (ids : list Z) : list Client :=
  List.filter (online_and_selected ids) bot_clients.

(** The items the loop loads: the rows of the shop, none when the shop is
    unknown. *)
Definition loaded_products (shop : Z) (d : DB) : list Product :=
  match get_shop_by_id shop d with
  | Some shop_name => select_products shop_name d
  | None => []
  end.

Section AutoSend.
Context (shop_id : Z) (target_channel_id : string)
        (selected_account_ids : list Z) (interval : Z)
        (bot_clients : list Client)
        (start_product_index start_account_index : Z)
        (env : Env).

(** Lines 169-179: the assignments at entry. *)
Definition enter (r : Run) : Run :=
  persist
    (assign (λ t, set_cursors (Z.max 0 start_product_index)
                    (Z.max 0 start_account_index)
                    (set_error None
                       (set_started_at (Some (start_stamp env))
                          (set_target (Some shop_id) (Some target_channel_id)
                             selected_account_ids (Some interval)
                             (set_is_paused false (set_is_running true t))))))
       r).

(** The body of the outer [try]. *)
Definition try_body (r : Run) : Run * Exit :=
  match get_shop_by_id shop_id (store r) with
  | None =>
      (assign (set_error (Some ("店铺 " +:+ str_of_int shop_id +:+ " 不存在"))) r,
       Returned)
  | Some shop_name =>
      let products := select_products shop_name (store r) in
      match products with
      | [] =>
          (assign (set_error
                     (Some ("店铺 '" +:+ shop_name
                            +:+ "' 没有商品数据，请先执行抓取"))) r,
           Returned)
      | _ :: _ =>
          let total := Z.of_nat (length products) in
          let r := assign (set_total_products total) r in
          if bool_decide (total ≤ next_product_index (status r)) then
            (persist
               (assign (λ t, set_current_product None (set_sent_count total t)) r),
             Returned)
          else
            let active_bots := active_bots_of bot_clients selected_account_ids in
            match active_bots with
            | [] =>
                (assign (set_error (Some "没有选中的账号在线，请先启动账号")) r,
                 Returned)
            | _ :: _ =>
                let product_idx := next_product_index (status r) in
                let bot_idx := next_account_index (status r) in
                let r := assign (set_sent_count product_idx) r in
                send_loop env target_channel_id products active_bots
                  (S (Z.to_nat (total - product_idx))) 0
                  product_idx bot_idx r
            end
      end
  end.

(** The [except] clauses and the [finally] block. *)
Definition leave (x : Run * Exit) : Run :=
  let r :=
    match x.2 with
    | Raised text => assign (set_error (Some text)) x.1
    | Returned | Cancelled | OutOfFuel => x.1
    end in
  let r := assign (set_is_running false) r in
  if decide (reason_at_exit env = Some "pause")
  then persist (assign (set_is_paused true) r)
  else clear (assign (set_is_paused false) r).

(** [auto_send_loop] run to its end from [task_status = t] and database
    [d]. *)
Definition auto_send_loop (t : TaskStatus) (d : DB) : Run :=
  leave (try_body (enter (mkRun t d [] [] []))).
End AutoSend.

(** The coroutine [start_sending_task] submitted, run by the event loop
    on the globals of [w]. *)
Definition run_call (c : LoopCall) (bot_clients : list Client) (env : Env)
    (w : World) : Run :=
  auto_send_loop (call_shop_id c) (call_target_channel_id c)
    (call_selected_account_ids c) (call_interval c) bot_clients
    (call_start_product_index c) (call_start_account_index c) env
    (task_status w) (db w).

(** ** [start_sending_task], [stop_sending_task], [pause_sending_task],
    [resume_sending_task] *)

Definition submit (c : LoopCall) (w : World) : World :=
  mkWorld (task_status w) (stop_sender_event w) (stop_sender_reason w) (db w)
    (submitted w ++ [c]).

Definition start_sending_task
    (shop : Z) (channel : string) (accounts : list Z) (every : Z)
    (bot_loop : EventLoop)
    (start_product_index start_account_index : Z) (resume : bool)
    (w : World) : Reply * World :=
  if is_running (task_status w) || (is_paused (task_status w) && negb resume)
  then (Failure "已有任务正在运行或已暂停，请先停止或继续", w)
  else
    (* stop_sender_event.clear(); stop_sender_reason = None *)
    let w := mkWorld (task_status w) false None (db w) (submitted w) in
    let w := reset_task_status w in
    let t :=
      set_cursors (Z.max 0 start_product_index) (Z.max 0 start_account_index)
        (set_target (Some shop) (Some channel) accounts (Some every)
           (task_status w)) in
    let t :=
      if resume then set_sent_count (Z.max 0 start_product_index) t else t in
    let w := set_task_status t w in
    match bot_loop with
    | LoopOk =>
        (Success "自动发送任务已启动",
         submit (mkLoopCall shop channel accounts every start_product_index
                   start_account_index) w)
    | LoopError text => (Failure text, w)
    end.

(** [with_db] tells whether the optional [db] argument was given. *)
Definition stop_sending_task (with_db : bool) (w : World) : Reply * World :=
  if negb (is_running (task_status w)) && negb (is_paused (task_status w))
  then (Failure "当前没有运行中的任务", w)
  else
    (Success "任务停止指令已发送",
     mkWorld (set_is_paused false (task_status w)) true (Some "stop")
       (if with_db then clear_sender_task_state (db w) else db w)
       (submitted w)).

Definition pause_sending_task (w : World) : Reply * World :=
  if negb (is_running (task_status w))
  then (Failure "当前没有运行中的任务", w)
  else
    (Success "任务暂停指令已发送",
     mkWorld (task_status w) true (Some "pause") (db w) (submitted w)).

(** [x or d] on an optional integer. *)
Definition or_int (x : option Z) (d : Z) : Z :=
  if truthy (int_or_none x) then default d x else d.

Definition resume_sending_task (bot_clients : list Client) (bot_loop : EventLoop)
    (w : World) : Reply * World :=
  match get_sender_task_state (db w) with
  | None => (Failure "没有可继续的任务", w)
  | Some state =>
      if negb (truthy (int_or_none (s_shop_id state)))
         || negb (truthy (str_or_none (s_channel_id state)))
      then (Failure "没有可继续的任务", w)
      else if is_running (task_status w)
      then (Failure "任务正在运行中", w)
      else
        let accounts := s_account_ids state in
        if negb (_has_online_bots bot_clients accounts)
        then (Failure "没有选中的账号在线，请先启动账号", w)
        else
          start_sending_task
            (default 0 (s_shop_id state)) (default "" (s_channel_id state))
            accounts (or_int (s_interval state) 60) bot_loop
            (or_int (Some (s_next_product_index state)) 0)
            (or_int (Some (s_next_account_index state)) 0)
            true w
  end.

End Sender.

(* ===================================================================== *)
(** * Properties of a run of the loop *)
(* ===================================================================== *)

Module Trace.
Import Sender.

(** The values [task_status['next_product_index']] takes, in order. *)
Definition item_cursors (r : Run) : list Z :=
  next_product_index <$> history r.

Definition nondecreasing (l : list Z) : Prop :=
  ∀ (i : nat) (a b : Z), l !! i = Some a → l !! S i = Some b → a ≤ b.

(** The history ends with the current [task_status], its item cursors never
    decrease and none exceeds [hi]. *)
Definition tracked (hi : Z) (r : Run) : Prop :=
  last (history r) = Some (status r)
  ∧ nondecreasing (item_cursors r)
  ∧ ∀ c, c ∈ item_cursors r → c ≤ hi.

End Trace.

(* ===================================================================== *)
(** * The send section of [DiscordBotClient.schedule_reply] *)
(* ===================================================================== *)

Module Reply.
Import Py Cooldown.
Export Sender (attr, NoAttr, AttrNone, AttrInt, Client, mkClient,
               account_id, is_ready, is_closed, user, channels).

(** How an awaited call ends. *)
Inductive Outcome : Type :=
  | Done
  | Raises.

(** What the surroundings decide while step 5 runs: whether the typing
    pause goes through, the image files collected for the reply, how the
    send with [reference=message] and the plain send end, and the clock
    readings [set_account_cooldown] takes after each. *)
Record Env : Type := mkEnv {
  typing : Outcome;
  files : list string;
  rich_send : Outcome;
  plain_send : Outcome;
  now_rich : Z;
  now_plain : Z }.

(** One [target_channel.send(..)] awaited: [text] and [attachments] are its
    [content] and [files], [is_reference] tells whether it carried
    [reference=message], [delivered] whether it returned. *)
Record Sent : Type := mkSent {
  via : Client;
  channel : Z;
  text : option string;
  attachments : list string;
  is_reference : bool;
  delivered : bool }.

(** The logger calls of step 5, by level and place. *)
Inductive LogLine : Type :=
  | WarnNoContent        (* nothing to send *)
  | InfoReplied          (* reply sent *)
  | WarnReplyFailed      (* reply failed, trying a direct send *)
  | InfoSentPlain        (* direct send done *)
  | WarnNoAccess         (* the chosen account cannot reach the channel *)
  | ErrorSend.           (* [except Exception] around step 5 *)

Record State : Type := mkState {
  account_last_sent : table;
  sent : list Sent;
  log : list LogLine }.

(** Step 5 is a sequence of effects on [State] in which an exception may
    propagate: [None] is a raised exception, and what was done before it
    stays done. *)
Definition M (A : Type) : Type := State → State * option A.

Definition ret {A} (a : A) : M A := λ s, (s, Some a).

Definition raise {A} : M A := λ s, (s, None).

Definition bind {A B} (m : M A) (k : A → M B) : M B :=
  λ s, match m s with
       | (s', Some a) => k a s'
       | (s', None) => (s', None)
       end.

(** [try: m  except Exception: h] *)
Definition catch {A} (m h : M A) : M A :=
  λ s, match m s with
       | (s', None) => h s'
       | done => done
       end.

Definition act (f : State → State) : M unit := λ s, (f s, Some tt).

Declare Scope reply_scope.
Delimit Scope reply_scope with reply.
Notation "m1 ;; m2" := (bind m1 (λ _, m2))
  (at level 100, m2 at level 200, right associativity) : reply_scope.
Local Open Scope reply_scope.

Definition add_log (l : LogLine) (s : State) : State :=
  mkState (account_last_sent s) (sent s) (log s ++ [l]).

Definition add_sent (m : Sent) (s : State) : State :=
  mkState (account_last_sent s) (sent s ++ [m]) (log s).

Definition is_done (o : Outcome) : bool :=
  match o with Done => true | Raises => false end.

Definition await (o : Outcome) : M unit :=
  match o with Done => ret tt | Raises => raise end.

(** [await target_channel.send(..)]: the call is recorded, then it returns
    or raises. *)
Definition send (target_client : Client) (channel_id : Z)
    (content : option string) (attached : list string) (reference : bool)
    (o : Outcome) : M unit :=
  act (add_sent (mkSent target_client channel_id content attached reference
                   (is_done o))) ;;
  await o.

(** [if hasattr(target_client, 'account_id') and target_client.account_id:
    set_account_cooldown(target_client.account_id, message.channel.id)].
    [message.channel.id] is an [int]; [int(..)] of an [int] does not raise,
    so the call returns. *)
Definition mark_if_account (target_client : Client) (channel_id now : Z)
    (s : State) : State :=
  match account_id target_client with
  | AttrInt a =>
      if truthy (PInt a) then
        mkState
          (default (account_last_sent s)
             (set_account_cooldown (PInt a) (PInt channel_id) now
                (account_last_sent s)))
          (sent s) (log s)
      else s
  | AttrNone | NoAttr => s
  end.

(** A log line that formats [target_client.user.name]: the attribute access
    raises when the client has no user. *)
Definition log_with_user (l : LogLine) (target_client : Client) : M unit :=
  match user target_client with
  | Some _ => act (add_log l)
  | None => raise
  end.

(** [content=response_content if response_content else None] *)
Definition content_or_none (response_content : string) : option string :=
  if negb (String.eqb response_content "") then Some response_content else None.

Section Step5.
Context (env : Env) (target_client : Client) (channel_id : Z)
        (response_content : string).

(** The inner [try] block from the send on. *)
Definition rich : M unit :=
  send target_client channel_id (content_or_none response_content)
    (files env) true (rich_send env) ;;
  act (mark_if_account target_client channel_id (now_rich env)) ;;
  log_with_user InfoReplied target_client.

(** The [except Exception as reply_error] branch. *)
Definition fallback : M unit :=
  act (add_log WarnReplyFailed) ;;
  (if negb (String.eqb response_content "")
   then send target_client channel_id (Some response_content) [] false
          (plain_send env)
   else ret tt) ;;
  act (mark_if_account target_client channel_id (now_plain env)) ;;
  log_with_user InfoSentPlain target_client.

(** [if target_client:] with its [try .. except Exception as e]. *)
Definition step5 : M unit :=
  catch
    (if bool_decide (channel_id ∈ channels target_client) then
       await (typing env) ;;
       if String.eqb response_content "" && bool_decide (files env = [])
       then act (add_log WarnNoContent)
       else catch rich fallback
     else log_with_user WarnNoAccess target_client)
    (act (add_log ErrorSend)).
End Step5.

(** Step 5 of [schedule_reply] for the chosen [target_client]
    ([None] when no client has the selected id). *)
Definition send_reply (env : Env) (target_client : option Client)
    (channel_id : Z) (response_content : string) (s : State) : State :=
  match target_client with
  | None => s
  | Some c => (step5 env c channel_id response_content s).1
  end.

End Reply.

(* ===================================================================== *)
(** * Sample data for the worked examples *)
(* ===================================================================== *)

Module Demo.
Import Py Sender.

(** A campaign for shop 1 into channel 900 with accounts 7 and 8, every
    60 units, stopped after two of five items. *)
Definition demo_status : TaskStatus :=
  mkTaskStatus true false (Some 1) (Some "900") [7; 8] (Some 60) 5 2
    (Some "1001") (Some "bot7") (Some "2024-05-01T10:00:00")
    (Some "2024-05-01T10:01:00") None 2 2.

Definition demo_db (saved : option SavedState) : DB :=
  mkDB saved {[ 1 := "shop" ]} [].

Definition demo_world (t : TaskStatus) (saved : option SavedState) : World :=
  mkWorld t false None (demo_db saved) [].

Definition bot (a : Z) (ready closed : bool) : Client :=
  mkClient (AttrInt a) ready closed (Some "bot") [900].

(** Five items of shop 1 and two online accounts, as in the end-to-end
    scenario of the specification. *)
Definition item (n : Z) : Product :=
  mkProduct "shop" n
    (Some ("https://weidian.com/item.html?itemID=" +:+ str_of_int (1000 + n)))
    (Some ("item " +:+ str_of_int n)) None PNone.

Definition five_items : DB :=
  mkDB None {[ 1 := "shop" ]} (item <$> [0; 1; 2; 3; 4]).

(** Shop 1 after all its items were removed. *)
Definition no_items : DB := mkDB None {[ 1 := "shop" ]} [].

Definition bot7 : Client := mkClient (AttrInt 7) true false (Some "bot7") [900].
Definition bot8 : Client := mkClient (AttrInt 8) true false (Some "bot8") [900].

(** Every send goes through, every wait times out, nobody pauses. *)
Definition calm : Env :=
  mkEnv "T0" (λ _, mkTick false (SendOk "T1") TimedOut) None.

(** The first send raises and a pause arrives during the wait after it. *)
Definition fail_then_pause : Env :=
  mkEnv "T0" (λ _, mkTick false SendRaises Signalled) (Some "pause").

(** A pause is pending when the loop leaves. *)
Definition pause_pending : Env :=
  mkEnv "T0" (λ _, mkTick false (SendOk "T1") TimedOut) (Some "pause").

(** A reply that consists of one image and no text, whose send with
    [reference=message] raises. *)
Definition image_only_fails : Reply.Env :=
  Reply.mkEnv Reply.Done ["a.jpg"] Reply.Raises Reply.Done 1000 1001.

(** A text reply whose first send raises and whose plain send goes
    through. *)
Definition rich_fails_plain_works : Reply.Env :=
  Reply.mkEnv Reply.Done [] Reply.Raises Reply.Done 1000 1001.

(** A text reply whose first send goes through. *)
Definition rich_works : Reply.Env :=
  Reply.mkEnv Reply.Done [] Reply.Done Reply.Done 1000 1001.

(** A client whose [account_id] was left at the constructor default. *)
Definition anonymous_bot : Client := mkClient AttrNone true false (Some "bot") [900].

Definition fresh : Reply.State := Reply.mkState ∅ [] [].

End Demo.

(* ===================================================================== *)
(** * [get_all_cooldowns] of [bot.py] *)
(* ===================================================================== *)

Module CooldownView.
Import Py Cooldown.

(** One dict of the list [get_all_cooldowns] returns. *)
Record CooldownInfo : Type := mkCooldownInfo {
  info_account_id : Z;
  info_channel_id : string;
  info_last_sent : Z;
  info_time_passed : Z }.

(** The body of the [for key, last_sent in snapshot.items()] loop: the
    dict appended for an entry, none when the entry is 24h old or older.
    [int(acc_id)] and [str(ch_id)] leave the parts of a stored key as they
    are. *)
Definition describe (current_time : Z) (entry : Z * string * Z)
    : option CooldownInfo :=
  let time_passed := current_time - entry.2 in
  if bool_decide (time_passed < 86400)
  then Some (mkCooldownInfo entry.1.1 entry.1.2 entry.2 time_passed)
  else None.

(** [get_all_cooldowns()] at clock reading [current_time]. The table is a
    finite map, so the order of the list is the map's, not the order in
    which the entries were first set. *)
Definition get_all_cooldowns (current_time : Z) (account_last_sent : table)
    : list CooldownInfo :=
  omap (describe current_time) (map_to_list account_last_sent).

End CooldownView.

(* ===================================================================== *)
(** * Choosing the sender in [DiscordBotClient.schedule_reply] *)
(* ===================================================================== *)

Module Select.
Import Py Cooldown Reply.

#[global] Instance attr_eq_dec : EqDecision attr.
Proof. solve_decision. Defined.

(** What steps 2 to 4 of [schedule_reply] end in. *)
Inductive Selection : Type :=
  | NotConfigured      (* [db_sender_ids] is empty *)
  | AllOffline         (* no configured sender is online *)
  | AllCooling         (* rotation: every online sender is cooling down *)
  | Inconsistent       (* the [else] of [if available_senders:] *)
  | Crashed            (* an exception reached the outer [except] *)
  | Chosen (selected_id : Z) (target_client : option Client).

(** The clock readings and the random draw of one call: [clean_clock] is
    read by [cleanup_expired_cooldowns], [check_clock k] by the [k]-th
    [is_account_on_cooldown], and [random.choice] takes the element at
    [draw mod len]. *)
Record Oracle : Type := mkOracle {
  clean_clock : Z;
  check_clock : nat → Z;
  draw : nat }.

(** The website configuration of the channel as step 3 uses it: the sender
    ids bound to it and the rotation settings, user-level override
    applied. *)
Record Binding : Type := mkBinding {
  db_sender_ids : list Z;
  rotation_enabled : bool;
  rotation_interval : Z }.

(** [[c.account_id for c in bot_clients if c.is_ready() and not
    c.is_closed()]]; [None] when a client without the attribute is reached
    and the access raises. *)
Fixpoint online_client_ids (bot_clients : list Client) : option (list attr) :=
  match bot_clients with
  | [] => Some []
  | c :: rest =>
      if is_ready c && negb (is_closed c) then
        match account_id c with
        | NoAttr => None
        | a => cons a <$> online_client_ids rest
        end
      else online_client_ids rest
  end.

(** [[uid for uid in db_sender_ids if uid in online_client_ids]] *)
Definition valid_senders (sender_ids : list Z) (online : list attr) : list Z :=
  filter (λ uid, AttrInt uid ∈ online) sender_ids.

(** [[uid for uid in valid_senders if not is_account_on_cooldown(uid,
    message.channel.id, rotation_interval)]]; the [k]-th call reads the
    clock at [check_clock (from + k)]. [None] when a call raises. *)
Fixpoint not_cooling (valid : list Z) (channel_id interval : Z)
    (o : Oracle) (from : nat) (account_last_sent : table) : option (list Z) :=
  match valid with
  | [] => Some []
  | uid :: rest =>
      cooling ← is_account_on_cooldown (PInt uid) (PInt channel_id) interval
                  (check_clock o from) account_last_sent;
      tail ← not_cooling rest channel_id interval o (S from) account_last_sent;
      Some (if cooling : bool then tail else uid :: tail)
  end.

(** [next((c for c in bot_clients if c.account_id == selected_id), None)];
    the outer [None] stands for the [AttributeError] of a client without
    the attribute. *)
Fixpoint find_client (selected_id : Z) (bot_clients : list Client)
    : option (option Client) :=
  match bot_clients with
  | [] => Some None
  | c :: rest =>
      match account_id c with
      | NoAttr => None
      | AttrNone => find_client selected_id rest
      | AttrInt a =>
          if bool_decide (a = selected_id) then Some (Some c)
          else find_client selected_id rest
      end
  end.

(** Steps 2 to 4 of [schedule_reply], the log line that names the chosen
    client included: a client without [user] makes it raise. *)
Definition select_sender (b : Binding) (bot_clients : list Client)
    (channel_id : Z) (o : Oracle) (account_last_sent : table) : Selection :=
  match db_sender_ids b with
  | [] => NotConfigured
  | _ :: _ =>
      match online_client_ids bot_clients with
      | None => Crashed
      | Some online =>
          match valid_senders (db_sender_ids b) online with
          | [] => AllOffline
          | valid =>
              let available :=
                if rotation_enabled b
                then not_cooling valid channel_id (rotation_interval b) o 0
                       account_last_sent
                else Some valid in
              match available with
              | None => Crashed
              | Some [] => if rotation_enabled b then AllCooling else Inconsistent
              | Some available_senders =>
                  match available_senders
                          !! (draw o `mod` length available_senders)%nat with
                  | None => Crashed
                  | Some selected_id =>
                      match find_client selected_id bot_clients with
                      | None => Crashed
                      | Some target_client =>
                          (* the log line of step 4 formats
                             [target_client.user.name] *)
                          match target_client with
                          | Some c =>
                              if bool_decide (user c = None) then Crashed
                              else Chosen selected_id target_client
                          | None => Chosen selected_id target_client
                          end
                      end
                  end
              end
          end
      end
  end.

(** [schedule_reply] from [cleanup_expired_cooldowns()] on, for the reply
    text already generated: [binding] is the website configuration of the
    channel ([None]: the channel is not bound, nothing is sent). Only the
    logger calls of step 5 are kept in the log. *)
Definition schedule_reply (binding : option Binding) (bot_clients : list Client)
    (channel_id : Z) (response_content : string)
    (o : Oracle) (env : Env) (s : State) : State :=
  let s :=
    mkState (cleanup_expired_cooldowns (clean_clock o) (account_last_sent s))
      (sent s) (log s) in
  match binding with
  | None => s
  | Some b =>
      match select_sender b bot_clients channel_id o (account_last_sent s) with
      | Chosen _ target_client =>
          send_reply env target_client channel_id response_content s
      | NotConfigured | AllOffline | AllCooling | Inconsistent | Crashed => s
      end
  end.

End Select.

(* ===================================================================== *)
(** * The [/api/sender/start] endpoint of [app.py] *)
(* ===================================================================== *)

Module App.
Import Py Sender.

(** [config.DEFAULT_SEND_INTERVAL], [MIN_SEND_INTERVAL],
    [MAX_SEND_INTERVAL]. *)
Definition DEFAULT_SEND_INTERVAL : Z := 60.
Definition MIN_SEND_INTERVAL : Z := 10.
Definition MAX_SEND_INTERVAL : Z := 3600.

(** The JSON body of the request, for fields that are [null], an integer
    or a string: [None] is a missing key, except that for ['accountIds'] it
    also stands for [null] (a missing key gives [[]], and both fail the same
    test). *)
Record StartRequest : Type := mkStartRequest {
  shopId : option pyval;
  channelId : option pyval;
  accountIds : option (list pyval);
  interval_field : option pyval }.

(** The Flask response: the status code and, for 200 and 400, the dict.
    A 500 carries [str(e)] of the exception, which is not modelled. *)
Inductive Response : Type :=
  | Http200 (body : Reply)
  | Http400 (body : Reply)
  | Http500.

(** [max(config.MIN_SEND_INTERVAL, min(interval, config.MAX_SEND_INTERVAL))];
    [None] when the comparison of an [int] with [None] or a [str] raises
    [TypeError]. *)
Definition clamp_interval (v : pyval) : option Z :=
  match v with
  | PInt z => Some (Z.max MIN_SEND_INTERVAL (Z.min z MAX_SEND_INTERVAL))
  | PNone | PStr _ => None
  end.

(** [[int(id) for id in account_ids]] *)
Definition int_list (ids : list pyval) : option (list Z) := mapM py_int ids.

(** [start_sender()] for the body [data] ([None]: no JSON body, and
    [data.get] raises), with the global [bot_loop]. *)
Definition start_sender (data : option StartRequest) (bot_loop : EventLoop)
    (w : World) : Response * World :=
  match data with
  | None => (Http500, w)
  | Some data =>
      let shop_id := default PNone (shopId data) in
      let channel_id := default PNone (channelId data) in
      let account_ids := default [] (accountIds data) in
      let interval := default (PInt DEFAULT_SEND_INTERVAL) (interval_field data) in
      if negb (truthy shop_id) then (Http400 (Failure "请选择店铺"), w)
      else if negb (truthy channel_id)
      then (Http400 (Failure "请输入目标频道ID"), w)
      else
        match account_ids with
        | [] => (Http400 (Failure "请选择至少一个账号"), w)
        | _ :: _ =>
            match clamp_interval interval, py_int shop_id, int_list account_ids with
            | Some every, Some shop, Some accounts =>
                let out :=
                  start_sending_task shop (py_str channel_id) accounts every
                    bot_loop 0 0 false w in
                match out.1 with
                | Success _ => (Http200 out.1, out.2)
                | Failure _ => (Http400 out.1, out.2)
                end
            | _, _, _ => (Http500, w)
            end
        end
  end.

(** [stop_sender()], [pause_sender()] and [resume_sender()]: the scheduler's
    answer with 200 for success and 400 otherwise. *)
Definition answer (out : Reply * World) : Response * World :=
  match out.1 with
  | Success _ => (Http200 out.1, out.2)
  | Failure _ => (Http400 out.1, out.2)
  end.

Definition stop_sender (w : World) : Response * World :=
  answer (stop_sending_task true w).

Definition pause_sender (w : World) : Response * World :=
  answer (pause_sending_task w).

Definition resume_sender (bot_clients : list Client) (bot_loop : EventLoop)
    (w : World) : Response * World :=
  answer (resume_sending_task bot_clients bot_loop w).

End App.

(* ===================================================================== *)
(** * What the passes of the loop keep *)
(* ===================================================================== *)

Module LoopInv.
Import Sender.

(** The keys of [task_status] no pass of the [while] assigns. *)
Definition same_campaign (t1 t2 : TaskStatus) : Prop :=
  shop_id t1 = shop_id t2
  ∧ channel_id t1 = channel_id t2
  ∧ account_ids t1 = account_ids t2
  ∧ interval t1 = interval t2
  ∧ started_at t1 = started_at t2
  ∧ total_products t1 = total_products t2
  ∧ is_running t1 = is_running t2
  ∧ is_paused t1 = is_paused t2
  ∧ error t1 = error t2.

(** The counters at the head of a pass whose local item cursor is
    [product_idx]: [sent_count] is at most the stored item cursor, which is
    at most the local one. *)
Definition counters_in_step (product_idx : Z) (t : TaskStatus) : Prop :=
  sent_count t ≤ next_product_index t ∧ next_product_index t ≤ product_idx.

(** The surroundings never stop or cancel the loop: the stop event is
    never seen set, every wait times out and no send is cancelled. *)
Definition undisturbed (env : Env) : Prop :=
  ∀ n, stop_is_set (tick env n) = false
       ∧ wait_outcome (tick env n) = TimedOut
       ∧ send_outcome (tick env n) ≠ SendCancelled.


End LoopInv.

(* ===================================================================== *)
(** * Facts about the Python conversions *)
(* ===================================================================== *)

Module PyFacts.
Import Py.

(** ** [int(str(n)) == n] *)

Lemma digits_value_uint d : ∀ acc,
  digits_value acc true (NilEmpty.string_of_uint d) = Some (uint_val acc d).
Proof.
  induction d; intros acc; simpl; try reflexivity; apply IHd.
Qed.

Lemma digits_value_uint_nonnil d acc :
  d ≠ Nil →
  digits_value acc false (NilEmpty.string_of_uint d) = Some (uint_val acc d).
Proof.
  destruct d; intros Hd; try congruence; simpl; apply digits_value_uint.
Qed.

Lemma uint_val_acc d : ∀ acc : positive,
  uint_val (Z.pos acc) d = Z.pos (Pos.of_uint_acc d acc).
Proof.
  induction d; intros acc; simpl; try reflexivity;
    rewrite <- IHd; f_equal; lia.
Qed.

Lemma uint_val_of_uint d : uint_val 0 d = Z.of_N (Pos.of_uint d).
Proof.
  induction d; simpl; try reflexivity; try assumption;
    match goal with
    | |- uint_val ?a _ = _ =>
        change a with (Z.pos (Z.to_pos a)); apply uint_val_acc
    end.
Qed.

Lemma uint_val_to_uint p : uint_val 0 (Pos.to_uint p) = Z.pos p.
Proof.
  rewrite uint_val_of_uint, DecimalPos.Unsigned.of_to. reflexivity.
Qed.

Lemma rstrip_uint d :
  rstrip (NilEmpty.string_of_uint d) = NilEmpty.string_of_uint d.
Proof.
  induction d; simpl; try reflexivity; rewrite IHd;
    destruct (NilEmpty.string_of_uint d); reflexivity.
Qed.

Lemma strip_uint d :
  strip (NilEmpty.string_of_uint d) = NilEmpty.string_of_uint d.
Proof.
  unfold strip. destruct d; simpl lstrip; try reflexivity;
    match goal with
    | |- rstrip (String ?c (NilEmpty.string_of_uint ?d)) = _ =>
        simpl; rewrite (rstrip_uint d);
        destruct (NilEmpty.string_of_uint d); reflexivity
    end.
Qed.

Lemma nilzero_to_uint p :
  NilZero.string_of_uint (Pos.to_uint p) = NilEmpty.string_of_uint (Pos.to_uint p).
Proof.
  pose proof (DecimalPos.Unsigned.to_uint_nonnil p) as Hn.
  unfold NilZero.string_of_uint. destruct (Pos.to_uint p); congruence.
Qed.

Lemma ascii_text_uint d : ascii_text (NilEmpty.string_of_uint d) = true.
Proof. induction d; simpl; try reflexivity; exact IHd. Qed.

Lemma long_from_string_uint d :
  d ≠ Nil →
  long_from_string (NilEmpty.string_of_uint d) = Some (uint_val 0 d).
Proof.
  intros Hd. unfold long_from_string. rewrite strip_uint.
  destruct d; try congruence; simpl; apply digits_value_uint.
Qed.

Lemma int_of_str_uint d :
  d ≠ Nil →
  int_of_str (NilEmpty.string_of_uint d) = Some (uint_val 0 d).
Proof.
  intros Hd. unfold int_of_str. rewrite ascii_text_uint.
  apply long_from_string_uint, Hd.
Qed.

(** Printing an integer and reading it back gives the integer. *)
Lemma int_of_str_of_int z : int_of_str (str_of_int z) = Some z.
Proof.
  unfold str_of_int. destruct z as [|p|p]; simpl.
  - reflexivity.
  - rewrite nilzero_to_uint, int_of_str_uint
      by apply DecimalPos.Unsigned.to_uint_nonnil.
    now rewrite uint_val_to_uint.
  - rewrite nilzero_to_uint. unfold int_of_str.
    assert (Ha : ascii_text (String "-" (NilEmpty.string_of_uint (Pos.to_uint p)))
                 = true) by apply (ascii_text_uint (Pos.to_uint p)).
    rewrite Ha. unfold long_from_string, strip.
    change (lstrip (String "-" ?s)) with (String "-" s).
    assert (Hr : rstrip (String "-" (NilEmpty.string_of_uint (Pos.to_uint p)))
                 = String "-" (NilEmpty.string_of_uint (Pos.to_uint p))).
    { simpl. rewrite rstrip_uint.
      destruct (NilEmpty.string_of_uint (Pos.to_uint p)); reflexivity. }
    rewrite Hr. simpl.
    rewrite digits_value_uint_nonnil
      by apply DecimalPos.Unsigned.to_uint_nonnil.
    simpl. now rewrite uint_val_to_uint.
Qed.

End PyFacts.

(* ===================================================================== *)
(** * The cooldown table: contract and key normalisation *)
(* ===================================================================== *)

Module CooldownFacts.
Import Py Cooldown PyFacts.

Example int_of_str_padded : int_of_str " 5 " = Some 5.
Proof. reflexivity. Qed.

Example int_of_str_grouped : int_of_str "1_000" = Some 1000.
Proof. reflexivity. Qed.

Example int_of_str_rejects : int_of_str "12a" = None ∧ int_of_str "_1" = None.
Proof. split; reflexivity. Qed.

Example str_of_int_negative : str_of_int (-12) = "-12".
Proof. reflexivity. Qed.

(** An id given as an [int] or as its decimal text converts to the same
    integer. *)
Lemma py_int_repr (a : Z) (v : pyval) :
  v ∈ [PInt a; PStr (str_of_int a)] → py_int v = Some a.
Proof.
  rewrite !elem_of_cons, elem_of_nil.
  intros [-> | [-> | []]]; simpl; [reflexivity | apply int_of_str_of_int].
Qed.

Lemma py_str_repr (c : Z) (v : pyval) :
  v ∈ [PInt c; PStr (str_of_int c)] → py_str v = str_of_int c.
Proof.
  rewrite !elem_of_cons, elem_of_nil.
  intros [-> | [-> | []]]; reflexivity.
Qed.

Lemma cooldown_key_repr (a c : Z) (id ch : pyval) :
  id ∈ [PInt a; PStr (str_of_int a)] →
  ch ∈ [PInt c; PStr (str_of_int c)] →
  cooldown_key id ch = Some (a, str_of_int c).
Proof.
  intros Hid Hch. unfold cooldown_key.
  rewrite (py_int_repr a id Hid), (py_str_repr c ch Hch). reflexivity.
Qed.

(** A check after a mark under the same key compares the clock with the
    mark. *)
Lemma check_after_mark (key : Z * string) (id1 ch1 id2 ch2 : pyval)
    (interval t now : Z) (tbl : table) :
  cooldown_key id1 ch1 = Some key →
  cooldown_key id2 ch2 = Some key →
  ∃ tbl', set_account_cooldown id1 ch1 t tbl = Some tbl'
    ∧ tbl' !! key = Some t
    ∧ is_account_on_cooldown id2 ch2 interval now tbl'
      = Some (bool_decide (now - t < interval)).
Proof.
  intros H1 H2. exists (<[key := t]> tbl).
  unfold set_account_cooldown, is_account_on_cooldown.
  rewrite H1, H2. simpl. rewrite lookup_insert_eq. auto.
Qed.

(** C5, as the code has it. For an account id that [int(..)] accepts,
    [is_account_on_cooldown] returns [now - last < interval], where [last]
    is the stored mark and 0 when the pair has no entry. Hence: with no
    entry it is false as soon as [interval <= now]; right after
    [set_account_cooldown] (same clock reading) it is true for a positive
    interval; once [interval] has elapsed since the mark it is false. *)
Theorem cooldown_contract (account_id channel_id : pyval)
    (a interval now t : Z) (tbl : table) :
  py_int account_id = Some a →
  let key := (a, py_str channel_id) in
  is_account_on_cooldown account_id channel_id interval now tbl
    = Some (bool_decide (now - default 0 (tbl !! key) < interval))
  ∧ (tbl !! key = None → interval ≤ now →
     is_account_on_cooldown account_id channel_id interval now tbl = Some false)
  ∧ ∃ tbl',
      set_account_cooldown account_id channel_id t tbl = Some tbl'
      ∧ (0 < interval →
         is_account_on_cooldown account_id channel_id interval t tbl' = Some true)
      ∧ (t + interval ≤ now →
         is_account_on_cooldown account_id channel_id interval now tbl' = Some false)
      ∧ is_account_on_cooldown account_id channel_id interval now tbl'
        = Some (bool_decide (now - t < interval)).
Proof.
  intros Ha key.
  assert (Hk : cooldown_key account_id channel_id = Some key)
    by (unfold cooldown_key; rewrite Ha; reflexivity).
  assert (Hgen : ∀ n m, is_account_on_cooldown account_id channel_id interval n m
                        = Some (bool_decide (n - default 0 (m !! key) < interval)))
    by (intros; unfold is_account_on_cooldown; rewrite Hk; reflexivity).
  split; [apply Hgen |]. split.
  - intros Hnone Hle. rewrite Hgen, Hnone. simpl.
    rewrite bool_decide_eq_false_2 by lia. reflexivity.
  - destruct (check_after_mark key account_id channel_id account_id channel_id
                interval t now tbl Hk Hk) as (tbl' & Hset & Hlook & Hchk).
    exists tbl'. split; [exact Hset |].
    split; [| split; [| exact Hchk]].
    + intros Hpos. rewrite Hgen, Hlook. simpl.
      rewrite bool_decide_eq_true_2 by lia. reflexivity.
    + intros Hel. rewrite Hchk.
      rewrite bool_decide_eq_false_2 by lia. reflexivity.
Qed.

Lemma cooldown_contract_witness :
  py_int (PStr "5") = Some 5
  ∧ is_account_on_cooldown (PStr "5") (PInt 123) 180 1700000000 ∅ = Some false.
Proof.
  split; [reflexivity |].
  apply (cooldown_contract (PStr "5") (PInt 123) 5 180 1700000000 0 ∅);
    [reflexivity | reflexivity | lia].
Defined.

(** C5 as stated fails on the code: a pair without an entry is read as last
    sent at clock 0, so on a clock that reads 100 a 180 second interval
    reports a cooldown for a pair that was never marked; and a mark is not
    seen at all by a check with interval 0. *)
Lemma cooldown_without_entry :
  (∅ : table) !! (1, "2") = None
  ∧ is_account_on_cooldown (PInt 1) (PInt 2) 180 100 ∅ = Some true
  ∧ (set_account_cooldown (PInt 1) (PInt 2) 100 ∅ ≫= 
       is_account_on_cooldown (PInt 1) (PInt 2) 0 100) = Some false.
Proof. repeat split; vm_compute; reflexivity. Qed.

(** C10. Both functions build the key [(int(account_id), str(channel_id))]:
    whichever way account id [a] and channel id [c] are written, as an [int]
    or as its decimal text, a mark made under one writing is the mark a
    check under another writing compares the clock with. *)
Theorem cooldown_key_normalized (a c interval t now : Z)
    (id1 ch1 id2 ch2 : pyval) (tbl : table) :
  id1 ∈ [PInt a; PStr (str_of_int a)] →
  ch1 ∈ [PInt c; PStr (str_of_int c)] →
  id2 ∈ [PInt a; PStr (str_of_int a)] →
  ch2 ∈ [PInt c; PStr (str_of_int c)] →
  cooldown_key id1 ch1 = Some (a, str_of_int c)
  ∧ cooldown_key id2 ch2 = Some (a, str_of_int c)
  ∧ ∃ tbl',
      set_account_cooldown id1 ch1 t tbl = Some tbl'
      ∧ tbl' !! (a, str_of_int c) = Some t
      ∧ is_account_on_cooldown id2 ch2 interval now tbl'
        = Some (bool_decide (now - t < interval)).
Proof.
  intros Hi1 Hc1 Hi2 Hc2.
  pose proof (cooldown_key_repr a c id1 ch1 Hi1 Hc1) as K1.
  pose proof (cooldown_key_repr a c id2 ch2 Hi2 Hc2) as K2.
  split; [exact K1 |]. split; [exact K2 |].
  exact (check_after_mark _ id1 ch1 id2 ch2 interval t now tbl K1 K2).
Qed.

Lemma cooldown_key_normalized_witness :
  ∃ tbl',
    set_account_cooldown (PStr "5") (PInt 123) 1000 ∅ = Some tbl'
    ∧ is_account_on_cooldown (PInt 5) (PStr "123") 180 1060 tbl' = Some true.
Proof.
  destruct (cooldown_key_normalized 5 123 180 1000 1060
              (PStr "5") (PInt 123) (PInt 5) (PStr "123") ∅)
    as (_ & _ & tbl' & Hset & _ & Hchk).
  - apply list_elem_of_further, list_elem_of_here.
  - apply list_elem_of_here.
  - apply list_elem_of_here.
  - apply list_elem_of_further, list_elem_of_here.
  - exists tbl'. split; [exact Hset | exact Hchk].
Defined.

End CooldownFacts.


(* ===================================================================== *)
(** * The control functions: start, load, resume *)
(* ===================================================================== *)

Module ControlFacts.
Import Py Sender Demo.

(** C1. While [task_status] says running or paused, [start_sending_task]
    with [resume=False] returns the failure dict and changes nothing: the
    flags, the database and the event loop's queue are as before, whatever
    shop, channel, account ids, interval and start indices are passed. *)
Theorem start_rejected_while_active
    (shop : Z) (channel : string) (accounts : list Z) (every : Z)
    (bot_loop : EventLoop) (start_product_index start_account_index : Z)
    (w : World) :
  is_running (task_status w) = true ∨ is_paused (task_status w) = true →
  start_sending_task shop channel accounts every bot_loop
    start_product_index start_account_index false w
  = (Failure "已有任务正在运行或已暂停，请先停止或继续", w).
Proof.
  intros Hactive. unfold start_sending_task.
  destruct Hactive as [-> | ->]; simpl.
  - reflexivity.
  - rewrite orb_true_r. reflexivity.
Qed.

Lemma start_rejected_while_active_witness :
  rejected
    (start_sending_task 2 "901" [9] 30 LoopOk 0 0 false
       (demo_world demo_status None)).1 = true.
Proof.
  rewrite (start_rejected_while_active 2 "901" [9] 30 LoopOk 0 0
             (demo_world demo_status None));
    [reflexivity | left; reflexivity].
Defined.

(** The same request is accepted once nothing is active. *)
Example start_accepted_when_idle :
  (start_sending_task 2 "901" [9] 30 LoopOk 0 0 false
     (demo_world initial_task_status None)).1
  = Success "自动发送任务已启动".
Proof. reflexivity. Qed.

(** C2, as the code has it. When the stored record has a shop id and a
    channel id (both truthy) and is marked running, [load_task_state]
    leaves [task_status] with [is_running] false and [is_paused] true,
    carrying the stored fields, and the database then holds exactly that
    record: the stored one with the two flags changed. *)
Theorem load_running_becomes_paused (w : World) (state : SavedState) :
  get_sender_task_state (db w) = Some state →
  truthy (int_or_none (s_shop_id state)) = true →
  truthy (str_or_none (s_channel_id state)) = true →
  s_is_running state = true →
  let w' := load_task_state w in
  is_running (task_status w') = false
  ∧ is_paused (task_status w') = true
  ∧ get_sender_task_state (db w') = Some (saved_of (task_status w'))
  ∧ saved_of (task_status w')
    = mkSavedState false true (s_shop_id state) (s_channel_id state)
        (s_account_ids state) (s_interval state) (s_total_products state)
        (s_sent_count state) (s_next_product_index state)
        (s_next_account_index state) (s_current_product state)
        (s_current_account state) (s_started_at state) (s_last_sent_at state).
Proof.
  intros Hget Hshop Hchan Hrun w'. subst w'. unfold load_task_state.
  rewrite Hget, Hshop, Hchan, Hrun. simpl. auto.
Qed.

Lemma load_running_becomes_paused_witness :
  let w' := load_task_state
              (demo_world initial_task_status (Some (saved_of demo_status))) in
  is_running (task_status w') = false
  ∧ is_paused (task_status w') = true
  ∧ (s_is_paused <$> get_sender_task_state (db w')) = Some true.
Proof.
  pose proof (load_running_becomes_paused
                (demo_world initial_task_status (Some (saved_of demo_status)))
                (saved_of demo_status) eq_refl eq_refl eq_refl eq_refl)
    as (Hr & Hp & Hs & Heq).
  intros w'. split; [exact Hr |]. split; [exact Hp |].
  subst w'. rewrite Hs, Heq. reflexivity.
Defined.

(** C2 as stated fails on the code: a stored record that is marked running
    but whose shop id is 0 (what [int("0")] of a posted shop id gives) is
    skipped by the guard at the top of [load_task_state]; nothing is marked
    paused and the record stays stored as running. *)
Lemma load_skips_record_without_shop :
  let state :=
    mkSavedState true false (Some 0) (Some "900") [7] (Some 60) 0 0 0 0
      None None (Some "2024-05-01T10:00:00") None in
  let w' := load_task_state (demo_world initial_task_status (Some state)) in
  s_is_running state = true
  ∧ is_paused (task_status w') = false
  ∧ (s_is_running <$> get_sender_task_state (db w')) = Some true.
Proof. repeat split; reflexivity. Qed.

(** What "none of the configured account ids is online" means for
    [_has_online_bots]. *)
Lemma has_online_bots_false (bot_clients : list Client) (ids : list Z) :
  (∀ c a, c ∈ bot_clients → a ∈ ids → account_id c = AttrInt a →
          is_ready c = true → is_closed c = true) →
  _has_online_bots bot_clients ids = false.
Proof.
  intros Hnone. unfold _has_online_bots.
  destruct ids as [|i ids']; [reflexivity |].
  remember (i :: ids') as ids eqn:Hids. clear Hids.
  induction bot_clients as [|c cs IH]; [reflexivity |].
  simpl. rewrite IH.
  - rewrite orb_false_r. unfold online_and_selected.
    destruct (account_id c) as [| |a] eqn:Ha; try reflexivity.
    destruct (bool_decide (a ∈ ids)) eqn:Hin; [| reflexivity].
    apply bool_decide_eq_true in Hin.
    destruct (is_ready c) eqn:Hr; [| reflexivity].
    rewrite (Hnone c a); [reflexivity | apply list_elem_of_here | | |]; auto.
  - intros c' a Hc'. apply Hnone. apply list_elem_of_further, Hc'.
Qed.

(** C7. When no bot client that is ready and not closed carries one of the
    stored campaign's account ids, [resume_sending_task] returns a failure
    dict and leaves everything as it was: the database record is neither
    saved nor cleared, [task_status] is untouched and nothing is submitted
    to the event loop. *)
Theorem resume_rejected_without_online_bots
    (bot_clients : list Client) (bot_loop : EventLoop) (w : World) :
  (∀ state c a,
     get_sender_task_state (db w) = Some state →
     c ∈ bot_clients → a ∈ s_account_ids state →
     account_id c = AttrInt a → is_ready c = true → is_closed c = true) →
  ∃ text, resume_sending_task bot_clients bot_loop w = (Failure text, w).
Proof.
  intros Hnone. unfold resume_sending_task.
  destruct (get_sender_task_state (db w)) as [state|] eqn:Hget; [| eauto].
  destruct (negb _ || negb _); [eauto |].
  destruct (is_running (task_status w)); [eauto |].
  rewrite has_online_bots_false; [simpl; eauto |].
  intros c a. apply Hnone. reflexivity.
Qed.

Lemma resume_rejected_without_online_bots_witness :
  let w := demo_world (set_is_paused true (set_is_running false demo_status))
             (Some (saved_of (set_is_paused true
                                (set_is_running false demo_status)))) in
  ∃ text,
    resume_sending_task [bot 7 false false; bot 8 true true; bot 9 true false]
      LoopOk w = (Failure text, w).
Proof.
  apply resume_rejected_without_online_bots.
  intros state c a [= <-] Hc Ha Hid Hr.
  repeat (apply elem_of_cons in Hc as [-> | Hc]); try (apply elem_of_nil in Hc as []);
    simpl in *; try congruence.
  exfalso. injection Hid as <-.
  repeat (apply elem_of_cons in Ha as [Ha | Ha]); try (apply elem_of_nil in Ha as []);
    congruence.
Defined.

(** With one of the accounts online the same resume goes through and
    submits the loop from the stored cursor pair. *)
Example resume_accepted_with_online_bot :
  let t := set_is_paused true (set_is_running false demo_status) in
  let w := demo_world t (Some (saved_of t)) in
  let out := resume_sending_task [bot 7 true false] LoopOk w in
  out.1 = Success "自动发送任务已启动"
  ∧ submitted out.2 = [mkLoopCall 1 "900" [7; 8] 60 2 2]
  ∧ sent_count (task_status out.2) = 2.
Proof. repeat split; reflexivity. Qed.

End ControlFacts.

(* ===================================================================== *)
(** * The send loop: pairing, cursor, completion *)
(* ===================================================================== *)

Module LoopFacts.
Import Py Sender Trace Demo.

(** ** A non-decreasing sequence of cursor values *)

Lemma lookup_snoc_last {A} (l : list A) (x : A) (i : nat) (a b : A) :
  (l ++ [x]) !! i = Some a → (l ++ [x]) !! S i = Some b →
  (l !! i = Some a ∧ l !! S i = Some b) ∨ (last l = Some a ∧ b = x).
Proof.
  intros Ha Hb.
  destruct (decide (S i < length l)%nat) as [Hlt | Hge].
  - left. rewrite lookup_app_l in Ha by lia. rewrite lookup_app_l in Hb by lia. auto.
  - right. assert (Hi : S i = length l).
    { apply lookup_lt_Some in Hb. rewrite length_app in Hb. simpl in Hb. lia. }
    rewrite lookup_app_l in Ha by lia.
    rewrite Hi, lookup_app_r in Hb by lia.
    rewrite Nat.sub_diag in Hb. simpl in Hb. injection Hb as <-.
    split; [| reflexivity].
    rewrite last_lookup. rewrite <- Hi. simpl. exact Ha.
Qed.

Lemma nondecreasing_snoc (l : list Z) (x : Z) :
  nondecreasing l → (∀ y, last l = Some y → y ≤ x) → nondecreasing (l ++ [x]).
Proof.
  intros Hl Hx i a b Ha Hb.
  destruct (lookup_snoc_last l x i a b Ha Hb) as [[Ha' Hb'] | [Hlast ->]].
  - exact (Hl i a b Ha' Hb').
  - exact (Hx a Hlast).
Qed.

(** An assignment that does not lower the item cursor and keeps it within
    the bound keeps the history in order. *)
Lemma tracked_assign (hi : Z) (f : TaskStatus → TaskStatus) (r : Run) :
  tracked hi r →
  next_product_index (status r) ≤ next_product_index (f (status r)) →
  next_product_index (f (status r)) ≤ hi →
  tracked hi (assign f r).
Proof.
  intros (Hlast & Hmono & Hbound) Hup Hhi. unfold tracked, assign, item_cursors.
  simpl. split; [apply last_snoc |]. rewrite fmap_app. simpl. split.
  - apply nondecreasing_snoc; [exact Hmono |].
    intros y Hy. unfold item_cursors in Hy. rewrite fmap_last, Hlast in Hy.
    injection Hy as <-. exact Hup.
  - intros c Hc. apply elem_of_app in Hc as [Hc | Hc]; [exact (Hbound c Hc) |].
    apply list_elem_of_singleton in Hc as ->. exact Hhi.
Qed.

(** The first assignment of a run starts the history. *)
Lemma tracked_first (hi : Z) (f : TaskStatus → TaskStatus) (r : Run) :
  history r = [] →
  next_product_index (f (status r)) ≤ hi →
  tracked hi (assign f r).
Proof.
  intros Hnil Hhi. unfold tracked, assign, item_cursors. simpl.
  rewrite Hnil. simpl. split; [reflexivity |]. split.
  - intros i a b Ha Hb. destruct i; discriminate.
  - intros c Hc. apply list_elem_of_singleton in Hc as ->. exact Hhi.
Qed.

Lemma tracked_persist hi r : tracked hi r → tracked hi (persist r).
Proof. exact id. Qed.

Lemma tracked_clear hi r : tracked hi r → tracked hi (clear r).
Proof. exact id. Qed.

Lemma tracked_note_pick hi p r : tracked hi r → tracked hi (note_pick p r).
Proof. exact id. Qed.

Lemma tracked_note_send hi m r : tracked hi r → tracked hi (note_send m r).
Proof. exact id. Qed.

Section Passes.
Context (env : Env) (target_channel_id : string).
Context (products : list Product) (active_bots : list Client).

Lemma py_index_nonneg {A} (l : list A) (i : Z) :
  0 ≤ i → py_index l i = l !! Z.to_nat i.
Proof.
  intros Hi. unfold py_index.
  rewrite (bool_decide_eq_false_2 (i < 0)) by lia.
  rewrite bool_decide_eq_false_2 by lia. reflexivity.
Qed.

Lemma py_index_mod (b : Z) :
  length active_bots ≠ 0%nat →
  py_index active_bots (b `mod` Z.of_nat (length active_bots))
  = active_bots !! Z.to_nat (b `mod` Z.of_nat (length active_bots)).
Proof.
  intros Hne. apply py_index_nonneg. apply Z.mod_pos_bound. lia.
Qed.

(** *** What a pass leaves alone and what it adds *)

(** The inner [try] selects nothing, and awaits at most one send: the
    message of [product] through [bot]. *)
Lemma attempt_adds tk product bot pi bi r :
  let out := attempt target_channel_id tk product bot pi bi r in
  picks out.1 = picks r
  ∧ (sends out.1 = sends r
     ∨ ∃ cid, sends out.1
              = sends r ++ [mkMessage bot cid (message_content product)]).
Proof. unfold attempt. repeat case_match; simpl; eauto. Qed.

(** A failed attempt, whether the channel is not found or the send raises,
    leaves [task_status] and the stored record as they were. *)
Lemma attempt_failure_keeps_state tk product bot pi bi r :
  (∀ stamp, send_outcome tk ≠ SendOk stamp) →
  let out := attempt target_channel_id tk product bot pi bi r in
  status out.1 = status r ∧ store out.1 = store r ∧ history out.1 = history r.
Proof.
  intros Hfail. unfold attempt.
  repeat case_match; simpl; auto. exfalso. eapply Hfail. reflexivity.
Qed.

(** A pass either leaves the loop without selecting, or selects the product
    at [product_idx] for the bot at [bot_idx mod len(active_bots)] and
    awaits at most one send, that product's message through that bot. *)
Lemma pass_adds tk pi bi r :
  let out := pass target_channel_id products active_bots tk pi bi r in
  (out.2 ≠ Again ∧ picks out.1 = picks r ∧ sends out.1 = sends r)
  ∨ (∃ product bot,
       py_index products pi = Some product
       ∧ active_bots !! Z.to_nat (bi `mod` Z.of_nat (length active_bots))
         = Some bot
       ∧ picks out.1 = picks r ++ [mkPick pi bi bot]
       ∧ (sends out.1 = sends r
          ∨ ∃ cid, sends out.1
                   = sends r ++ [mkMessage bot cid (message_content product)])).
Proof.
  unfold pass.
  destruct (stop_is_set tk); [left; simpl; auto |].
  case_bool_decide; [left; simpl; auto |].
  destruct (py_index products pi) as [product|]; [| left; simpl; auto].
  case_bool_decide as Hlen; [left; simpl; auto |].
  rewrite py_index_mod by exact Hlen.
  destruct (active_bots !! _) as [bot|] eqn:Hbot; [| left; simpl; auto].
  right. exists product, bot. split; [reflexivity |]. split; [reflexivity |].
  destruct (product_label product) as [label|]; [| simpl; auto].
  match goal with
  | |- context [attempt ?c ?k ?p ?b ?x ?y ?rr] =>
      pose proof (attempt_adds k p b x y rr) as [Hp Hs];
      destruct (attempt c k p b x y rr) as [r' [|]]
  end; simpl in Hp, Hs; repeat case_match; simpl; auto.
Qed.

(** A pass that goes round again had an item left to handle. *)
Lemma pass_again tk pi bi r r' :
  pass target_channel_id products active_bots tk pi bi r = (r', Again) →
  pi < Z.of_nat (length products).
Proof.
  unfold pass. intros H.
  destruct (stop_is_set tk); [discriminate |].
  case_bool_decide; [discriminate | lia].
Qed.

(** *** The whole loop *)

(** The selections of the loop, counted from its first pass: the [j]-th one
    is product [product_idx + j] for the bot at
    [(bot_idx + j) mod len(active_bots)]; and every send awaited is the
    message of a selected product through the bot selected with it. *)
Lemma send_loop_adds fuel : ∀ n pi bi r,
  let out := send_loop env target_channel_id products active_bots fuel n pi bi r in
  ∃ new_picks new_sends,
    picks out.1 = picks r ++ new_picks
    ∧ sends out.1 = sends r ++ new_sends
    ∧ (∀ (j : nat) p, new_picks !! j = Some p →
         pick_product_idx p = pi + Z.of_nat j
         ∧ pick_bot_idx p = bi + Z.of_nat j
         ∧ active_bots
             !! Z.to_nat ((bi + Z.of_nat j) `mod` Z.of_nat (length active_bots))
           = Some (pick_bot p))
    ∧ (∀ m, m ∈ new_sends →
         ∃ p product,
           p ∈ new_picks ∧ sender m = pick_bot p
           ∧ py_index products (pick_product_idx p) = Some product
           ∧ content m = message_content product).
Proof.
  induction fuel as [|fuel IH]; intros n pi bi r; simpl.
  - exists [], []. rewrite !app_nil_r.
    split; [reflexivity |]. split; [reflexivity |]. split.
    + intros j p Hj. discriminate.
    + intros m Hm. apply elem_of_nil in Hm as [].
  - pose proof (pass_adds (tick env n) pi bi r) as Hpass. simpl in Hpass.
    destruct (pass target_channel_id products active_bots (tick env n) pi bi r)
      as [r' nxt] eqn:Hp; simpl in Hpass.
    destruct Hpass as [(Hnot & Hpk & Hsd)
                      | (product & bot & Hprod & Hbot & Hpk & Hsd)].
    + destruct nxt as [|ex]; [congruence |]. simpl.
      exists [], []. rewrite !app_nil_r.
      split; [exact Hpk |]. split; [exact Hsd |]. split.
      * intros j p Hj. discriminate.
      * intros m Hm. apply elem_of_nil in Hm as [].
    + assert (Hone : ∃ ms, sends r' = sends r ++ ms
                 ∧ ∀ m, m ∈ ms →
                     sender m = bot ∧ content m = message_content product).
      { destruct Hsd as [Hsd | [cid Hsd]].
        - exists []. rewrite app_nil_r. split; [exact Hsd |].
          intros m Hm. apply elem_of_nil in Hm as [].
        - eexists. split; [exact Hsd |].
          intros m Hm. apply list_elem_of_singleton in Hm as ->. auto. }
      destruct Hone as (ms & Hms & Hmsok).
      assert (Hhead : ∀ m, m ∈ ms →
                 ∃ p product0, p ∈ mkPick pi bi bot :: [] ∧ sender m = pick_bot p
                   ∧ py_index products (pick_product_idx p) = Some product0
                   ∧ content m = message_content product0).
      { intros m Hm. destruct (Hmsok m Hm) as [Hs Hc].
        exists (mkPick pi bi bot), product. simpl.
        split; [apply list_elem_of_here | auto]. }
      destruct nxt as [|ex]; simpl.
      * destruct (IH (S n) (pi + 1) (bi + 1) r')
          as (np & ns & Hnp & Hns & Hidx & Hfrom).
        exists (mkPick pi bi bot :: np), (ms ++ ns).
        split; [rewrite Hnp, Hpk, <- app_assoc; reflexivity |].
        split; [rewrite Hns, Hms, <- app_assoc; reflexivity |].
        split.
        -- intros [|j] p Hj; simpl in Hj.
           { injection Hj as <-. simpl. rewrite !Z.add_0_r. auto. }
           destruct (Hidx j p Hj) as (H1 & H2 & H3).
           replace (pi + Z.of_nat (S j)) with (pi + 1 + Z.of_nat j) by lia.
           replace (bi + Z.of_nat (S j)) with (bi + 1 + Z.of_nat j) by lia.
           auto.
        -- intros m Hm. apply elem_of_app in Hm as [Hm | Hm].
           ++ destruct (Hhead m Hm) as (p & q & Hin & Hrest).
              exists p, q. split; [| exact Hrest].
              apply elem_of_cons. left.
              apply list_elem_of_singleton in Hin. exact Hin.
           ++ destruct (Hfrom m Hm) as (p & q & Hin & Hrest).
              exists p, q. split; [| exact Hrest].
              apply list_elem_of_further, Hin.
      * exists [mkPick pi bi bot], ms.
        split; [exact Hpk |]. split; [exact Hms |]. split.
        -- intros [|j] p Hj; simpl in Hj; [| discriminate].
           injection Hj as <-. simpl. rewrite !Z.add_0_r. auto.
        -- exact Hhead.
Qed.

(** The recursion bound [auto_send_loop] passes is never exhausted. *)
Lemma send_loop_fuel fuel : ∀ n pi bi r,
  (Z.to_nat (Z.of_nat (length products) - pi) < fuel)%nat →
  (send_loop env target_channel_id products active_bots fuel n pi bi r).2
  ≠ OutOfFuel.
Proof.
  induction fuel as [|fuel IH]; intros n pi bi r Hfuel; [lia |].
  simpl.
  destruct (pass target_channel_id products active_bots (tick env n) pi bi r)
    as [r' [|ex]] eqn:Hp.
  - apply IH. apply pass_again in Hp. lia.
  - simpl. revert Hp. unfold pass. intros Hp.
    repeat case_match; simplify_eq; discriminate.
Qed.


(** *** The item cursor along the loop *)

Lemma attempt_tracked hi tk product bot pi bi r :
  tracked hi r → next_product_index (status r) ≤ pi + 1 → pi + 1 ≤ hi →
  let r' := (attempt target_channel_id tk product bot pi bi r).1 in
  tracked hi r' ∧ next_product_index (status r') ≤ pi + 1.
Proof.
  intros Htr Hcur Hhi. unfold attempt.
  repeat case_match; simpl; try (split; [exact Htr | exact Hcur]).
  split; [| simpl; lia].
  apply tracked_persist, tracked_assign; [apply tracked_note_send, Htr | |];
    simpl; lia.
Qed.

Lemma pass_tracked hi tk pi bi r :
  tracked hi r → next_product_index (status r) ≤ pi →
  Z.of_nat (length products) ≤ hi →
  let r' := (pass target_channel_id products active_bots tk pi bi r).1 in
  tracked hi r' ∧ next_product_index (status r') ≤ pi + 1.
Proof.
  intros Htr Hcur Hhi. unfold pass.
  destruct (stop_is_set tk); [simpl; split; [exact Htr | lia] |].
  case_bool_decide as Hend; [simpl; split; [exact Htr | lia] |].
  destruct (py_index products pi) as [product|]; [| simpl; split; [exact Htr | lia]].
  case_bool_decide; [simpl; split; [exact Htr | lia] |].
  destruct (py_index active_bots _) as [bot|]; [| simpl; split; [exact Htr | lia]].
  destruct (product_label product) as [label|]; [| simpl; split; [exact Htr | lia]].
  match goal with
  | |- context [attempt ?c ?k ?p ?b ?x ?y ?rr] =>
      assert (Hin : tracked hi rr ∧ next_product_index (status rr) ≤ pi + 1);
      [| destruct Hin as [Hin1 Hin2];
         pose proof (attempt_tracked hi k p b x y rr Hin1 Hin2) as Hat;
         destruct (attempt c k p b x y rr) as [r' [|]] ]
  end.
  - split; [| simpl; lia].
    apply tracked_persist, tracked_assign; [apply tracked_note_pick, Htr | |];
      simpl; lia.
  - simpl in *. apply Hat. lia.
  - simpl in *. destruct (wait_outcome tk); simpl; apply Hat; lia.
Qed.

Lemma send_loop_tracked hi fuel : ∀ n pi bi r,
  tracked hi r → next_product_index (status r) ≤ pi →
  Z.of_nat (length products) ≤ hi →
  tracked hi
    (send_loop env target_channel_id products active_bots fuel n pi bi r).1.
Proof.
  induction fuel as [|fuel IH]; intros n pi bi r Htr Hcur Hhi; simpl;
    [exact Htr |].
  pose proof (pass_tracked hi (tick env n) pi bi r Htr Hcur Hhi) as Hpass.
  destruct (pass target_channel_id products active_bots (tick env n) pi bi r)
    as [r' [|ex]]; simpl in Hpass; destruct Hpass as [Htr' Hcur'].
  - apply IH; assumption.
  - exact Htr'.
Qed.

End Passes.

(** ** [auto_send_loop] as a whole *)

Section Whole.
Context (shop : Z) (channel : string) (ids : list Z) (every : Z).
Context (clients : list Client) (sp sa : Z) (env : Env).

Lemma leave_picks x : picks (leave env x) = picks x.1.
Proof. unfold leave. destruct x as [r ex]. repeat case_match; reflexivity. Qed.

Lemma leave_sends x : sends (leave env x) = sends x.1.
Proof. unfold leave. destruct x as [r ex]. repeat case_match; reflexivity. Qed.

Lemma leave_tracked hi x : tracked hi x.1 → tracked hi (leave env x).
Proof.
  intros Htr. unfold leave. destruct x as [r ex]. simpl in *.
  assert (Hr : tracked hi
                 match ex with
                 | Raised text => assign (set_error (Some text)) r
                 | _ => r
                 end).
  { destruct ex; try exact Htr.
    apply tracked_assign; [exact Htr | simpl; lia |].
    destruct Htr as (Hlast & _ & Hb). apply Hb. unfold item_cursors.
    apply list_elem_of_fmap. exists (status r). split; [reflexivity |].
    apply last_Some_elem_of, Hlast. }
  assert (Hcur : ∀ r0, tracked hi r0 → next_product_index (status r0) ≤ hi).
  { intros r0 (Hlast & _ & Hb). apply Hb. unfold item_cursors.
    apply list_elem_of_fmap. exists (status r0). split; [reflexivity |].
    apply last_Some_elem_of, Hlast. }
  case_decide.
  - apply tracked_persist, tracked_assign;
      [apply tracked_assign; [exact Hr | simpl; lia | apply Hcur, Hr] | simpl; lia |].
    simpl. apply Hcur, Hr.
  - apply tracked_clear, tracked_assign;
      [apply tracked_assign; [exact Hr | simpl; lia | apply Hcur, Hr] | simpl; lia |].
    simpl. apply Hcur, Hr.
Qed.

Lemma tracked_cursor hi r : tracked hi r → next_product_index (status r) ≤ hi.
Proof.
  intros (Hlast & _ & Hb). apply Hb. unfold item_cursors.
  apply list_elem_of_fmap. exists (status r). split; [reflexivity |].
  apply last_Some_elem_of, Hlast.
Qed.

Lemma try_body_tracked hi r :
  tracked hi r →
  Z.of_nat (length (loaded_products shop (store r))) ≤ hi →
  tracked hi (try_body shop channel ids clients env r).1.
Proof.
  intros Htr Hhi. pose proof (tracked_cursor hi r Htr) as Hcur.
  unfold try_body. unfold loaded_products in Hhi.
  destruct (get_shop_by_id shop (store r)) as [name|];
    [| simpl; apply tracked_assign; [exact Htr | simpl; lia | exact Hcur]].
  destruct (select_products name (store r)) as [|p0 ps] eqn:Hsel;
    [simpl; apply tracked_assign; [exact Htr | simpl; lia | exact Hcur] |].
  assert (Htot : tracked hi
                   (assign (set_total_products (Z.of_nat (length (p0 :: ps)))) r))
    by (apply tracked_assign; [exact Htr | simpl; lia | exact Hcur]).
  case_bool_decide.
  - simpl fst. apply tracked_persist, tracked_assign; [exact Htot | simpl; lia |].
    exact Hcur.
  - destruct (active_bots_of clients ids) as [|b0 bs].
    + simpl fst. apply tracked_assign; [exact Htot | simpl; lia | exact Hcur].
    + apply send_loop_tracked; [| simpl; lia | exact Hhi].
      apply tracked_assign; [exact Htot | simpl; lia | exact Hcur].
Qed.

(** C4, as the code has it. Over a whole run of [auto_send_loop] the item
    cursor [next_product_index] never decreases, and it never exceeds the
    larger of its starting value and the number of products loaded; so it
    stays within the number of products whenever it starts within it. *)
Theorem item_cursor_nondecreasing_bounded (t : TaskStatus) (d : DB) :
  let run := auto_send_loop shop channel ids every clients sp sa env t d in
  let total := Z.of_nat (length (loaded_products shop d)) in
  last (history run) = Some (status run)
  ∧ nondecreasing (item_cursors run)
  ∧ (∀ c, c ∈ item_cursors run → c ≤ Z.max (Z.max 0 sp) total)
  ∧ (Z.max 0 sp ≤ total → ∀ c, c ∈ item_cursors run → c ≤ total).
Proof.
  intros run total.
  assert (Htr : tracked (Z.max (Z.max 0 sp) total) run).
  { subst run. unfold auto_send_loop.
    apply leave_tracked, try_body_tracked.
    - unfold enter. apply tracked_persist, tracked_first; [reflexivity |].
      simpl. lia.
    - subst total. simpl. unfold loaded_products, get_shop_by_id, select_products.
      simpl. lia. }
  destruct Htr as (Hlast & Hmono & Hbound).
  split; [exact Hlast |]. split; [exact Hmono |]. split; [exact Hbound |].
  intros Hstart c Hc. specialize (Hbound c Hc). lia.
Qed.

(** C3. In a run of [auto_send_loop] with pool [active_bots] of size N,
    starting item cursor [max(0, start_product_index)] and starting
    identity cursor [k = max(0, start_account_index)], the [i]-th selection
    (counted from 0) is for the item at the starting item cursor plus [i]
    and takes the bot at [pool[(k + i) mod N]]: both cursors advance by
    exactly one per pass. Every send the run awaits is the message of a
    selected item, through the bot selected with it. *)
Theorem round_robin_pairing (t : TaskStatus) (d : DB) :
  let run := auto_send_loop shop channel ids every clients sp sa env t d in
  let pool := active_bots_of clients ids in
  let items := loaded_products shop d in
  (∀ (i : nat) (p : Pick), picks run !! i = Some p →
     pick_product_idx p = Z.max 0 sp + Z.of_nat i
     ∧ pick_bot_idx p = Z.max 0 sa + Z.of_nat i
     ∧ pool !! Z.to_nat ((Z.max 0 sa + Z.of_nat i) `mod` Z.of_nat (length pool))
       = Some (pick_bot p))
  ∧ (∀ m, m ∈ sends run →
       ∃ p product,
         p ∈ picks run ∧ sender m = pick_bot p
         ∧ py_index items (pick_product_idx p) = Some product
         ∧ content m = message_content product).
Proof.
  intros run pool items. subst run items.
  unfold auto_send_loop. rewrite leave_picks, leave_sends.
  unfold try_body, loaded_products.
  change (get_shop_by_id shop (store (enter _ _ _ _ _ _ _ _)))
    with (get_shop_by_id shop d).
  assert (Hnone : ∀ r : Run, picks r = [] → sends r = [] →
            (∀ (i : nat) (p : Pick), picks r !! i = Some p →
               pick_product_idx p = Z.max 0 sp + Z.of_nat i
               ∧ pick_bot_idx p = Z.max 0 sa + Z.of_nat i
               ∧ pool !! Z.to_nat ((Z.max 0 sa + Z.of_nat i)
                                     `mod` Z.of_nat (length pool))
                 = Some (pick_bot p))
            ∧ (∀ m, m ∈ sends r →
                 ∃ p product,
                   p ∈ picks r ∧ sender m = pick_bot p
                   ∧ py_index
                       match get_shop_by_id shop d with
                       | Some shop_name => select_products shop_name d
                       | None => []
                       end (pick_product_idx p) = Some product
                   ∧ content m = message_content product)).
  { intros r -> ->. split.
    - intros i p Hi. discriminate.
    - intros m Hm. apply elem_of_nil in Hm as []. }
  destruct (get_shop_by_id shop d) as [name|]; [| apply Hnone; reflexivity].
  change (select_products name (store (enter _ _ _ _ _ _ _ _)))
    with (select_products name d).
  destruct (select_products name d) as [|p0 ps] eqn:Hsel;
    [apply Hnone; reflexivity |].
  case_bool_decide; [apply Hnone; reflexivity |].
  fold pool.
  destruct pool as [|b0 bs] eqn:Hpool; [apply Hnone; reflexivity |].
  clear Hnone.
  match goal with
  | |- context [send_loop ?e ?c ?ps ?bs ?f ?n ?pi ?bi ?r] =>
      destruct (send_loop_adds e c ps bs f n pi bi r)
        as (np & ns & Hnp & Hns & Hidx & Hfrom)
  end.
  rewrite Hnp, Hns. simpl. split; [exact Hidx | exact Hfrom].
Qed.

(** The recursion bound is enough: a run never ends for lack of it. *)
Lemma try_body_fuel (r : Run) :
  (try_body shop channel ids clients env r).2 ≠ OutOfFuel.
Proof.
  unfold try_body.
  destruct (get_shop_by_id shop (store r)) as [name|]; [| discriminate].
  destruct (select_products name (store r)) as [|p0 ps]; [discriminate |].
  case_bool_decide; [discriminate |].
  destruct (active_bots_of clients ids) as [|b0 bs]; [discriminate |].
  apply send_loop_fuel. lia.
Qed.

(** C9, as the code has it. When the shop has items and the starting item
    cursor is at or beyond their number, the loop sets [sent_count] to the
    item count, selects nothing and sends nothing. On exit the stored
    campaign is cleared, unless [stop_sender_reason] reads 'pause' then, in
    which case it is stored as paused. *)
Theorem already_complete (t : TaskStatus) (d : DB) :
  let total := Z.of_nat (length (loaded_products shop d)) in
  let run := auto_send_loop shop channel ids every clients sp sa env t d in
  loaded_products shop d ≠ [] →
  total ≤ Z.max 0 sp →
  sent_count (status run) = total
  ∧ picks run = [] ∧ sends run = []
  ∧ is_running (status run) = false
  ∧ (reason_at_exit env ≠ Some "pause" →
     get_sender_task_state (store run) = None
     ∧ is_paused (status run) = false)
  ∧ (reason_at_exit env = Some "pause" →
     get_sender_task_state (store run) = Some (saved_of (status run))
     ∧ is_paused (status run) = true).
Proof.
  intros total run Hitems Hdone. subst run total.
  unfold auto_send_loop, try_body. unfold loaded_products in *.
  change (get_shop_by_id shop (store (enter _ _ _ _ _ _ _ _)))
    with (get_shop_by_id shop d).
  destruct (get_shop_by_id shop d) as [name|]; [| congruence].
  change (select_products name (store (enter _ _ _ _ _ _ _ _)))
    with (select_products name d).
  destruct (select_products name d) as [|p0 ps] eqn:Hsel; [congruence |].
  rewrite bool_decide_eq_true_2 by (simpl in *; lia).
  unfold leave. simpl.
  case_decide as Hreason; simpl; repeat split; try reflexivity; congruence.
Qed.

End Whole.

(** ** Worked runs *)

(** The end-to-end scenario of the specification: five items, two
    identities; the identities alternate 0,1,0,1,0, every send advances the
    cursor by one, and after five sends the campaign completes and the
    stored state is cleared. *)
Example five_items_two_bots :
  let run := auto_send_loop 1 "900" [7; 8] 60 [bot7; bot8] 0 0 calm
               initial_task_status five_items in
  pick_bot <$> picks run = [bot7; bot8; bot7; bot8; bot7]
  ∧ sender <$> sends run = [bot7; bot8; bot7; bot8; bot7]
  ∧ item_cursors run = [0; 0; 0; 0; 1; 1; 2; 2; 3; 3; 4; 4; 5; 5; 5]
  ∧ sent_count (status run) = 5
  ∧ get_sender_task_state (store run) = None.
Proof. vm_compute. repeat split; reflexivity. Qed.

Lemma round_robin_pairing_witness :
  let run := auto_send_loop 1 "900" [7; 8] 60 [bot7; bot8] 0 1 calm
               initial_task_status five_items in
  picks run !! 3%nat = Some (mkPick 3 4 bot7)
  ∧ active_bots_of [bot7; bot8] [7; 8] !! Z.to_nat ((1 + 3) `mod` 2) = Some bot7.
Proof.
  intros run. assert (Hp : picks run !! 3%nat = Some (mkPick 3 4 bot7))
    by (vm_compute; reflexivity).
  split; [exact Hp |].
  exact (proj2 (proj2 (proj1 (round_robin_pairing 1 "900" [7; 8] 60
                                [bot7; bot8] 0 1 calm initial_task_status
                                five_items)
                         3%nat (mkPick 3 4 bot7) Hp))).
Defined.

Lemma item_cursor_nondecreasing_bounded_witness :
  let run := auto_send_loop 1 "900" [7; 8] 60 [bot7; bot8] 2 0 calm
               initial_task_status five_items in
  Z.max 0 2 ≤ 5 ∧ ∀ c, c ∈ item_cursors run → c ≤ 5.
Proof.
  intros run. split; [lia |].
  apply (item_cursor_nondecreasing_bounded 1 "900" [7; 8] 60 [bot7; bot8] 2 0
           calm initial_task_status five_items).
  vm_compute. discriminate.
Defined.

(** C4 as stated fails on the code: started at cursor 7 on a shop with five
    items, the loop takes the already-complete exit and the item cursor
    stays at 7, above [total_products = 5]. *)
Lemma item_cursor_beyond_total :
  let run := auto_send_loop 1 "900" [7; 8] 60 [bot7; bot8] 7 0 calm
               initial_task_status five_items in
  length (loaded_products 1 five_items) = 5%nat
  ∧ total_products (status run) = 5
  ∧ next_product_index (status run) = 7
  ∧ 7 ∈ item_cursors run.
Proof.
  vm_compute. repeat split; try reflexivity.
  apply list_elem_of_here.
Qed.

Lemma already_complete_witness :
  let run := auto_send_loop 1 "900" [7; 8] 60 [bot7; bot8] 5 1 calm
               initial_task_status five_items in
  sent_count (status run) = 5 ∧ sends run = []
  ∧ get_sender_task_state (store run) = None.
Proof.
  intros run.
  destruct (already_complete 1 "900" [7; 8] 60 [bot7; bot8] 5 1 calm
              initial_task_status five_items)
    as (Hcount & _ & Hsends & _ & Hclear & _).
  - vm_compute. discriminate.
  - vm_compute. discriminate.
  - split; [exact Hcount |]. split; [exact Hsends |].
    apply Hclear. vm_compute. discriminate.
Defined.

(** C9 as stated fails on the code. Resumed at cursor 3 on a shop whose
    items are gone, the cursor is at or beyond the item count 0, yet the
    loop leaves through the "no products" guard with [sent_count] still 3.
    And when a pause is pending at exit, the already-complete exit stores
    the campaign as paused instead of clearing it. *)
Lemma already_complete_exceptions :
  let paused := set_is_paused true (set_cursors 3 3 demo_status) in
  let started :=
    start_sending_task 1 "900" [7; 8] 60 LoopOk 3 3 true
      (mkWorld (set_is_running false paused) false None no_items []) in
  let run := run_call (mkLoopCall 1 "900" [7; 8] 60 3 3) [bot7; bot8] calm
               started.2 in
  let run' := auto_send_loop 1 "900" [7; 8] 60 [bot7; bot8] 5 0 pause_pending
                initial_task_status five_items in
  started.1 = Success "自动发送任务已启动"
  ∧ length (loaded_products 1 no_items) = 0%nat
  ∧ sent_count (status run) = 3
  ∧ (s_is_paused <$> get_sender_task_state (store run')) = Some true.
Proof. vm_compute. repeat split; reflexivity. Qed.

(** C6 on a failing input: two accounts, five items; the send of item 0
    raises and a pause arrives during the wait that follows. The loop's own
    cursors have moved on, but what is stored is the cursor pair (0, 0) of
    the failed item, and resuming submits the loop from item 0 again. *)
Theorem failed_send_stored_unadvanced :
  let run := auto_send_loop 1 "900" [7; 8] 60 [bot7; bot8] 0 0 fail_then_pause
               initial_task_status five_items in
  let resumed :=
    resume_sending_task [bot7; bot8] LoopOk
      (mkWorld (status run) true (Some "pause") (store run) []) in
  picks run = [mkPick 0 0 bot7]
  ∧ length (sends run) = 1%nat
  ∧ (s_next_product_index <$> get_sender_task_state (store run)) = Some 0
  ∧ (s_next_account_index <$> get_sender_task_state (store run)) = Some 0
  ∧ submitted resumed.2 = [mkLoopCall 1 "900" [7; 8] 60 0 0].
Proof. vm_compute. repeat split; reflexivity. Qed.

(** The sibling path: when the same send goes through, the pair stored at
    the pause is (1, 1). *)
Example sent_then_paused_stored_advanced :
  let env := mkEnv "T0" (λ _, mkTick false (SendOk "T1") Signalled)
               (Some "pause") in
  let run := auto_send_loop 1 "900" [7; 8] 60 [bot7; bot8] 0 0 env
               initial_task_status five_items in
  (s_next_product_index <$> get_sender_task_state (store run)) = Some 1
  ∧ (s_next_account_index <$> get_sender_task_state (store run)) = Some 1.
Proof. vm_compute. split; reflexivity. Qed.

End LoopFacts.

(* ===================================================================== *)
(** * The reactive send: cooldown marks, fallback, failures *)
(* ===================================================================== *)

Module ReplyFacts.
Import Py Cooldown Reply Demo.

Ltac forall_list :=
  repeat match goal with
         | |- Forall _ (_ :: _) => constructor
         | |- Forall _ [] => constructor
         end.

Ltac step5_unfold :=
  unfold send_reply, step5, rich, fallback, send, log_with_user,
    mark_if_account, catch, bind, act, await, ret, raise, content_or_none,
    set_account_cooldown, cooldown_key, add_sent, add_log.

Lemma truthy_nonzero (a : Z) : a ≠ 0 → truthy (PInt a) = true.
Proof. intros Ha. simpl. destruct (Z.eqb_spec a 0); [contradiction | reflexivity]. Qed.

Lemma eqb_nonempty (x : string) : x ≠ "" → String.eqb x "" = false.
Proof. intros Hx. destruct (String.eqb_spec x ""); [contradiction | reflexivity]. Qed.

(** Step 5 appends to the sends, and what it appends goes through the
    chosen client into the message's channel and carries the reply content
    or no text. *)
Lemma sent_extends (env : Env) (c : Client) (channel_id : Z)
    (response_content : string) (s : State) :
  ∃ extra,
    sent (send_reply env (Some c) channel_id response_content s)
    = sent s ++ extra
    ∧ Forall (λ m, via m = c ∧ channel m = channel_id
                   ∧ (text m = Some response_content ∨ text m = None)) extra.
Proof.
  step5_unfold.
  repeat (case_match; simpl in *; simplify_eq);
    first
      [ exists []; split; [rewrite app_nil_r; reflexivity | constructor]
      | eexists [_]; split; [reflexivity | forall_list; simpl; auto]
      | eexists [_; _]; split;
        [rewrite <- app_assoc; reflexivity | forall_list; simpl; auto] ].
Qed.

(** Whatever happens, step 5 only ever sends the reply itself: no other
    text, so no error text, reaches the channel. *)
Lemma only_the_reply_is_sent (env : Env) (c : Client) (channel_id : Z)
    (response_content : string) (s : State) (m : Sent) :
  m ∈ sent (send_reply env (Some c) channel_id response_content s) →
  m ∈ sent s
  ∨ (via m = c ∧ channel m = channel_id
     ∧ (text m = Some response_content ∨ text m = None)).
Proof.
  destruct (sent_extends env c channel_id response_content s)
    as (extra & -> & Hall).
  rewrite elem_of_app. intros [Hm | Hm]; [left; exact Hm | right].
  rewrite Forall_forall in Hall. exact (Hall m Hm).
Qed.

(** C8, as the code has it. For a chosen sender with a non-zero account id
    that reaches the channel, and a reply with text or files: a send that
    goes through is followed by a cooldown mark for (sender, channel), taken
    at a clock reading of this call; when the send with the reference fails
    and the reply has text, a plain send of that text, without files and
    without reference, is awaited, the mark is made when it goes through,
    and when it fails too nothing is marked and the failure is only logged.
    Every send of the call carries the reply content or no text. *)
Theorem reply_marks_and_falls_back (env : Env) (c : Client)
    (channel_id a : Z) (response_content : string) (s : State) :
  account_id c = AttrInt a → a ≠ 0 →
  channel_id ∈ channels c → typing env = Done →
  response_content ≠ "" ∨ files env ≠ [] →
  let s' := send_reply env (Some c) channel_id response_content s in
  let key := (a, str_of_int channel_id) in
  (rich_send env = Done →
   ∃ t, account_last_sent s' !! key = Some t
        ∧ (t = now_rich env ∨ t = now_plain env))
  ∧ (rich_send env = Raises → response_content ≠ "" →
     mkSent c channel_id (Some response_content) [] false
       (is_done (plain_send env)) ∈ sent s'
     ∧ (plain_send env = Done →
        account_last_sent s' !! key = Some (now_plain env))
     ∧ (plain_send env = Raises →
        account_last_sent s' = account_last_sent s
        ∧ log s' = log s ++ [WarnReplyFailed; ErrorSend]))
  ∧ (∀ m, m ∈ sent s' →
       m ∈ sent s
       ∨ (via m = c ∧ channel m = channel_id
          ∧ (text m = Some response_content ∨ text m = None))).
Proof.
  intros Hacc Ha Hch Hty Hany s' key.
  split; [| split; [| apply only_the_reply_is_sent]].
  - intros Hrich. subst s' key. step5_unfold.
    rewrite Hacc, (truthy_nonzero a Ha), Hty, Hrich.
    rewrite (bool_decide_eq_true_2 _ Hch).
    assert (Hguard : String.eqb response_content "" && bool_decide (files env = [])
                     = false).
    { destruct Hany as [Hc | Hf].
      - rewrite (eqb_nonempty _ Hc). reflexivity.
      - rewrite (bool_decide_eq_false_2 _ Hf). apply andb_false_r. }
    rewrite Hguard. cbn [py_int py_str mbind option_bind default].
    destruct (user c); cbn.
    + exists (now_rich env). rewrite lookup_insert_eq. auto.
    + destruct (negb (String.eqb response_content "")); cbn.
      * destruct (plain_send env); cbn.
        -- exists (now_plain env). rewrite lookup_insert_eq. auto.
        -- exists (now_rich env). rewrite lookup_insert_eq. auto.
      * exists (now_plain env). rewrite lookup_insert_eq. auto.
  - intros Hrich Hc. subst s' key. step5_unfold.
    rewrite Hacc, (truthy_nonzero a Ha), Hty, Hrich, (eqb_nonempty _ Hc).
    rewrite (bool_decide_eq_true_2 _ Hch).
    cbn [py_int py_str mbind option_bind default andb negb].
    destruct (plain_send env); cbn.
    + destruct (user c); cbn.
      * split; [| split; [intros _; apply lookup_insert_eq | discriminate]].
        rewrite elem_of_app, list_elem_of_singleton. auto.
      * split; [| split; [intros _; apply lookup_insert_eq | discriminate]].
        rewrite elem_of_app, list_elem_of_singleton. auto.
    + split; [| split; [discriminate | intros _]].
      * rewrite elem_of_app, list_elem_of_singleton. auto.
      * split; [reflexivity |]. rewrite <- app_assoc. reflexivity.
Qed.

Lemma reply_marks_and_falls_back_witness :
  let s' := send_reply rich_fails_plain_works (Some bot7) 900 "hello" fresh in
  mkSent bot7 900 (Some "hello") [] false true ∈ sent s'
  ∧ account_last_sent s' !! (7, "900") = Some 1001.
Proof.
  intros s'.
  destruct (reply_marks_and_falls_back rich_fails_plain_works bot7 900 7
              "hello" fresh)
    as (_ & Hfall & _); try reflexivity; try discriminate.
  - apply list_elem_of_here.
  - left. discriminate.
  - destruct Hfall as (Hsent & Hmark & _); try reflexivity; try discriminate.
    split; [exact Hsent | exact (Hmark eq_refl)].
Defined.

(** C8 as stated fails on the code. A reply made of an image and no text
    whose send raises is followed by no plain send at all (the fallback
    sends only a non-empty text); and a send that goes through for a client
    without account id marks nothing. *)
Lemma reply_without_text_has_no_fallback :
  sent (send_reply image_only_fails (Some bot7) 900 "" fresh)
  = [mkSent bot7 900 None ["a.jpg"] true false]
  ∧ account_last_sent (send_reply rich_works (Some anonymous_bot) 900 "hello" fresh)
    = ∅
  ∧ sent (send_reply rich_works (Some anonymous_bot) 900 "hello" fresh)
    = [mkSent anonymous_bot 900 (Some "hello") [] true true].
Proof. vm_compute. repeat split; reflexivity. Qed.

(** The sibling runs: a text reply whose first send goes through is marked
    at once; one whose two sends both raise leaves the table empty and two
    log lines. *)
Example reply_text_runs :
  account_last_sent (send_reply rich_works (Some bot7) 900 "hello" fresh)
    !! (7, "900") = Some 1000
  ∧ log (send_reply (mkEnv Done [] Raises Raises 1000 1001) (Some bot7) 900
           "hello" fresh)
    = [WarnReplyFailed; ErrorSend]
  ∧ account_last_sent
      (send_reply (mkEnv Done [] Raises Raises 1000 1001) (Some bot7) 900
         "hello" fresh) = ∅.
Proof. vm_compute. repeat split; reflexivity. Qed.

End ReplyFacts.

(* ===================================================================== *)
(** * More on the control functions: stop, pause, resume, restart *)
(* ===================================================================== *)

Module ControlMore.
Import Py Sender Demo.

(** Stopping a paused campaign frees the slot: the stop is accepted, the
    stored record is cleared when the database is passed, a second stop is
    rejected and a new start is no longer turned away. *)
Theorem stop_paused_frees_slot
    (with_db : bool) (w : World)
    (shop : Z) (channel : string) (accounts : list Z) (every : Z) :
  is_running (task_status w) = false →
  is_paused (task_status w) = true →
  let stopped := stop_sending_task with_db w in
  rejected stopped.1 = false
  ∧ stop_sender_reason stopped.2 = Some "stop"
  ∧ (with_db = true → get_sender_task_state (db stopped.2) = None)
  ∧ stop_sending_task with_db stopped.2
    = (Failure "当前没有运行中的任务", stopped.2)
  ∧ rejected (start_sending_task shop channel accounts every LoopOk 0 0 false
                stopped.2).1 = false.
Proof.
  intros Hrun Hpaused stopped.
  assert (Hstop : stopped
            = (Success "任务停止指令已发送",
               mkWorld (set_is_paused false (task_status w)) true (Some "stop")
                 (if with_db then clear_sender_task_state (db w) else db w)
                 (submitted w))).
  { subst stopped. unfold stop_sending_task. rewrite Hrun, Hpaused. reflexivity. }
  rewrite Hstop. simpl.
  split; [reflexivity |]. split; [reflexivity |]. split.
  - intros ->. reflexivity.
  - split.
    + unfold stop_sending_task. simpl. rewrite Hrun. reflexivity.
    + unfold start_sending_task. simpl. rewrite Hrun. reflexivity.
Qed.

Lemma stop_paused_frees_slot_witness :
  let w := demo_world (set_is_paused true (set_is_running false demo_status))
             (Some (saved_of demo_status)) in
  get_sender_task_state (db (stop_sending_task true w).2) = None.
Proof.
  intros w.
  exact (proj1 (proj2 (proj2 (stop_paused_frees_slot true w 1 "900" [7] 60
                                eq_refl eq_refl))) eq_refl).
Defined.

(** Writing [task_status] to the store and loading it back at start-up
    restores every field but ['error'], with the campaign idle or paused:
    a record saved as running or paused comes back paused. *)
Theorem load_after_persist (t : TaskStatus) (w : World) :
  truthy (int_or_none (shop_id t)) = true →
  truthy (str_or_none (channel_id t)) = true →
  task_status
    (load_task_state (set_db (_persist_task_state t (db w)) w))
  = set_is_paused (is_running t || is_paused t)
      (set_is_running false (set_error None t)).
Proof.
  intros Hshop Hchan. unfold load_task_state. simpl.
  rewrite Hshop, Hchan. simpl.
  destruct t as [run paused ? ? ? ? ? ? ? ? ? ? ? ? ?]. simpl.
  destruct run; reflexivity.
Qed.

Lemma load_after_persist_witness :
  is_paused
    (task_status
       (load_task_state
          (set_db (_persist_task_state demo_status (demo_db None))
             (demo_world initial_task_status None)))) = true.
Proof.
  exact (eq_trans
           (f_equal is_paused
              (load_after_persist demo_status
                 (demo_world initial_task_status None) eq_refl eq_refl))
           eq_refl).
Defined.

(** The shutdown handler calls [stop_sending_task()] without the database:
    for a paused campaign the stored record stays, and the next start-up
    load brings the campaign back as paused with its cursor pair. *)
Theorem stop_without_db_keeps_record (w : World) (state : SavedState) :
  is_running (task_status w) = false →
  is_paused (task_status w) = true →
  get_sender_task_state (db w) = Some state →
  truthy (int_or_none (s_shop_id state)) = true →
  truthy (str_or_none (s_channel_id state)) = true →
  s_is_running state = false → s_is_paused state = true →
  let stopped := (stop_sending_task false w).2 in
  let restarted :=
    load_task_state (mkWorld initial_task_status false None (db stopped) []) in
  is_paused (task_status stopped) = false
  ∧ get_sender_task_state (db stopped) = Some state
  ∧ is_paused (task_status restarted) = true
  ∧ next_product_index (task_status restarted) = s_next_product_index state
  ∧ next_account_index (task_status restarted) = s_next_account_index state.
Proof.
  intros Hrun Hpaused Hget Hshop Hchan Hsr Hsp stopped restarted.
  subst restarted stopped. unfold stop_sending_task. rewrite Hrun, Hpaused.
  simpl. split; [reflexivity |]. split; [exact Hget |].
  unfold load_task_state. simpl. rewrite Hget, Hshop, Hchan, Hsr, Hsp. simpl.
  auto.
Qed.

Lemma stop_without_db_keeps_record_witness :
  let t := set_is_paused true (set_is_running false demo_status) in
  let stopped := (stop_sending_task false (demo_world t (Some (saved_of t)))).2 in
  next_product_index
    (task_status
       (load_task_state (mkWorld initial_task_status false None (db stopped) [])))
  = 2.
Proof.
  intros t stopped.
  destruct (stop_without_db_keeps_record
              (demo_world t (Some (saved_of t))) (saved_of t)
              eq_refl eq_refl eq_refl eq_refl eq_refl eq_refl eq_refl)
    as (_ & _ & _ & Hcur & _).
  exact Hcur.
Defined.

(** An accepted resume: with a stored campaign that has a shop and a
    channel, nothing running, one of its accounts online and the event loop
    taking the coroutine, the loop is submitted for the stored shop,
    channel and accounts from the stored cursor pair, with interval 60 when
    none (or 0) is stored; [sent_count] is set to the item cursor (not below
    0), the stop signal is cleared and the stored record is not touched. *)
Theorem resume_accepted (bot_clients : list Client) (w : World)
    (state : SavedState) (shop : Z) (channel : string) :
  get_sender_task_state (db w) = Some state →
  s_shop_id state = Some shop → shop ≠ 0 →
  s_channel_id state = Some channel → channel ≠ "" →
  is_running (task_status w) = false →
  _has_online_bots bot_clients (s_account_ids state) = true →
  let out := resume_sending_task bot_clients LoopOk w in
  out.1 = Success "自动发送任务已启动"
  ∧ submitted out.2
    = submitted w ++
        [mkLoopCall shop channel (s_account_ids state)
           (or_int (s_interval state) 60)
           (s_next_product_index state) (s_next_account_index state)]
  ∧ sent_count (task_status out.2) = Z.max 0 (s_next_product_index state)
  ∧ next_product_index (task_status out.2)
    = Z.max 0 (s_next_product_index state)
  ∧ next_account_index (task_status out.2)
    = Z.max 0 (s_next_account_index state)
  ∧ stop_sender_event out.2 = false
  ∧ stop_sender_reason out.2 = None
  ∧ db out.2 = db w.
Proof.
  intros Hget Hshop Hs0 Hchan Hc0 Hrun Honline out. subst out.
  unfold resume_sending_task. rewrite Hget, Hshop, Hchan, Hrun, Honline.
  simpl.
  destruct (Z.eqb_spec shop 0) as [| _]; [contradiction |].
  destruct (String.eqb_spec channel "") as [| _]; [contradiction |].
  simpl. unfold start_sending_task. rewrite Hrun. simpl.
  assert (Hor : ∀ x, or_int (Some x) 0 = x).
  { intros x. unfold or_int. simpl. destruct (Z.eqb_spec x 0); simpl; congruence. }
  rewrite !Hor, andb_false_r. repeat split; reflexivity.
Qed.

Lemma resume_accepted_witness :
  let t := set_is_paused true (set_is_running false demo_status) in
  submitted
    (resume_sending_task [bot 7 true false] LoopOk
       (demo_world t (Some (saved_of t)))).2
  = [mkLoopCall 1 "900" [7; 8] 60 2 2].
Proof.
  intros t.
  assert (H1 : (1 : Z) ≠ 0) by discriminate.
  assert (H2 : "900" ≠ "") by discriminate.
  exact (proj1 (proj2 (resume_accepted [bot 7 true false]
                         (demo_world t (Some (saved_of t))) (saved_of t) 1
                         "900" eq_refl eq_refl H1 eq_refl H2 eq_refl eq_refl))).
Defined.

(** When the event loop refuses the coroutine during a resume, the resume
    fails with the exception's text and nothing is submitted, but
    [task_status] has already been reset: the campaign is no longer paused
    in memory. The stored record is untouched, and loading it again brings
    the paused campaign back. *)
Theorem resume_submit_failure (bot_clients : list Client) (w : World)
    (state : SavedState) (text : string) :
  get_sender_task_state (db w) = Some state →
  truthy (int_or_none (s_shop_id state)) = true →
  truthy (str_or_none (s_channel_id state)) = true →
  s_is_running state = false → s_is_paused state = true →
  is_running (task_status w) = false →
  _has_online_bots bot_clients (s_account_ids state) = true →
  let out := resume_sending_task bot_clients (LoopError text) w in
  out.1 = Failure text
  ∧ submitted out.2 = submitted w
  ∧ is_paused (task_status out.2) = false
  ∧ db out.2 = db w
  ∧ is_paused (task_status (load_task_state out.2)) = true.
Proof.
  intros Hget Hshop Hchan Hsr Hsp Hrun Honline out. subst out.
  unfold resume_sending_task. rewrite Hget, Hshop, Hchan, Hrun, Honline.
  simpl. unfold start_sending_task. rewrite Hrun. simpl.
  rewrite andb_false_r. simpl.
  repeat split; try reflexivity.
  unfold load_task_state. simpl. rewrite Hget, Hshop, Hchan, Hsr, Hsp.
  reflexivity.
Qed.

Lemma resume_submit_failure_witness :
  let t := set_is_paused true (set_is_running false demo_status) in
  let out := resume_sending_task [bot 7 true false] (LoopError "no loop")
               (demo_world t (Some (saved_of t))) in
  is_paused (task_status out.2) = false
  ∧ is_paused (task_status (load_task_state out.2)) = true.
Proof.
  intros t out.
  destruct (resume_submit_failure [bot 7 true false]
              (demo_world t (Some (saved_of t))) (saved_of t) "no loop"
              eq_refl eq_refl eq_refl eq_refl eq_refl eq_refl eq_refl)
    as (_ & _ & Hmem & _ & Hload).
  split; [exact Hmem | exact Hload].
Defined.

(** The admission test of a resume and the pool the loop builds agree: some
    selected account is online exactly when [active_bots] is not empty. *)
Theorem has_online_bots_iff_active (bot_clients : list Client) (ids : list Z) :
  _has_online_bots bot_clients ids = true ↔ active_bots_of bot_clients ids ≠ [].
Proof.
  unfold _has_online_bots, active_bots_of.
  assert (Hex : existsb (online_and_selected ids) bot_clients = true
                ↔ List.filter (online_and_selected ids) bot_clients ≠ []).
  { induction bot_clients as [|c cs IH]; simpl.
    - split; [discriminate | congruence].
    - destruct (online_and_selected ids c); simpl.
      + split; [discriminate | reflexivity].
      + exact IH. }
  destruct ids as [|i ids']; [| exact Hex].
  split; [discriminate |]. intros Hne. exfalso. apply Hne.
  clear. induction bot_clients as [|c cs IH]; [reflexivity |].
  simpl. unfold online_and_selected at 1.
  destruct (account_id c); exact IH.
Qed.

End ControlMore.

(* ===================================================================== *)
(** * More on the send loop: exits, counters, coverage *)
(* ===================================================================== *)

Module LoopMore.
Import Py Sender Trace LoopInv Demo.

Ltac splits := repeat match goal with |- _ ∧ _ => split end.

Lemma same_campaign_refl t : same_campaign t t.
Proof. unfold same_campaign. repeat split; reflexivity. Qed.

Lemma same_campaign_trans t1 t2 t3 :
  same_campaign t1 t2 → same_campaign t2 t3 → same_campaign t1 t3.
Proof.
  unfold same_campaign.
  intros (?&?&?&?&?&?&?&?&?) (?&?&?&?&?&?&?&?&?).
  repeat split; congruence.
Qed.

Section Passes.
Context (env : Env) (target_channel_id : string).
Context (products : list Product) (active_bots : list Client).

(** *** One pass *)

(** The inner [try] after the cursor pair was stored: at most one send,
    [sent_count] up by one exactly when it went through. *)
Lemma attempt_counts tk product bot pi bi r :
  sent_count (status r) ≤ pi → next_product_index (status r) = pi →
  let out := attempt target_channel_id tk product bot pi bi r in
  ∃ dsend : nat,
    length (sends out.1) = (length (sends r) + dsend)%nat
    ∧ length (picks out.1) = length (picks r)
    ∧ (dsend ≤ 1)%nat
    ∧ sent_count (status r) ≤ sent_count (status out.1)
    ∧ sent_count (status out.1) ≤ sent_count (status r) + Z.of_nat dsend
    ∧ counters_in_step (pi + 1) (status out.1)
    ∧ same_campaign (status r) (status out.1).
Proof.
  intros Hsent Hcur. unfold attempt, counters_in_step.
  repeat case_match; simpl;
    first
      [ exists 0%nat; rewrite ?Nat.add_0_r;
        splits; try reflexivity; try apply same_campaign_refl;
        try (unfold same_campaign; simpl; splits; reflexivity);
        simpl; lia
      | exists 1%nat; rewrite ?length_app; simpl;
        splits; try reflexivity; try apply same_campaign_refl;
        try (unfold same_campaign; simpl; splits; reflexivity);
        simpl; lia ].
Qed.

(** What one pass does to the counters and the lists, for a pass that
    starts with [sent_count <= next_product_index <= product_idx]. *)
Lemma pass_counts tk pi bi r :
  counters_in_step pi (status r) →
  let out := pass target_channel_id products active_bots tk pi bi r in
  ∃ dsend dpick : nat,
    length (sends out.1) = (length (sends r) + dsend)%nat
    ∧ length (picks out.1) = (length (picks r) + dpick)%nat
    ∧ (dsend ≤ dpick)%nat ∧ (dpick ≤ 1)%nat
    ∧ (dpick = 1%nat → pi < Z.of_nat (length products))
    ∧ (out.2 = Again → dpick = 1%nat)
    ∧ sent_count (status r) ≤ sent_count (status out.1)
    ∧ sent_count (status out.1) ≤ sent_count (status r) + Z.of_nat dsend
    ∧ counters_in_step (pi + Z.of_nat dpick) (status out.1)
    ∧ same_campaign (status r) (status out.1).
Proof.
  intros [Hsc Hcp].
  assert (Hnone : ∀ ex,
            ∃ dsend dpick : nat,
              length (sends r) = (length (sends r) + dsend)%nat
              ∧ length (picks r) = (length (picks r) + dpick)%nat
              ∧ (dsend ≤ dpick)%nat ∧ (dpick ≤ 1)%nat
              ∧ (dpick = 1%nat → pi < Z.of_nat (length products))
              ∧ (Leave ex = Again → dpick = 1%nat)
              ∧ sent_count (status r) ≤ sent_count (status r)
              ∧ sent_count (status r) ≤ sent_count (status r) + Z.of_nat dsend
              ∧ counters_in_step (pi + Z.of_nat dpick) (status r)
              ∧ same_campaign (status r) (status r)).
  { intros ex. exists 0%nat, 0%nat. unfold counters_in_step.
    splits; try lia; try discriminate; try apply same_campaign_refl;
      rewrite Z.add_0_r; assumption. }
  unfold pass.
  destruct (stop_is_set tk); [apply Hnone |].
  case_bool_decide as Hend; [apply Hnone |].
  destruct (py_index products pi) as [product|]; [| apply Hnone].
  case_bool_decide as Hlen; [apply Hnone |].
  destruct (py_index active_bots _) as [bot|]; [| apply Hnone].
  clear Hnone.
  destruct (product_label product) as [label|].
  - match goal with
    | |- context [attempt ?c ?k ?p ?b ?x ?y ?rr] =>
        destruct (attempt_counts k p b x y rr) as (ds & A1 & A2 & A3 & A4 & A5 & A6 & A7);
        [simpl; lia | reflexivity |];
        destruct (attempt c k p b x y rr) as [r' [|]]
    end; simpl in *.
    + exists ds, 1%nat. rewrite A1, A2, length_app. simpl.
      splits; try lia; try discriminate; try apply A6.
      eapply same_campaign_trans; [| exact A7].
      unfold same_campaign. simpl. splits; reflexivity.
    + assert (Hall : ∀ nxt : Next,
                ∃ dsend dpick : nat,
                  length (sends r') = (length (sends r) + dsend)%nat
                  ∧ length (picks r') = (length (picks r) + dpick)%nat
                  ∧ (dsend ≤ dpick)%nat ∧ (dpick ≤ 1)%nat
                  ∧ (dpick = 1%nat → pi < Z.of_nat (length products))
                  ∧ (nxt = Again → dpick = 1%nat)
                  ∧ sent_count (status r) ≤ sent_count (status r')
                  ∧ sent_count (status r') ≤ sent_count (status r) + Z.of_nat dsend
                  ∧ counters_in_step (pi + Z.of_nat dpick) (status r')
                  ∧ same_campaign (status r) (status r')).
      { intros nxt. exists ds, 1%nat. rewrite A1, A2, length_app. simpl.
        splits; try lia; try apply A6.
        eapply same_campaign_trans; [| exact A7].
        unfold same_campaign. simpl. splits; reflexivity. }
      destruct (wait_outcome tk); simpl; apply Hall.
  - simpl. exists 0%nat, 1%nat. rewrite length_app. simpl.
    unfold counters_in_step.
    splits; try lia; try discriminate; apply same_campaign_refl.
Qed.

(** *** The whole loop *)

Lemma send_loop_counts fuel : ∀ n pi bi r,
  counters_in_step pi (status r) →
  let out := send_loop env target_channel_id products active_bots fuel n pi bi r in
  ∃ dsend dpick : nat,
    length (sends out.1) = (length (sends r) + dsend)%nat
    ∧ length (picks out.1) = (length (picks r) + dpick)%nat
    ∧ (dsend ≤ dpick)%nat
    ∧ Z.of_nat dpick ≤ Z.max 0 (Z.of_nat (length products) - pi)
    ∧ sent_count (status r) ≤ sent_count (status out.1)
    ∧ sent_count (status out.1) ≤ sent_count (status r) + Z.of_nat dsend
    ∧ sent_count (status out.1) ≤ next_product_index (status out.1)
    ∧ same_campaign (status r) (status out.1).
Proof.
  induction fuel as [|fuel IH]; intros n pi bi r Hc; simpl.
  - exists 0%nat, 0%nat. destruct Hc as [Hc1 Hc2].
    splits; try lia; apply same_campaign_refl.
  - destruct (pass_counts (tick env n) pi bi r Hc)
      as (ds & dp & P1 & P2 & P3 & P4 & P5 & P6 & P7 & P8 & P9 & P10).
    destruct (pass target_channel_id products active_bots (tick env n) pi bi r)
      as [r' [|ex]]; simpl in *.
    + specialize (P6 eq_refl). subst dp. specialize (P5 eq_refl).
      destruct (IH (S n) (pi + 1) (bi + 1) r' P9)
        as (ds' & dp' & Q1 & Q2 & Q3 & Q4 & Q5 & Q6 & Q7 & Q8).
      exists (ds + ds')%nat, (1 + dp')%nat.
      splits; try lia.
      eapply same_campaign_trans; eassumption.
    + exists ds, dp. destruct P9 as [P9a P9b].
      splits; try lia; try assumption.
Qed.

(** With the surroundings quiet, every product labelled and a bot to send
    with, the loop passes over every item from [product_idx] to the end and
    then leaves by its own test, whatever the sends do. *)
Lemma send_loop_covers fuel : ∀ n pi bi r,
  undisturbed env →
  (∀ product, product ∈ products → product_label product ≠ None) →
  active_bots ≠ [] →
  0 ≤ pi ≤ Z.of_nat (length products) →
  (Z.to_nat (Z.of_nat (length products) - pi) < fuel)%nat →
  let out := send_loop env target_channel_id products active_bots fuel n pi bi r in
  out.2 = Returned
  ∧ length (picks out.1)
    = (length (picks r) + Z.to_nat (Z.of_nat (length products) - pi))%nat.
Proof.
  induction fuel as [|fuel IH]; intros n pi bi r Hq Hlab Hbots Hpi Hfuel; [lia |].
  simpl. destruct (Hq n) as (Hstop & Hwait & Hsend).
  unfold pass. rewrite Hstop.
  case_bool_decide as Hend.
  - simpl. split; [reflexivity |].
    replace (Z.to_nat (Z.of_nat (length products) - pi)) with 0%nat by lia. lia.
  - assert (Hlt : (Z.to_nat pi < length products)%nat) by lia.
    destruct (lookup_lt_is_Some_2 products (Z.to_nat pi) Hlt) as [product Hprod].
    rewrite LoopFacts.py_index_nonneg by lia. rewrite Hprod.
    rewrite bool_decide_eq_false_2
      by (destruct active_bots; [contradiction | discriminate]).
    rewrite LoopFacts.py_index_mod
      by (destruct active_bots; [contradiction | discriminate]).
    assert (Hb : (Z.to_nat (bi `mod` Z.of_nat (length active_bots))
                  < length active_bots)%nat).
    { assert (0 < Z.of_nat (length active_bots))
        by (destruct active_bots; [contradiction | simpl; lia]).
      pose proof (Z.mod_pos_bound bi (Z.of_nat (length active_bots))). lia. }
    destruct (lookup_lt_is_Some_2 active_bots _ Hb) as [bot Hbot].
    rewrite Hbot.
    destruct (product_label product) as [label|] eqn:Hl.
    2:{ exfalso. apply (Hlab product); [| exact Hl].
        apply list_elem_of_lookup. eauto. }
    match goal with
    | |- context [attempt ?c ?k ?p ?b ?x ?y ?rr] =>
        pose proof (LoopFacts.attempt_adds c k p b x y rr) as [Hp _];
        assert (Hflag : (attempt c k p b x y rr).2 = false)
          by (unfold attempt; repeat case_match; simpl; congruence);
        destruct (attempt c k p b x y rr) as [r' flag]
    end.
    simpl in Hp, Hflag. subst flag. rewrite Hwait.
    destruct (IH (S n) (pi + 1) (bi + 1) r' Hq Hlab Hbots) as [E1 E2];
      [lia | lia |].
    split; [exact E1 |]. rewrite E2, Hp. simpl. rewrite length_app. simpl.
    replace (Z.to_nat (Z.of_nat (length products) - pi))
      with (S (Z.to_nat (Z.of_nat (length products) - (pi + 1)))) by lia.
    lia.
Qed.


End Passes.

(** ** [auto_send_loop] as a whole *)

Section Whole.
Context (shop : Z) (channel : string) (ids : list Z) (every : Z).
Context (clients : list Client) (sp sa : Z) (env : Env).

(** What the [finally] block leaves behind. *)
Lemma leave_state (x : Run * Exit) :
  is_running (status (leave env x)) = false
  ∧ (reason_at_exit env = Some "pause" →
     is_paused (status (leave env x)) = true
     ∧ get_sender_task_state (store (leave env x))
       = Some (saved_of (status (leave env x))))
  ∧ (reason_at_exit env ≠ Some "pause" →
     is_paused (status (leave env x)) = false
     ∧ get_sender_task_state (store (leave env x)) = None).
Proof.
  unfold leave. destruct x as [r ex]. simpl.
  case_decide as Hreason; simpl.
  - split; [reflexivity |]. split; [auto | congruence].
  - split; [reflexivity |]. split; [congruence | auto].
Qed.

(** The campaign fields a run sets at entry stay as set to its end. *)
Lemma run_targets (t : TaskStatus) (d : DB) :
  let run := auto_send_loop shop channel ids every clients sp sa env t d in
  shop_id (status run) = Some shop
  ∧ channel_id (status run) = Some channel
  ∧ account_ids (status run) = ids
  ∧ interval (status run) = Some every
  ∧ started_at (status run) = Some (start_stamp env).
Proof.
  intros run. subst run. unfold auto_send_loop.
  assert (Hbody : ∀ r,
            same_campaign
              (set_total_products (total_products
                 (status (try_body shop channel ids clients env r).1))
                 (set_error (error
                    (status (try_body shop channel ids clients env r).1))
                    (status r)))
              (status (try_body shop channel ids clients env r).1)).
  { intros r. unfold try_body.
    destruct (get_shop_by_id shop (store r)) as [name|];
      [| unfold same_campaign; simpl; splits; reflexivity].
    destruct (select_products name (store r)) as [|p0 ps];
      [unfold same_campaign; simpl; splits; reflexivity |].
    case_bool_decide; [unfold same_campaign; simpl; splits; reflexivity |].
    destruct (active_bots_of clients ids) as [|b0 bs];
      [unfold same_campaign; simpl; splits; reflexivity |].
    match goal with
    | |- context [send_loop ?e ?c ?ps ?bs ?f ?n ?pi ?bi ?r0] =>
        destruct (send_loop_counts e c ps bs f n pi bi r0)
          as (ds & dp & _ & _ & _ & _ & _ & _ & _ & Hsame);
        [unfold counters_in_step; simpl; lia |];
        destruct (send_loop e c ps bs f n pi bi r0) as [r' ex]
    end.
    unfold same_campaign in *. simpl in *.
    destruct Hsame as (?&?&?&?&?&?&?&?&?). splits; congruence. }
  match goal with
  | |- context [try_body shop channel ids clients env ?r0] =>
      specialize (Hbody r0);
      destruct (try_body shop channel ids clients env r0) as [r ex]
  end.
  unfold same_campaign in Hbody. simpl in Hbody.
  destruct Hbody as (H1 & H2 & H3 & H4 & H5 & _).
  unfold leave. simpl.
  repeat case_match; simpl; splits; congruence.
Qed.

(** Within one run no item is selected twice and none outside the list:
    the selected indices are distinct and lie between the starting cursor
    and the item count, there are at most as many selections as items left,
    and at most one send per selection. *)
Theorem attempts_bounded (t : TaskStatus) (d : DB) :
  let run := auto_send_loop shop channel ids every clients sp sa env t d in
  let total := Z.of_nat (length (loaded_products shop d)) in
  (length (sends run) ≤ length (picks run))%nat
  ∧ Z.of_nat (length (picks run)) ≤ Z.max 0 (total - Z.max 0 sp)
  ∧ (∀ p, p ∈ picks run → Z.max 0 sp ≤ pick_product_idx p < total)
  ∧ NoDup (pick_product_idx <$> picks run).
Proof.
  intros run total. subst run total.
  unfold auto_send_loop. rewrite LoopFacts.leave_picks, LoopFacts.leave_sends.
  unfold try_body, loaded_products.
  change (get_shop_by_id shop (store (enter _ _ _ _ _ _ _ _)))
    with (get_shop_by_id shop d).
  assert (Hnone : ∀ (r : Run) (n : Z), picks r = [] → sends r = [] →
            (length (sends r) ≤ length (picks r))%nat
            ∧ Z.of_nat (length (picks r)) ≤ Z.max 0 n
            ∧ (∀ p, p ∈ picks r →
                 Z.max 0 sp ≤ pick_product_idx p
                 < n + Z.max 0 sp)
            ∧ NoDup (pick_product_idx <$> picks r)).
  { intros r n -> ->. simpl. splits; try lia.
    - intros p Hp. apply elem_of_nil in Hp as [].
    - constructor. }
  destruct (get_shop_by_id shop d) as [name|].
  2:{ destruct (Hnone (assign (set_error (Some ("店铺 " +:+ str_of_int shop
                                               +:+ " 不存在")))
                         (enter shop channel ids every sp sa env
                            (mkRun t d [] [] [])))
                  (0 - Z.max 0 sp) eq_refl eq_refl) as (A & B & C & D).
      simpl in *. splits; try assumption.
      intros p Hp. specialize (C p Hp). lia. }
  change (select_products name (store (enter _ _ _ _ _ _ _ _)))
    with (select_products name d).
  destruct (select_products name d) as [|p0 ps] eqn:Hsel.
  { simpl. splits; try lia.
    - intros p Hp. apply elem_of_nil in Hp as [].
    - constructor. }
  case_bool_decide as Hdone.
  { simpl in *. splits; try lia.
    - intros p Hp. apply elem_of_nil in Hp as [].
    - constructor. }
  destruct (active_bots_of clients ids) as [|b0 bs] eqn:Hpool.
  { simpl. splits; try lia.
    - intros p Hp. apply elem_of_nil in Hp as [].
    - constructor. }
  clear Hnone.
  match goal with
  | |- context [send_loop ?e ?c ?ps ?bs ?f ?n ?pi ?bi ?r] =>
      destruct (send_loop_counts e c ps bs f n pi bi r)
        as (ds & dp & C1 & C2 & C3 & C4 & _);
      [unfold counters_in_step; simpl; lia |];
      destruct (LoopFacts.send_loop_adds e c ps bs f n pi bi r)
        as (np & ns & Hnp & Hns & Hidx & _);
      remember (send_loop e c ps bs f n pi bi r) as out eqn:Hout; clear Hout
  end.
  simpl in C1, C2, C4, Hnp, Hidx, Hdone.
  rewrite Hnp in *. simpl in *.
  assert (Hlen : Z.of_nat (length np)
                 ≤ Z.of_nat (S (length ps)) - Z.max 0 sp) by lia.
  splits.
  - lia.
  - lia.
  - intros p Hp. apply list_elem_of_lookup in Hp as [j Hj].
    destruct (Hidx j p Hj) as (Hi & _).
    apply lookup_lt_Some in Hj. lia.
  - apply NoDup_alt. intros i j x Hi Hj.
    rewrite list_lookup_fmap in Hi, Hj.
    destruct (np !! i) as [pi'|] eqn:Ei; [| discriminate].
    destruct (np !! j) as [pj'|] eqn:Ej; [| discriminate].
    destruct (Hidx i pi' Ei) as (Hi' & _).
    destruct (Hidx j pj' Ej) as (Hj' & _).
    simpl in Hi, Hj. simplify_eq. lia.
Qed.

Lemma leave_keeps x :
  sent_count (status (leave env x)) = sent_count (status x.1)
  ∧ next_product_index (status (leave env x)) = next_product_index (status x.1)
  ∧ next_account_index (status (leave env x)) = next_account_index (status x.1)
  ∧ total_products (status (leave env x)) = total_products (status x.1)
  ∧ (x.2 = Returned → error (status (leave env x)) = error (status x.1)).
Proof.
  unfold leave. destruct x as [r ex]. simpl.
  destruct ex; case_decide; simpl; splits; try reflexivity; discriminate.
Qed.

(** What the parts of [try_body] before the loop establish when the shop
    has items, the starting cursor is before the end and a bot is
    online. *)
Lemma try_body_enters (r : Run) (p0 : Product) (ps : list Product)
    (b0 : Client) (bs : list Client) :
  loaded_products shop (store r) = p0 :: ps →
  active_bots_of clients ids = b0 :: bs →
  next_product_index (status r) < Z.of_nat (length (p0 :: ps)) →
  try_body shop channel ids clients env r
  = send_loop env channel (p0 :: ps) (b0 :: bs)
      (S (Z.to_nat (Z.of_nat (length (p0 :: ps)) - next_product_index (status r))))
      0 (next_product_index (status r)) (next_account_index (status r))
      (assign (set_sent_count (next_product_index (status r)))
         (assign (set_total_products (Z.of_nat (length (p0 :: ps)))) r)).
Proof.
  intros Hitems Hpool Hlt. unfold try_body. unfold loaded_products in Hitems.
  destruct (get_shop_by_id shop (store r)) as [name|]; [| discriminate].
  rewrite Hitems, Hpool.
  rewrite bool_decide_eq_false_2 by (simpl in *; lia).
  reflexivity.
Qed.

Lemma entered_state (t : TaskStatus) (d : DB) :
  let r := enter shop channel ids every sp sa env (mkRun t d [] [] []) in
  loaded_products shop (store r) = loaded_products shop d
  ∧ next_product_index (status r) = Z.max 0 sp
  ∧ next_account_index (status r) = Z.max 0 sa
  ∧ error (status r) = None
  ∧ picks r = [] ∧ sends r = [].
Proof. simpl. splits; reflexivity. Qed.

(** The progress counter of a run that entered the loop (items loaded, a
    selected account online, starting cursor before the end): it starts at
    the starting cursor, grows by at most one per send, never passes the
    stored item cursor, and so never passes [total_products]. *)
Theorem progress_counters (t : TaskStatus) (d : DB) :
  let run := auto_send_loop shop channel ids every clients sp sa env t d in
  let total := Z.of_nat (length (loaded_products shop d)) in
  active_bots_of clients ids ≠ [] →
  Z.max 0 sp < total →
  total_products (status run) = total
  ∧ Z.max 0 sp ≤ sent_count (status run)
  ∧ sent_count (status run) ≤ Z.max 0 sp + Z.of_nat (length (sends run))
  ∧ sent_count (status run) ≤ next_product_index (status run)
  ∧ next_product_index (status run) ≤ total.
Proof.
  intros run total Hbots Hstart.
  assert (Hcur : next_product_index (status run) ≤ total).
  { assert (Htr : tracked (Z.max (Z.max 0 sp) total) run).
    { subst run. unfold auto_send_loop.
      apply LoopFacts.leave_tracked, LoopFacts.try_body_tracked.
      - unfold enter. apply LoopFacts.tracked_persist, LoopFacts.tracked_first;
          [reflexivity | simpl; lia].
      - subst total. simpl.
        unfold loaded_products, get_shop_by_id, select_products. simpl. lia. }
    apply LoopFacts.tracked_cursor in Htr. lia. }
  split; [| split; [| split; [| split; [| exact Hcur]]]];
    clear Hcur; subst run total; unfold auto_send_loop;
    destruct (entered_state t d) as (E1 & E2 & E3 & E4 & E5 & E6);
    destruct (loaded_products shop d) as [|p0 ps] eqn:Hitems;
    try (simpl in Hstart; lia);
    destruct (active_bots_of clients ids) as [|b0 bs] eqn:Hpool;
    try contradiction;
    rewrite (try_body_enters _ p0 ps b0 bs)
      by (rewrite ?E1, ?E2; assumption || reflexivity);
    match goal with
    | |- context [send_loop ?e ?c ?ps ?bs ?f ?n ?pi ?bi ?r] =>
        destruct (send_loop_counts e c ps bs f n pi bi r)
          as (ds & dp & C1 & C2 & C3 & C4 & C5 & C6 & C7 & C8);
        [unfold counters_in_step; simpl; lia |];
        remember (send_loop e c ps bs f n pi bi r) as out eqn:Hout; clear Hout
    end;
    destruct (leave_keeps out) as (L1 & L2 & L3 & L4 & _);
    rewrite ?L1, ?L2, ?L4, ?LoopFacts.leave_sends;
    simpl in C1, C5, C6, C7, C8.
  - destruct C8 as (_ & _ & _ & _ & _ & Htot & _). simpl in Htot.
    rewrite <- Htot. reflexivity.
  - lia.
  - lia.
  - lia.
Qed.

(** A single bad item does not hold up a run: when nobody stops, pauses or
    cancels, every item has a label and a selected account is online, the
    loop selects every item from the starting cursor to the end exactly
    once, whichever sends fail, and ends without recording an error. *)
Theorem campaign_covers_all_items (t : TaskStatus) (d : DB) :
  let run := auto_send_loop shop channel ids every clients sp sa env t d in
  let total := Z.of_nat (length (loaded_products shop d)) in
  undisturbed env →
  (∀ product, product ∈ loaded_products shop d → product_label product ≠ None) →
  loaded_products shop d ≠ [] →
  active_bots_of clients ids ≠ [] →
  length (picks run) = Z.to_nat (total - Z.max 0 sp)
  ∧ error (status run) = None.
Proof.
  intros run total Hq Hlab Hitems Hbots. subst run total.
  unfold auto_send_loop.
  destruct (entered_state t d) as (E1 & E2 & E3 & E4 & E5 & E6).
  destruct (loaded_products shop d) as [|p0 ps] eqn:Hp; [contradiction |].
  destruct (active_bots_of clients ids) as [|b0 bs] eqn:Hpool; [contradiction |].
  destruct (decide (Z.max 0 sp < Z.of_nat (length (p0 :: ps)))) as [Hlt | Hge].
  - rewrite (try_body_enters _ p0 ps b0 bs) by first [exact E1 | exact Hpool | rewrite E2; exact Hlt].
    rewrite E2, E3.
    match goal with
    | |- context [send_loop ?e ?c ?ps ?bs ?f ?n ?pi ?bi ?r] =>
        destruct (send_loop_covers e c ps bs f n pi bi r Hq Hlab)
          as [X1 X2]; [discriminate | lia | lia |];
        destruct (send_loop_counts e c ps bs f n pi bi r)
          as (ds & dp & _ & _ & _ & _ & _ & _ & _ & C8);
        [unfold counters_in_step; simpl; lia |];
        remember (send_loop e c ps bs f n pi bi r) as out eqn:Hout; clear Hout
    end.
    destruct (leave_keeps out) as (_ & _ & _ & _ & L5).
    rewrite LoopFacts.leave_picks, X2, (L5 X1).
    destruct C8 as (_ & _ & _ & _ & _ & _ & _ & _ & Herr).
    rewrite <- Herr. split; [reflexivity | reflexivity].
  - unfold try_body. unfold loaded_products in Hp.
    change (get_shop_by_id shop (store (enter _ _ _ _ _ _ _ _)))
      with (get_shop_by_id shop d).
    destruct (get_shop_by_id shop d) as [name|]; [| discriminate].
    change (select_products name (store (enter _ _ _ _ _ _ _ _)))
      with (select_products name d).
    rewrite Hp. rewrite bool_decide_eq_true_2 by (simpl in *; lia).
    simpl in Hge. unfold leave. simpl.
    case_decide; simpl; split; try reflexivity; lia.
Qed.


(** Pause, restart, resume: after a run that left on a pause (for a shop
    id other than 0 and a non-empty channel id), the start-up load of a
    fresh process brings [task_status] back as the run left it, except for
    ['error'], and a resume with one of the accounts online submits the
    loop for the same shop, channel and accounts from the cursor pair the
    run stopped at. *)
Theorem paused_run_resumes (t : TaskStatus) (d : DB) (later_clients : list Client) :
  let run := auto_send_loop shop channel ids every clients sp sa env t d in
  let restarted :=
    load_task_state (mkWorld initial_task_status false None (store run) []) in
  let out := resume_sending_task later_clients LoopOk restarted in
  reason_at_exit env = Some "pause" →
  shop ≠ 0 → channel ≠ "" →
  _has_online_bots later_clients ids = true →
  task_status restarted = set_error None (status run)
  ∧ out.1 = Success "自动发送任务已启动"
  ∧ submitted out.2
    = [mkLoopCall shop channel ids (or_int (Some every) 60)
         (next_product_index (status run)) (next_account_index (status run))].
Proof.
  intros run restarted out Hpause Hshop Hchan Honline.
  destruct (run_targets t d) as (T1 & T2 & T3 & T4 & T5). fold run in T1, T2, T3, T4, T5.
  assert (Hexit : is_running (status run) = false
                  ∧ is_paused (status run) = true
                  ∧ get_sender_task_state (store run)
                    = Some (saved_of (status run))).
  { subst run. unfold auto_send_loop.
    destruct (leave_state (try_body shop channel ids clients env
                             (enter shop channel ids every sp sa env
                                (mkRun t d [] [] []))))
      as (E1 & E2 & _).
    destruct (E2 Hpause). auto. }
  destruct Hexit as (Hrun & Hpaused & Hstored).
  clearbody run.
  assert (Hload : restarted
            = mkWorld (set_error None (status run)) false None (store run) []).
  { subst restarted. unfold load_task_state. simpl.
    rewrite Hstored. simpl.
    rewrite T1, T2. simpl.
    destruct (Z.eqb_spec shop 0) as [| _]; [contradiction |].
    destruct (String.eqb_spec channel "") as [| _]; [contradiction |].
    simpl. rewrite Hrun, Hpaused. unfold set_task_status. simpl.
    f_equal. destruct (status run). simpl in *. subst. reflexivity. }
  split; [rewrite Hload; reflexivity |].
  subst out. rewrite Hload. unfold resume_sending_task. simpl.
  rewrite Hstored. simpl.
  rewrite T1, T2, T3, Hrun, Honline. simpl.
  destruct (Z.eqb_spec shop 0) as [| _]; [contradiction |].
  destruct (String.eqb_spec channel "") as [| _]; [contradiction |].
  simpl. unfold start_sending_task. simpl. rewrite Hrun. simpl.
  rewrite andb_false_r. simpl.
  assert (Hor : ∀ x, or_int (Some x) 0 = x).
  { intros x. unfold or_int. simpl. destruct (Z.eqb_spec x 0); simpl; congruence. }
  rewrite !Hor, T4. split; reflexivity.
Qed.

(** An item without a title from which no id can be read ends the run:
    when the loop reaches it, the [TypeError] of [title[:50]] is recorded
    as the campaign's error, nothing is sent for it or after it, and the
    progress counter stays where it was. *)
Theorem unlabelled_item_aborts (t : TaskStatus) (d : DB) (product : Product) :
  let run := auto_send_loop shop channel ids every clients sp sa env t d in
  active_bots_of clients ids ≠ [] →
  stop_is_set (tick env 0) = false →
  loaded_products shop d !! Z.to_nat (Z.max 0 sp) = Some product →
  product_label product = None →
  error (status run) = Some "'NoneType' object is not subscriptable"
  ∧ sends run = []
  ∧ length (picks run) = 1%nat
  ∧ sent_count (status run) = Z.max 0 sp.
Proof.
  intros run Hbots Hstop Hprod Hlab. subst run. unfold auto_send_loop.
  destruct (entered_state t d) as (E1 & E2 & E3 & E4 & E5 & E6).
  destruct (loaded_products shop d) as [|p0 ps] eqn:Hp; [discriminate |].
  destruct (active_bots_of clients ids) as [|b0 bs] eqn:Hpool; [contradiction |].
  assert (Hlt : Z.max 0 sp < Z.of_nat (length (p0 :: ps))).
  { apply lookup_lt_Some in Hprod. lia. }
  rewrite (try_body_enters _ p0 ps b0 bs)
    by first [exact E1 | exact Hpool | rewrite E2; exact Hlt].
  rewrite E2, E3. simpl send_loop. unfold pass. rewrite Hstop.
  rewrite bool_decide_eq_false_2 by lia.
  rewrite LoopFacts.py_index_nonneg by lia. rewrite Hprod.
  rewrite bool_decide_eq_false_2 by discriminate.
  rewrite LoopFacts.py_index_mod by discriminate.
  assert (Hb : (Z.to_nat (Z.max 0 sa `mod` Z.of_nat (length (b0 :: bs)))
                < length (b0 :: bs))%nat).
  { pose proof (Z.mod_pos_bound (Z.max 0 sa) (Z.of_nat (length (b0 :: bs)))).
    simpl in *. lia. }
  destruct (lookup_lt_is_Some_2 (b0 :: bs) _ Hb) as [bot Hbot].
  rewrite Hbot, Hlab. unfold leave. simpl.
  case_decide; simpl; splits; reflexivity.
Qed.

End Whole.

Lemma progress_counters_witness :
  let run := auto_send_loop 1 "900" [7; 8] 60 [bot7; bot8] 2 0 calm
               initial_task_status five_items in
  2 ≤ sent_count (status run) ∧ sent_count (status run) ≤ 5.
Proof.
  intros run.
  destruct (progress_counters 1 "900" [7; 8] 60 [bot7; bot8] 2 0 calm
              initial_task_status five_items)
    as (_ & Hlo & _ & Hle & Hhi).
  - vm_compute. discriminate.
  - vm_compute. reflexivity.
  - split; [exact Hlo |]. fold run in Hle, Hhi.
    change (Z.of_nat (length (loaded_products 1 five_items))) with 5 in Hhi.
    lia.
Defined.

Lemma campaign_covers_all_items_witness :
  let env := mkEnv "T0" (λ _, mkTick false SendRaises TimedOut) None in
  let run := auto_send_loop 1 "900" [7; 8] 60 [bot7; bot8] 0 0 env
               initial_task_status five_items in
  length (picks run) = 5%nat ∧ error (status run) = None.
Proof.
  intros env run.
  apply (campaign_covers_all_items 1 "900" [7; 8] 60 [bot7; bot8] 0 0 env
           initial_task_status five_items).
  - intros n. simpl. splits; [reflexivity | reflexivity | discriminate].
  - intros product Hin. vm_compute in Hin.
    repeat (apply elem_of_cons in Hin as [-> | Hin]); try discriminate.
    apply elem_of_nil in Hin as [].
  - vm_compute. discriminate.
  - vm_compute. discriminate.
Defined.


Lemma paused_run_resumes_witness :
  let env := mkEnv "T0" (λ _, mkTick false (SendOk "T1") Signalled)
               (Some "pause") in
  let run := auto_send_loop 1 "900" [7; 8] 60 [bot7; bot8] 0 0 env
               initial_task_status five_items in
  submitted
    (resume_sending_task [bot8] LoopOk
       (load_task_state
          (mkWorld initial_task_status false None (store run) []))).2
  = [mkLoopCall 1 "900" [7; 8] 60 1 1].
Proof.
  intros env run.
  assert (H1 : (1 : Z) ≠ 0) by discriminate.
  assert (H2 : "900" ≠ "") by discriminate.
  exact (proj2 (proj2 (paused_run_resumes 1 "900" [7; 8] 60 [bot7; bot8] 0 0
                         env initial_task_status five_items [bot8]
                         eq_refl H1 H2 eq_refl))).
Defined.

Lemma unlabelled_item_aborts_witness :
  let nameless := mkProduct "shop" 9 (Some "https://weidian.com/") None None PNone in
  let d := mkDB None {[ 1 := "shop" ]} [item 0; nameless; item 2] in
  let run := auto_send_loop 1 "900" [7; 8] 60 [bot7; bot8] 1 0 calm
               initial_task_status d in
  error (status run) = Some "'NoneType' object is not subscriptable"
  ∧ sends run = [].
Proof.
  intros nameless d run.
  destruct (unlabelled_item_aborts 1 "900" [7; 8] 60 [bot7; bot8] 1 0 calm
              initial_task_status d nameless) as (He & Hs & _).
  - vm_compute. discriminate.
  - reflexivity.
  - vm_compute. reflexivity.
  - vm_compute. reflexivity.
  - split; [exact He | exact Hs].
Defined.

End LoopMore.

(* ===================================================================== *)
(** * [_extract_item_id]: what it returns *)
(* ===================================================================== *)

Module ExtractFacts.
Import Py Sender.

Lemma leading_digits_eq (s : string) :
  leading_digits s
  = match head_char s, s with
    | Some (cp, len), String c1 s1 =>
        if is_decimal cp then
          match len, s1 with
          | 1%nat, _ => String c1 (leading_digits s1)
          | 2%nat, String c2 s2 => String c1 (String c2 (leading_digits s2))
          | 3%nat, String c2 (String c3 s3) =>
              String c1 (String c2 (String c3 (leading_digits s3)))
          | 4%nat, String c2 (String c3 (String c4 s4)) =>
              String c1 (String c2 (String c3 (String c4 (leading_digits s4))))
          | _, _ => ""
          end
        else ""
    | _, _ => ""
    end.
Proof. destruct s; reflexivity. Qed.

Lemma code_points_eq (s : string) :
  code_points s
  = match head_char s, s with
    | Some (cp, len), String _ s1 =>
        cons cp <$>
          match len, s1 with
          | 1%nat, _ => code_points s1
          | 2%nat, String _ s2 => code_points s2
          | 3%nat, String _ (String _ s3) => code_points s3
          | 4%nat, String _ (String _ (String _ s4)) => code_points s4
          | _, _ => None
          end
    | None, EmptyString => Some []
    | _, _ => None
    end.
Proof. destruct s; reflexivity. Qed.

(** The character at the head of a text is decided by the bytes it
    takes. *)
Lemma head_char_1 c1 s1 cp t :
  head_char (String c1 s1) = Some (cp, 1%nat) →
  head_char (String c1 t) = Some (cp, 1%nat).
Proof.
  unfold head_char. repeat case_match; intros; simplify_eq; reflexivity.
Qed.

Lemma head_char_2 c1 c2 s2 cp t :
  head_char (String c1 (String c2 s2)) = Some (cp, 2%nat) →
  head_char (String c1 (String c2 t)) = Some (cp, 2%nat).
Proof.
  unfold head_char. repeat case_match; intros; simplify_eq; reflexivity.
Qed.

Lemma head_char_3 c1 c2 c3 s3 cp t :
  head_char (String c1 (String c2 (String c3 s3))) = Some (cp, 3%nat) →
  head_char (String c1 (String c2 (String c3 t))) = Some (cp, 3%nat).
Proof.
  unfold head_char. repeat case_match; intros; simplify_eq; reflexivity.
Qed.

Lemma head_char_4 c1 c2 c3 c4 s4 cp t :
  head_char (String c1 (String c2 (String c3 (String c4 s4)))) = Some (cp, 4%nat) →
  head_char (String c1 (String c2 (String c3 (String c4 t)))) = Some (cp, 4%nat).
Proof.
  unfold head_char. repeat case_match; intros; simplify_eq; reflexivity.
Qed.

(** What [(\d+)] takes is well-formed text made of decimal digits only. *)
Lemma leading_digits_decimal (n : nat) : ∀ s : string,
  (String.length s ≤ n)%nat →
  ∃ cps, code_points (leading_digits s) = Some cps
         ∧ Forall (λ cp, is_decimal cp = true) cps.
Proof.
  induction n as [|n IH]; intros s Hlen.
  - destruct s; [| simpl in Hlen; lia]. exists []. split; [reflexivity | constructor].
  - rewrite leading_digits_eq.
    destruct (head_char s) as [[cp len]|] eqn:Hh;
      [| exists []; split; [reflexivity | constructor]].
    destruct s as [|c1 s1]; [discriminate |]. simpl in Hlen.
    destruct (is_decimal cp) eqn:Hd;
      [| exists []; split; [reflexivity | constructor]].
    destruct len as [|[|[|[|[|len]]]]];
      try (exists []; split; [reflexivity | constructor]).
    + destruct (IH s1) as (cps & Hc & Hall); [lia |].
      exists (cp :: cps). split; [| constructor; assumption].
      rewrite code_points_eq, (head_char_1 _ _ _ _ Hh), Hc. reflexivity.
    + destruct s1 as [|c2 s2];
        [exists []; split; [reflexivity | constructor] |]. simpl in Hlen.
      destruct (IH s2) as (cps & Hc & Hall); [lia |].
      exists (cp :: cps). split; [| constructor; assumption].
      rewrite code_points_eq, (head_char_2 _ _ _ _ _ Hh), Hc. reflexivity.
    + destruct s1 as [|c2 [|c3 s3]];
        try (exists []; split; [reflexivity | constructor]). simpl in Hlen.
      destruct (IH s3) as (cps & Hc & Hall); [lia |].
      exists (cp :: cps). split; [| constructor; assumption].
      rewrite code_points_eq, (head_char_3 _ _ _ _ _ _ Hh), Hc. reflexivity.
    + destruct s1 as [|c2 [|c3 [|c4 s4]]];
        try (exists []; split; [reflexivity | constructor]). simpl in Hlen.
      destruct (IH s4) as (cps & Hc & Hall); [lia |].
      exists (cp :: cps). split; [| constructor; assumption].
      rewrite code_points_eq, (head_char_4 _ _ _ _ _ _ _ Hh), Hc. reflexivity.
Qed.

Lemma digits_after_digits (lit s g : string) :
  digits_after lit s = Some g →
  g ≠ ""
  ∧ ∃ cps, code_points g = Some cps ∧ Forall (λ cp, is_decimal cp = true) cps.
Proof.
  unfold digits_after. destruct (drop_prefix lit s) as [rest|]; simpl;
    [| discriminate].
  pose proof (leading_digits_decimal _ rest (le_n _)) as Hd.
  destruct (leading_digits rest) as [|c r]; [discriminate |].
  intros [= <-]. split; [discriminate | exact Hd].
Qed.

Lemma re_search_found (at_head : string → option string) (s g : string) :
  re_search at_head s = Some g → ∃ s', at_head s' = Some g.
Proof.
  induction s as [|c s IH]; simpl.
  - destruct (at_head "") eqn:H0; [intros [= <-]; eauto | discriminate].
  - destruct (at_head (String c s)) eqn:H0; [intros [= <-]; eauto | exact IH].
Qed.

(** Without a usable [item_id] column the function returns either nothing
    or a run of decimal digits (of any script, as [\d] matches them) read
    from one of the URLs; it never returns other text. With an [item_id]
    it returns [str(item_id)] whatever the URLs hold. *)
Theorem extract_item_id_shape (product : Product) :
  (truthy (item_id product) = true →
   _extract_item_id product = py_str (item_id product))
  ∧ (truthy (item_id product) = false →
     ∃ cps, code_points (_extract_item_id product) = Some cps
            ∧ Forall (λ cp, is_decimal cp = true) cps).
Proof.
  unfold _extract_item_id. split; intros ->; [reflexivity |].
  destruct (negb _); [| exists []; split; [reflexivity | constructor]].
  destruct (search_itemID _) as [g|] eqn:H1.
  - apply re_search_found in H1 as [s' H1].
    apply digits_after_digits in H1 as [_ H1]. exact H1.
  - destruct (search_id _) as [g|] eqn:H2;
      [| exists []; split; [reflexivity | constructor]].
    apply re_search_found in H2 as [s' H2].
    destruct s' as [|c s']; [discriminate |].
    destruct (_ || _); [| discriminate].
    apply digits_after_digits in H2 as [_ H2]. exact H2.
Qed.

Lemma extract_item_id_shape_witness :
  ∃ cps,
    code_points
      (_extract_item_id
         (mkProduct "shop" 1 (Some "https://shop.example/p?x=1&id=778899#top")
            (Some "t") None PNone)) = Some cps
    ∧ Forall (λ cp, is_decimal cp = true) cps.
Proof.
  apply (extract_item_id_shape
           (mkProduct "shop" 1 (Some "https://shop.example/p?x=1&id=778899#top")
              (Some "t") None PNone)).
  reflexivity.
Defined.

Lemma leading_digits_uint (d : uint) (tail : string) :
  leading_digits tail = "" →
  leading_digits (NilEmpty.string_of_uint d +:+ tail) = NilEmpty.string_of_uint d.
Proof.
  intros Ht. induction d; try exact Ht;
    cbn [NilEmpty.string_of_uint String.append];
    match goal with
    | |- leading_digits (String ?c ?s +:+ ?t) = _ =>
        change (String c s +:+ t) with (String c (s +:+ t));
        transitivity (String c (leading_digits (s +:+ t)));
        [rewrite (leading_digits_eq (String c (s +:+ t))); reflexivity
        | rewrite IHd; reflexivity]
    end.
Qed.

Lemma str_of_int_nonneg (n : Z) :
  0 ≤ n → ∃ d, d ≠ Nil ∧ str_of_int n = NilEmpty.string_of_uint d.
Proof.
  intros Hn. unfold str_of_int. destruct n as [|p|p]; [| | lia].
  - exists (D0 Nil). split; [discriminate | reflexivity].
  - exists (Pos.to_uint p). split; [apply DecimalPos.Unsigned.to_uint_nonnil |].
    simpl. apply PyFacts.nilzero_to_uint.
Qed.

(** The id written into a standard item link is read back: for an item
    link [https://weidian.com/item.html?itemID=<n>] followed by anything
    that does not start with a decimal digit, and no [item_id] column, the
    function returns the decimal text of [n]. *)
Theorem extract_item_id_from_item_link
    (n : Z) (tail name : string) (id : Z) (tl cn : option string) :
  0 ≤ n →
  leading_digits tail = "" →
  _extract_item_id
    (mkProduct name id
       (Some ("https://weidian.com/item.html?itemID=" +:+ str_of_int n +:+ tail))
       tl cn PNone)
  = str_of_int n.
Proof.
  intros Hn Htail.
  destruct (str_of_int_nonneg n Hn) as (d & Hd & ->).
  pose proof (leading_digits_uint d tail Htail) as Hlead.
  assert (Hne : NilEmpty.string_of_uint d ≠ "")
    by (destruct d; try congruence; discriminate).
  remember (NilEmpty.string_of_uint d) as digits eqn:Hdigits. clear Hdigits.
  remember (digits +:+ tail) as rest eqn:Hrest. clear Hrest.
  unfold _extract_item_id, or_str, search_itemID, digits_after. simpl.
  change ("" +:+ rest) with rest.
  rewrite Hlead. destruct digits; [congruence | reflexivity].
Qed.

Lemma extract_item_id_from_item_link_witness :
  _extract_item_id
    (mkProduct "shop" 3
       (Some ("https://weidian.com/item.html?itemID=" +:+ str_of_int 7412
              +:+ "&spider=1"))
       None None PNone)
  = "7412".
Proof.
  apply (extract_item_id_from_item_link 7412 "&spider=1" "shop" 3 None None);
    [lia | reflexivity].
Defined.

End ExtractFacts.

(* ===================================================================== *)
(** * More on the cooldown table: keys, purging, listing *)
(* ===================================================================== *)

Module CooldownMore.
Import Py Cooldown CooldownView.

Lemma str_of_int_inj (a b : Z) : str_of_int a = str_of_int b → a = b.
Proof.
  intros Heq. pose proof (PyFacts.int_of_str_of_int a) as Ha.
  rewrite Heq, PyFacts.int_of_str_of_int in Ha. congruence.
Qed.

Lemma check_reads_key (id ch : pyval) (key : Z * string) (interval now : Z)
    (tbl : table) :
  cooldown_key id ch = Some key →
  is_account_on_cooldown id ch interval now tbl
  = Some (bool_decide (now - default 0 (tbl !! key) < interval)).
Proof. intros Hk. unfold is_account_on_cooldown. rewrite Hk. reflexivity. Qed.

(** Cooldowns are kept per account and per channel: marking account [a] in
    channel [c] changes no answer for another account, or for the same
    account in another channel; and a later mark for the same pair replaces
    the earlier one. *)
Theorem cooldown_is_per_account_and_channel
    (a c a' c' interval t t' now : Z) (tbl : table) :
  ∃ tbl1 tbl2,
    set_account_cooldown (PInt a) (PInt c) t tbl = Some tbl1
    ∧ set_account_cooldown (PInt a) (PInt c) t' tbl1 = Some tbl2
    ∧ (a ≠ a' ∨ c ≠ c' →
       is_account_on_cooldown (PInt a') (PInt c') interval now tbl1
       = is_account_on_cooldown (PInt a') (PInt c') interval now tbl)
    ∧ is_account_on_cooldown (PInt a) (PInt c) interval now tbl2
      = Some (bool_decide (now - t' < interval)).
Proof.
  eexists _, _. split; [reflexivity |]. split; [reflexivity |]. split.
  - intros Hne.
    rewrite !(check_reads_key (PInt a') (PInt c') (a', str_of_int c'))
      by reflexivity.
    rewrite lookup_insert_ne; [reflexivity |].
    intros [= Ha Hc]. apply str_of_int_inj in Hc. destruct Hne; congruence.
  - rewrite (check_reads_key (PInt a) (PInt c) (a, str_of_int c))
      by reflexivity.
    rewrite lookup_insert_eq. reflexivity.
Qed.

Lemma cooldown_is_per_account_and_channel_witness :
  ∃ tbl1,
    set_account_cooldown (PInt 7) (PInt 900) 1000 ∅ = Some tbl1
    ∧ is_account_on_cooldown (PInt 7) (PInt 901) 180 1700000000 tbl1
      = is_account_on_cooldown (PInt 7) (PInt 901) 180 1700000000 ∅.
Proof.
  destruct (cooldown_is_per_account_and_channel 7 900 7 901 180 1000 1001
              1700000000 ∅) as (tbl1 & tbl2 & H1 & _ & Hframe & _).
  exists tbl1. split; [exact H1 |]. apply Hframe. right. discriminate.
Defined.

(** What [cleanup_expired_cooldowns] keeps: an entry stays, unchanged,
    exactly when it is at most 24h old. *)
Lemma cleanup_lookup (now : Z) (tbl : table) (key : Z * string) :
  cleanup_expired_cooldowns now tbl !! key
  = match tbl !! key with
    | Some last => if bool_decide (now - last > 86400) then None else Some last
    | None => None
    end.
Proof.
  unfold cleanup_expired_cooldowns. rewrite map_lookup_filter.
  destruct (tbl !! key) as [last|]; simpl; [| reflexivity].
  case_bool_decide as Hold.
  - rewrite option_guard_False by (simpl; auto). reflexivity.
  - rewrite option_guard_True by (simpl; exact Hold). reflexivity.
Qed.

(** Purging cannot be noticed by a cooldown check: for an interval of at
    most 24h, a clock that does not run backwards and marks that are not
    negative, [is_account_on_cooldown] answers the same after
    [cleanup_expired_cooldowns] as before it. *)
Theorem cleanup_is_invisible (id ch : pyval) (interval clean_now now : Z)
    (tbl : table) :
  interval ≤ 86400 →
  clean_now ≤ now →
  (∀ key last, tbl !! key = Some last → 0 ≤ last) →
  is_account_on_cooldown id ch interval now
    (cleanup_expired_cooldowns clean_now tbl)
  = is_account_on_cooldown id ch interval now tbl.
Proof.
  intros Hint Hclock Hmarks.
  destruct (cooldown_key id ch) as [key|] eqn:Hk.
  - rewrite !(check_reads_key id ch key) by exact Hk.
    rewrite cleanup_lookup.
    destruct (tbl !! key) as [last|] eqn:Hl; [| reflexivity].
    pose proof (Hmarks key last Hl).
    destruct (bool_decide (clean_now - last > 86400)) eqn:Hold;
      [| reflexivity].
    apply bool_decide_eq_true in Hold. simpl.
    rewrite !bool_decide_eq_false_2 by lia. reflexivity.
  - unfold is_account_on_cooldown. rewrite Hk. reflexivity.
Qed.

Lemma cleanup_is_invisible_witness :
  is_account_on_cooldown (PInt 7) (PInt 900) 180 1700090000
    (cleanup_expired_cooldowns 1700090000 {[ (7, "900") := 1700000000 ]})
  = is_account_on_cooldown (PInt 7) (PInt 900) 180 1700090000
      {[ (7, "900") := 1700000000 ]}.
Proof.
  apply cleanup_is_invisible; [lia | lia |].
  intros key last Hl. apply lookup_singleton_Some in Hl as [_ <-]. lia.
Defined.

Lemma describe_Some (now : Z) (entry : Z * string * Z) (info : CooldownInfo) :
  describe now entry = Some info ↔
  entry = (info_account_id info, info_channel_id info, info_last_sent info)
  ∧ info_time_passed info = now - info_last_sent info
  ∧ now - info_last_sent info < 86400.
Proof.
  unfold describe. destruct entry as [[a c] last]. simpl.
  destruct info as [ia ic il ip]. simpl. split.
  - case_bool_decide; [| discriminate]. intros [= -> -> -> <-]. auto.
  - intros ([= -> -> ->] & -> & Hy).
    rewrite bool_decide_eq_true_2 by exact Hy. reflexivity.
Qed.

(** [get_all_cooldowns] lists exactly the entries younger than 24h, each
    with its key, its mark and the time passed since; and purging at the
    same clock reading removes nothing it lists. *)
Theorem get_all_cooldowns_lists (now : Z) (tbl : table) (info : CooldownInfo) :
  (info ∈ get_all_cooldowns now tbl ↔
   tbl !! (info_account_id info, info_channel_id info)
   = Some (info_last_sent info)
   ∧ info_time_passed info = now - info_last_sent info
   ∧ now - info_last_sent info < 86400)
  ∧ (info ∈ get_all_cooldowns now (cleanup_expired_cooldowns now tbl) ↔
     info ∈ get_all_cooldowns now tbl).
Proof.
  assert (Hmem : ∀ m : table,
            info ∈ get_all_cooldowns now m ↔
            m !! (info_account_id info, info_channel_id info)
            = Some (info_last_sent info)
            ∧ info_time_passed info = now - info_last_sent info
            ∧ now - info_last_sent info < 86400).
  { intros m. unfold get_all_cooldowns. rewrite list_elem_of_omap. split.
    - intros (entry & Hin & Hd). apply describe_Some in Hd as (-> & H1 & H2).
      apply elem_of_map_to_list in Hin. auto.
    - intros (Hl & H1 & H2).
      exists (info_account_id info, info_channel_id info, info_last_sent info).
      split; [apply elem_of_map_to_list; exact Hl |].
      apply describe_Some. auto. }
  split; [apply Hmem |].
  rewrite !Hmem, cleanup_lookup.
  destruct (tbl !! _) as [last|]; [| tauto].
  case_bool_decide as Hold; [| tauto].
  split; [intros ([=] & _) |].
  intros ([= <-] & _ & Hy). lia.
Qed.

End CooldownMore.

(* ===================================================================== *)
(** * Choosing the sender of a reply *)
(* ===================================================================== *)

Module SelectFacts.
Import Py Cooldown Reply Select Demo.

(** An id is among the online ids exactly when a ready, non-closed client
    carries it. *)
Lemma online_client_ids_spec (bot_clients : list Client) (online : list attr) (a : Z) :
  online_client_ids bot_clients = Some online →
  (AttrInt a ∈ online ↔
   ∃ c, c ∈ bot_clients ∧ account_id c = AttrInt a
        ∧ is_ready c = true ∧ is_closed c = false).
Proof.
  revert online. induction bot_clients as [|c cs IH]; intros online; simpl.
  - intros [= <-]. split.
    + intros H. apply elem_of_nil in H as [].
    + intros (c & H & _). apply elem_of_nil in H as [].
  - destruct (is_ready c && negb (is_closed c)) eqn:Hon.
    + apply andb_true_iff in Hon as [Hr Hc]. apply negb_true_iff in Hc.
      destruct (account_id c) as [| |b] eqn:Hid; [discriminate | |];
        (destruct (online_client_ids cs) as [rest|]; [| discriminate]);
        simpl; intros [= <-]; rewrite elem_of_cons, (IH rest eq_refl); split.
      * intros [Heq | (c' & Hin & Hrest)]; [discriminate |].
        exists c'. split; [apply list_elem_of_further, Hin | exact Hrest].
      * intros (c' & Hin & Hid' & Hrest). right.
        apply elem_of_cons in Hin as [-> | Hin]; [congruence |].
        exists c'. auto.
      * intros [Heq | (c' & Hin & Hrest)].
        -- injection Heq as ->. exists c. split; [apply list_elem_of_here | auto].
        -- exists c'. split; [apply list_elem_of_further, Hin | exact Hrest].
      * intros (c' & Hin & Hid' & Hrest).
        apply elem_of_cons in Hin as [-> | Hin].
        -- left. congruence.
        -- right. exists c'. auto.
    + intros Hrest. rewrite (IH online Hrest). split.
      * intros (c' & Hin & Hrest'). exists c'.
        split; [apply list_elem_of_further, Hin | exact Hrest'].
      * intros (c' & Hin & Hid' & Hr & Hc).
        apply elem_of_cons in Hin as [-> | Hin].
        -- rewrite Hr, Hc in Hon. discriminate.
        -- exists c'. auto.
Qed.

(** What passes the cooldown filter was checked and found not cooling. *)
Lemma not_cooling_spec (valid : list Z) (channel_id interval : Z) (o : Oracle)
    (tbl : table) : ∀ (from : nat) (available : list Z),
  not_cooling valid channel_id interval o from tbl = Some available →
  ∀ uid, uid ∈ available →
    uid ∈ valid
    ∧ ∃ k, is_account_on_cooldown (PInt uid) (PInt channel_id) interval
             (check_clock o k) tbl = Some false.
Proof.
  induction valid as [|v vs IH]; intros from available.
  - intros [= <-] uid H. apply elem_of_nil in H as [].
  - cbn [not_cooling].
    destruct (is_account_on_cooldown (PInt v) (PInt channel_id) interval
                (check_clock o from) tbl) as [cooling|] eqn:Hc;
      [| discriminate].
    destruct (not_cooling vs channel_id interval o (S from) tbl)
      as [tail|] eqn:Ht; [| discriminate].
    destruct cooling; cbn [mbind option_bind]; intros [= <-] uid Hin.
    + destruct (IH _ _ Ht uid Hin) as [Hv Hk].
      split; [apply list_elem_of_further, Hv | exact Hk].
    + apply elem_of_cons in Hin as [-> | Hin].
      * split; [apply list_elem_of_here | eauto].
      * destruct (IH _ _ Ht uid Hin) as [Hv Hk].
        split; [apply list_elem_of_further, Hv | exact Hk].
Qed.

(** When every check answers "cooling", nothing passes the filter. *)
Lemma not_cooling_none (valid : list Z) (channel_id interval : Z) (o : Oracle)
    (tbl : table) : ∀ from : nat,
  (∀ uid k, uid ∈ valid →
     is_account_on_cooldown (PInt uid) (PInt channel_id) interval
       (check_clock o k) tbl = Some true) →
  not_cooling valid channel_id interval o from tbl = Some [].
Proof.
  induction valid as [|v vs IH]; intros from Hall; [reflexivity |].
  cbn [not_cooling].
  rewrite (Hall v from) by apply list_elem_of_here.
  rewrite IH; [reflexivity |].
  intros uid k Hin. apply Hall. apply list_elem_of_further, Hin.
Qed.

Lemma find_client_spec (selected_id : Z) (bot_clients : list Client)
    (found : option Client) :
  find_client selected_id bot_clients = Some found →
  match found with
  | Some c => c ∈ bot_clients ∧ account_id c = AttrInt selected_id
  | None => ∀ c, c ∈ bot_clients → account_id c ≠ AttrInt selected_id
  end.
Proof.
  induction bot_clients as [|c cs IH]; simpl.
  - intros [= <-]. intros c H. apply elem_of_nil in H as [].
  - destruct (account_id c) as [| |a] eqn:Hid; [discriminate | |].
    + intros Hf. specialize (IH Hf). destruct found as [c'|].
      * destruct IH. split; [apply list_elem_of_further; assumption | assumption].
      * intros c' Hin. apply elem_of_cons in Hin as [-> | Hin];
          [congruence | auto].
    + case_bool_decide as Ha.
      * intros [= <-]. split; [apply list_elem_of_here | congruence].
      * intros Hf. specialize (IH Hf). destruct found as [c'|].
        -- destruct IH.
           split; [apply list_elem_of_further; assumption | assumption].
        -- intros c' Hin. apply elem_of_cons in Hin as [-> | Hin]; [| auto].
           rewrite Hid. congruence.
Qed.

Lemma select_sender_chosen (b : Binding) (bot_clients : list Client)
    (channel_id : Z) (o : Oracle) (tbl : table)
    (selected_id : Z) (target_client : option Client) :
  select_sender b bot_clients channel_id o tbl
  = Chosen selected_id target_client →
  selected_id ∈ db_sender_ids b
  ∧ (∃ c, c ∈ bot_clients ∧ account_id c = AttrInt selected_id
          ∧ is_ready c = true ∧ is_closed c = false)
  ∧ (rotation_enabled b = true →
     ∃ k, is_account_on_cooldown (PInt selected_id) (PInt channel_id)
            (rotation_interval b) (check_clock o k) tbl = Some false)
  ∧ ∃ c, target_client = Some c ∧ c ∈ bot_clients
         ∧ account_id c = AttrInt selected_id.
Proof.
  unfold select_sender.
  destruct (db_sender_ids b) as [|s0 ss] eqn:Hids; [discriminate |].
  destruct (online_client_ids bot_clients) as [online|] eqn:Hon; [| discriminate].
  remember (valid_senders (s0 :: ss) online) as valid eqn:Hvalid.
  destruct valid as [|v0 vs]; [discriminate |]. rewrite Hvalid.
  set (available :=
         if rotation_enabled b
         then not_cooling (valid_senders (s0 :: ss) online) channel_id
                (rotation_interval b) o 0 tbl
         else Some (valid_senders (s0 :: ss) online)).
  destruct available as [avail|] eqn:Hav; [| discriminate].
  destruct avail as [|a0 av]; [destruct (rotation_enabled b); discriminate |].
  destruct (_ !! _) as [sel|] eqn:Hsel; [| discriminate].
  destruct (find_client sel bot_clients) as [tc|] eqn:Hfind; [| discriminate].
  intros Hchosen.
  assert (Heq : sel = selected_id ∧ tc = target_client).
  { destruct tc as [c|]; [case_bool_decide |]; simplify_eq; auto. }
  destruct Heq as [-> ->]. clear Hchosen.
  assert (Hin_av : selected_id ∈ a0 :: av)
    by (apply list_elem_of_lookup; eauto).
  assert (Hin_valid : selected_id ∈ valid_senders (s0 :: ss) online
                      ∧ (rotation_enabled b = true →
                         ∃ k, is_account_on_cooldown (PInt selected_id)
                                (PInt channel_id) (rotation_interval b)
                                (check_clock o k) tbl = Some false)).
  { subst available. destruct (rotation_enabled b).
    - destruct (not_cooling_spec _ _ _ _ _ _ _ Hav selected_id Hin_av) as [H1 H2].
      auto.
    - injection Hav as Hav. rewrite Hav. split; [exact Hin_av | discriminate]. }
  destruct Hin_valid as [Hv Hcool].
  unfold valid_senders in Hv. apply list_elem_of_filter in Hv as [Honl Hcfg].
  pose proof (proj1 (online_client_ids_spec bot_clients online selected_id Hon)
                Honl) as Hclient.
  split; [exact Hcfg |]. split; [exact Hclient |]. split; [exact Hcool |].
  pose proof (find_client_spec _ _ _ Hfind) as Hspec.
  destruct target_client as [c|].
  - exists c. destruct Hspec. auto.
  - exfalso. destruct Hclient as (c & Hin & Hid & _). exact (Hspec c Hin Hid).
Qed.

(** Whatever the random draw, the id chosen to reply is one of the sender
    ids bound to the channel's configuration, a ready and non-closed client
    carries it, with rotation on it passed a cooldown check for the
    message's channel, and the client handed to the send step exists and
    carries that id. *)
Theorem chosen_sender_is_eligible (b : Binding) (bot_clients : list Client)
    (channel_id : Z) (o : Oracle) (tbl : table)
    (selected_id : Z) (target_client : option Client) :
  select_sender b bot_clients channel_id o tbl
  = Chosen selected_id target_client →
  selected_id ∈ db_sender_ids b
  ∧ (∃ c, c ∈ bot_clients ∧ account_id c = AttrInt selected_id
          ∧ is_ready c = true ∧ is_closed c = false)
  ∧ (rotation_enabled b = true →
     ∃ k, is_account_on_cooldown (PInt selected_id) (PInt channel_id)
            (rotation_interval b) (check_clock o k) tbl = Some false)
  ∧ ∃ c, target_client = Some c ∧ c ∈ bot_clients
         ∧ account_id c = AttrInt selected_id.
Proof. apply select_sender_chosen. Qed.

Lemma chosen_sender_is_eligible_witness :
  8 ∈ [7; 8]
  ∧ ∃ c, Some bot8 = Some c ∧ c ∈ [bot7; bot8] ∧ account_id c = AttrInt 8.
Proof.
  assert (Hsel : select_sender (mkBinding [7; 8] true 60) [bot7; bot8] 900
                   (mkOracle 100 (λ _, 100) 1) ∅ = Chosen 8 (Some bot8))
    by (vm_compute; reflexivity).
  destruct (chosen_sender_is_eligible _ _ _ _ _ _ _ Hsel)
    as (Hcfg & _ & _ & Htarget).
  split; [exact Hcfg | exact Htarget].
Defined.

(** With rotation on and every bound sender answering "cooling" for the
    channel, no sender is chosen, whatever the draw. *)
Theorem nobody_chosen_when_all_cooling (b : Binding) (bot_clients : list Client)
    (channel_id : Z) (o : Oracle) (tbl : table) :
  rotation_enabled b = true →
  (∀ uid k, uid ∈ db_sender_ids b →
     is_account_on_cooldown (PInt uid) (PInt channel_id) (rotation_interval b)
       (check_clock o k) tbl = Some true) →
  ∀ selected_id target_client,
    select_sender b bot_clients channel_id o tbl
    ≠ Chosen selected_id target_client.
Proof.
  intros Hrot Hall id tc. unfold select_sender. rewrite Hrot.
  destruct (db_sender_ids b) as [|s0 ss] eqn:Hids; [discriminate |].
  destruct (online_client_ids bot_clients) as [online|]; [| discriminate].
  destruct (valid_senders (s0 :: ss) online) as [|v0 vs] eqn:Hv; [discriminate |].
  rewrite not_cooling_none; [discriminate |].
  intros uid k Hin. apply Hall.
  rewrite <- Hv in Hin. unfold valid_senders in Hin.
  apply list_elem_of_filter in Hin as [_ Hin]. exact Hin.
Qed.

Lemma nobody_chosen_when_all_cooling_witness :
  select_sender (mkBinding [7; 8] true 60) [bot7; bot8] 900
    (mkOracle 100 (λ _, 100) 1) {[ (7, "900") := 90; (8, "900") := 95 ]}
  ≠ Chosen 7 (Some bot7).
Proof.
  apply nobody_chosen_when_all_cooling; [reflexivity |].
  intros uid k Hin. simpl in Hin.
  apply elem_of_cons in Hin as [-> | Hin]; [reflexivity |].
  apply list_elem_of_singleton in Hin as ->. reflexivity.
Defined.

(** A reply that went through is marked at the clock reading taken after
    the send. *)
Lemma replied_marks (env : Env) (c : Client) (channel_id a : Z)
    (response_content : string) (s : State) :
  account_id c = AttrInt a → a ≠ 0 → user c ≠ None →
  channel_id ∈ channels c → typing env = Done →
  response_content ≠ "" ∨ files env ≠ [] →
  rich_send env = Done →
  account_last_sent (send_reply env (Some c) channel_id response_content s)
  = <[(a, str_of_int channel_id) := now_rich env]> (account_last_sent s).
Proof.
  intros Hacc Ha Huser Hch Hty Hany Hrich. ReplyFacts.step5_unfold.
  rewrite Hacc, (ReplyFacts.truthy_nonzero a Ha), Hty, Hrich.
  rewrite (bool_decide_eq_true_2 _ Hch).
  assert (Hguard : String.eqb response_content "" && bool_decide (files env = [])
                   = false).
  { destruct Hany as [Hc | Hf].
    - rewrite (ReplyFacts.eqb_nonempty _ Hc). reflexivity.
    - rewrite (bool_decide_eq_false_2 _ Hf). apply andb_false_r. }
  rewrite Hguard. cbn [py_int py_str mbind option_bind default].
  destruct (user c); [reflexivity | contradiction].
Qed.

(** Rotation at work across two messages: after a logged-in account
    replied in a channel, the next message in that channel, handled while
    the clock is still within the rotation interval of that reply (and less
    than 24h after it), is never answered through that account, whoever
    else is available and whatever the draw. *)
Theorem replied_sender_rests (env env2 : Env) (c : Client) (channel_id a : Z)
    (response_content second_content : string) (s : State)
    (b : Binding) (bot_clients : list Client) (o : Oracle) (m : Sent) :
  account_id c = AttrInt a → a ≠ 0 → user c ≠ None →
  channel_id ∈ channels c → typing env = Done →
  response_content ≠ "" ∨ files env ≠ [] →
  rich_send env = Done →
  rotation_enabled b = true →
  clean_clock o - now_rich env ≤ 86400 →
  (∀ k, check_clock o k - now_rich env < rotation_interval b) →
  let s1 := send_reply env (Some c) channel_id response_content s in
  let s2 := schedule_reply (Some b) bot_clients channel_id second_content
              o env2 s1 in
  m ∈ sent s2 → m ∈ sent s1 ∨ account_id (via m) ≠ AttrInt a.
Proof.
  intros Hacc Ha Huser Hch Hty Hany Hrich Hrot Hclean Hcheck s1 s2.
  pose proof (replied_marks env c channel_id a response_content s
                Hacc Ha Huser Hch Hty Hany Hrich) as Hmark.
  fold s1 in Hmark. subst s2. unfold schedule_reply. cbn [account_last_sent].
  destruct (select_sender b bot_clients channel_id o
              (cleanup_expired_cooldowns (clean_clock o) (account_last_sent s1)))
    as [| | | | |selected_id target_client] eqn:Hsel; cbn [sent]; auto.
  destruct (select_sender_chosen _ _ _ _ _ _ _ Hsel)
    as (_ & _ & Hcool & tc & -> & _ & Htc).
  destruct (Hcool Hrot) as [k Hk].
  intros Hm.
  destruct (ReplyFacts.sent_extends env2 tc channel_id second_content
              (mkState
                 (cleanup_expired_cooldowns (clean_clock o) (account_last_sent s1))
                 (sent s1) (log s1))) as (extra & Hext & Hall).
  rewrite Hext in Hm. cbn [sent] in Hm.
  apply elem_of_app in Hm as [Hm | Hm]; [left; exact Hm | right].
  rewrite Forall_forall in Hall. destruct (Hall m Hm) as (-> & _).
  rewrite Htc. intros [= ->].
  unfold is_account_on_cooldown, cooldown_key in Hk.
  cbn [py_int py_str mbind option_bind] in Hk.
  rewrite CooldownMore.cleanup_lookup, Hmark, lookup_insert_eq in Hk.
  rewrite (bool_decide_eq_false_2 (clean_clock o - now_rich env > 86400))
    in Hk by lia.
  cbn [default] in Hk.
  rewrite bool_decide_eq_true_2 in Hk by apply Hcheck.
  discriminate.
Qed.

Lemma replied_sender_rests_witness :
  let s1 := send_reply rich_works (Some bot7) 900 "hello" fresh in
  let s2 := schedule_reply (Some (mkBinding [7; 8] true 60)) [bot7; bot8] 900
              "again" (mkOracle 1030 (λ _, 1030) 0) rich_works s1 in
  mkSent bot8 900 (Some "again") [] true true ∈ sent s2
  ∧ (mkSent bot8 900 (Some "again") [] true true ∈ sent s1
     ∨ account_id bot8 ≠ AttrInt 7).
Proof.
  intros s1 s2.
  assert (Hm : mkSent bot8 900 (Some "again") [] true true ∈ sent s2)
    by (apply list_elem_of_further, list_elem_of_here).
  split; [exact Hm |].
  refine (replied_sender_rests rich_works rich_works bot7 900 7 "hello" "again"
            fresh (mkBinding [7; 8] true 60) [bot7; bot8]
            (mkOracle 1030 (λ _, 1030) 0) _ eq_refl _ _ _ eq_refl _ eq_refl
            eq_refl _ _ Hm).
  - discriminate.
  - discriminate.
  - apply list_elem_of_here.
  - left. discriminate.
  - simpl. lia.
  - intros k. simpl. lia.
Defined.

(** Whatever the bindings, the clients, the clocks, the draw and the
    outcome of the sends, what [schedule_reply] sends goes through a client
    of the pool whose account id is one of the sender ids bound to the
    channel, into the channel of the message, and carries the reply content
    or no text; for a channel without binding nothing is sent. *)
Theorem replies_come_from_bound_senders (binding : option Binding)
    (bot_clients : list Client) (channel_id : Z) (response_content : string)
    (o : Oracle) (env : Env) (s : State) (m : Sent) :
  m ∈ sent (schedule_reply binding bot_clients channel_id response_content
              o env s) →
  m ∈ sent s
  ∨ ∃ b selected_id,
      binding = Some b ∧ selected_id ∈ db_sender_ids b
      ∧ via m ∈ bot_clients ∧ account_id (via m) = AttrInt selected_id
      ∧ channel m = channel_id
      ∧ (text m = Some response_content ∨ text m = None).
Proof.
  unfold schedule_reply. cbn [account_last_sent].
  destruct binding as [b|]; cbn [sent]; auto.
  destruct (select_sender b bot_clients channel_id o
              (cleanup_expired_cooldowns (clean_clock o) (account_last_sent s)))
    as [| | | | |selected_id target_client] eqn:Hsel; cbn [sent]; auto.
  destruct (select_sender_chosen _ _ _ _ _ _ _ Hsel)
    as (Hcfg & _ & _ & tc & -> & Hin & Htc).
  intros Hm.
  destruct (ReplyFacts.sent_extends env tc channel_id response_content
              (mkState
                 (cleanup_expired_cooldowns (clean_clock o) (account_last_sent s))
                 (sent s) (log s))) as (extra & Hext & Hall).
  rewrite Hext in Hm. cbn [sent] in Hm.
  apply elem_of_app in Hm as [Hm | Hm]; [left; exact Hm | right].
  rewrite Forall_forall in Hall. destruct (Hall m Hm) as (Hvia & Hch & Htext).
  exists b, selected_id. rewrite Hvia. auto 10.
Qed.

Lemma replies_come_from_bound_senders_witness :
  let m := mkSent bot8 900 (Some "hello") [] true true in
  m ∈ sent (schedule_reply (Some (mkBinding [7; 8] false 60)) [bot7; bot8] 900
              "hello" (mkOracle 100 (λ _, 100) 1) rich_works fresh)
  ∧ via m ∈ [bot7; bot8].
Proof.
  intros m.
  assert (Hm : m ∈ sent (schedule_reply (Some (mkBinding [7; 8] false 60))
                           [bot7; bot8] 900 "hello"
                           (mkOracle 100 (λ _, 100) 1) rich_works fresh))
    by apply list_elem_of_here.
  split; [exact Hm |].
  destruct (replies_come_from_bound_senders _ _ _ _ _ _ _ _ Hm)
    as [Hold | (b & id & _ & _ & Hvia & _)].
  - apply elem_of_nil in Hold as [].
  - exact Hvia.
Defined.

End SelectFacts.

(* ===================================================================== *)
(** * The sender endpoints *)
(* ===================================================================== *)

Module AppFacts.
Import Py Sender App Demo.

Lemma str_of_int_nonempty (z : Z) : str_of_int z ≠ "".
Proof.
  intros Hempty. pose proof (PyFacts.int_of_str_of_int z) as Hround.
  rewrite Hempty in Hround. discriminate.
Qed.

Lemma truthy_str_nonempty (v : pyval) : truthy v = true → py_str v ≠ "".
Proof.
  destruct v as [|z|s]; simpl; [discriminate | |].
  - intros _. apply str_of_int_nonempty.
  - destruct (String.eqb_spec s ""); [discriminate | auto].
Qed.

Lemma int_list_nonempty (v : pyval) (vs : list pyval) (accounts : list Z) :
  int_list (v :: vs) = Some accounts → accounts ≠ [].
Proof.
  unfold int_list. cbn [mapM].
  destruct (py_int v); [| discriminate].
  destruct (mapM py_int vs); [| discriminate].
  intros [= <-]. discriminate.
Qed.

Lemma clamp_interval_bounds (v : pyval) (every : Z) :
  clamp_interval v = Some every →
  MIN_SEND_INTERVAL ≤ every ≤ MAX_SEND_INTERVAL.
Proof.
  destruct v as [|z|s]; simpl; [discriminate | | discriminate].
  intros [= <-]. unfold MIN_SEND_INTERVAL, MAX_SEND_INTERVAL. lia.
Qed.

(** What a start request can put on the event loop. A 200 answer means
    exactly one [auto_send_loop] was submitted, and that call has a send
    interval between 10 and 3600 whatever the request asked for, at least
    one account, a non-empty channel and both cursors at 0, and the same
    interval is what [task_status] shows; with any other answer nothing was
    submitted. *)
Theorem start_sender_submits_within_bounds (data : option StartRequest)
    (bot_loop : EventLoop) (w : World) :
  let out := start_sender data bot_loop w in
  match out.1 with
  | Http200 _ =>
      ∃ c, submitted out.2 = submitted w ++ [c]
           ∧ MIN_SEND_INTERVAL ≤ call_interval c ≤ MAX_SEND_INTERVAL
           ∧ call_selected_account_ids c ≠ []
           ∧ call_target_channel_id c ≠ ""
           ∧ call_start_product_index c = 0
           ∧ call_start_account_index c = 0
           ∧ interval (task_status out.2) = Some (call_interval c)
  | Http400 _ | Http500 => submitted out.2 = submitted w
  end.
Proof.
  unfold start_sender.
  destruct data as [data|]; [| reflexivity].
  destruct (truthy (default PNone (shopId data))) eqn:Hshop; [| reflexivity].
  destruct (truthy (default PNone (channelId data))) eqn:Hchan; [| reflexivity].
  cbn [negb].
  destruct (default [] (accountIds data)) as [|v vs] eqn:Hacc; [reflexivity |].
  destruct (clamp_interval _) as [every|] eqn:Hevery; [| reflexivity].
  destruct (py_int _) as [shop|]; [| reflexivity].
  destruct (int_list (v :: vs)) as [accounts|] eqn:Hlist; [| reflexivity].
  pose proof (clamp_interval_bounds _ _ Hevery) as Hbounds.
  pose proof (int_list_nonempty _ _ _ Hlist) as Hne.
  pose proof (truthy_str_nonempty _ Hchan) as Hch.
  unfold start_sending_task.
  destruct (is_running (task_status w) || _); [reflexivity |].
  destruct bot_loop as [|text]; [| reflexivity].
  cbn. eexists. split; [reflexivity |]. cbn. auto 10.
Qed.

(** An accepted start does not mark the campaign as running: that is left
    to the first step of the submitted loop. Until then the same request is
    accepted again, and a second loop for the same campaign is put on the
    event loop. *)
Theorem accepted_start_can_be_repeated (data : option StartRequest)
    (bot_loop : EventLoop) (w : World) (body : Reply) :
  (start_sender data bot_loop w).1 = Http200 body →
  let w1 := (start_sender data bot_loop w).2 in
  is_running (task_status w1) = false
  ∧ is_paused (task_status w1) = false
  ∧ (start_sender data bot_loop w1).1 = Http200 body
  ∧ ∃ c, submitted (start_sender data bot_loop w1).2 = submitted w ++ [c; c].
Proof.
  unfold start_sender.
  destruct data as [data|]; [| discriminate].
  destruct (truthy (default PNone (shopId data))); [| discriminate].
  destruct (truthy (default PNone (channelId data))); [| discriminate].
  cbn [negb].
  destruct (default [] (accountIds data)) as [|v vs]; [discriminate |].
  destruct (clamp_interval _) as [every|]; [| discriminate].
  destruct (py_int _) as [shop|]; [| discriminate].
  destruct (int_list (v :: vs)) as [accounts|]; [| discriminate].
  unfold start_sending_task.
  destruct (is_running (task_status w) || _); [discriminate |].
  destruct bot_loop as [|text]; [| discriminate].
  cbn. intros [= <-].
  split; [reflexivity |]. split; [reflexivity |]. split; [reflexivity |].
  eexists. rewrite <- app_assoc. reflexivity.
Qed.

Lemma accepted_start_can_be_repeated_witness :
  let data := Some (mkStartRequest (Some (PInt 1)) (Some (PStr "900"))
                      (Some [PInt 7; PStr "8"]) (Some (PInt 5))) in
  let w := demo_world initial_task_status None in
  ∃ c, submitted (start_sender data LoopOk (start_sender data LoopOk w).2).2
       = [c; c].
Proof.
  intros data w.
  destruct (accepted_start_can_be_repeated data LoopOk w
              (Success "自动发送任务已启动") eq_refl)
    as (_ & _ & _ & c & Hc).
  exists c. exact Hc.
Defined.

Lemma start_refused (data : option StartRequest) (bot_loop : EventLoop)
    (w : World) :
  is_running (task_status w) = true ∨ is_paused (task_status w) = true →
  (start_sender data bot_loop w).2 = w
  ∧ ∀ body, (start_sender data bot_loop w).1 ≠ Http200 body.
Proof.
  intros Hbusy. unfold start_sender.
  destruct data as [data|]; [| split; [reflexivity | discriminate]].
  destruct (truthy (default PNone (shopId data)));
    [| split; [reflexivity | discriminate]].
  destruct (truthy (default PNone (channelId data)));
    [| split; [reflexivity | discriminate]].
  cbn [negb].
  destruct (default [] (accountIds data)) as [|v vs];
    [split; [reflexivity | discriminate] |].
  destruct (clamp_interval _) as [every|];
    [| split; [reflexivity | discriminate]].
  destruct (py_int _) as [shop|]; [| split; [reflexivity | discriminate]].
  destruct (int_list (v :: vs)) as [accounts|];
    [| split; [reflexivity | discriminate]].
  unfold start_sending_task.
  assert (Hguard : is_running (task_status w)
                   || (is_paused (task_status w) && negb false) = true).
  { destruct Hbusy as [-> | ->]; [reflexivity |].
    rewrite andb_true_r. apply orb_true_r. }
  rewrite Hguard. split; [reflexivity | discriminate].
Qed.

(** While a campaign is running or paused, no start request gets a 200,
    whatever its body, and none changes anything: not the status, not the
    stop signal, not the store, not the submitted coroutines. *)
Theorem start_sender_refused_while_active (data : option StartRequest)
    (bot_loop : EventLoop) (w : World) :
  is_running (task_status w) = true ∨ is_paused (task_status w) = true →
  (start_sender data bot_loop w).2 = w
  ∧ ∀ body, (start_sender data bot_loop w).1 ≠ Http200 body.
Proof. apply start_refused. Qed.

Lemma start_sender_refused_while_active_witness :
  (start_sender
     (Some (mkStartRequest (Some (PInt 2)) (Some (PStr "901"))
              (Some [PInt 9]) None))
     LoopOk (demo_world demo_status None)).2
  = demo_world demo_status None.
Proof.
  exact (proj1 (start_sender_refused_while_active _ LoopOk
                  (demo_world demo_status None) (or_introl eq_refl))).
Defined.

(** A stop request for a running campaign is answered with 200 and raises
    the stop signal, but the campaign still counts as running until the
    loop itself leaves: a start request that follows at once is not
    accepted, and a pause request that follows replaces the stop reason by
    a pause. *)
Theorem stop_sender_keeps_slot_until_loop_leaves (w : World)
    (data : option StartRequest) (bot_loop : EventLoop) :
  is_running (task_status w) = true →
  let stopped := stop_sender w in
  (∃ body, stopped.1 = Http200 body)
  ∧ stop_sender_event stopped.2 = true
  ∧ stop_sender_reason stopped.2 = Some "stop"
  ∧ is_running (task_status stopped.2) = true
  ∧ (∀ body, (start_sender data bot_loop stopped.2).1 ≠ Http200 body)
  ∧ stop_sender_reason (pause_sender stopped.2).2 = Some "pause".
Proof.
  intros Hrun stopped.
  assert (Hst : stopped
                = (Http200 (Success "任务停止指令已发送"),
                   mkWorld (set_is_paused false (task_status w)) true
                     (Some "stop") (clear_sender_task_state (db w))
                     (submitted w))).
  { subst stopped. unfold stop_sender, answer, stop_sending_task.
    rewrite Hrun. reflexivity. }
  rewrite Hst. cbn [fst snd stop_sender_event stop_sender_reason task_status].
  assert (Hstill : is_running (set_is_paused false (task_status w)) = true)
    by (destruct (task_status w); exact Hrun).
  split; [eauto |]. split; [reflexivity |]. split; [reflexivity |].
  split; [exact Hstill |]. split.
  - apply start_refused. left. exact Hstill.
  - unfold pause_sender, answer, pause_sending_task.
    cbn [task_status]. rewrite Hstill. reflexivity.
Qed.

Lemma stop_sender_keeps_slot_until_loop_leaves_witness :
  is_running (task_status (stop_sender (demo_world demo_status None)).2) = true
  ∧ stop_sender_reason
      (pause_sender (stop_sender (demo_world demo_status None)).2).2
    = Some "pause".
Proof.
  destruct (stop_sender_keeps_slot_until_loop_leaves
              (demo_world demo_status None) None LoopOk eq_refl)
    as (_ & _ & _ & Hrun & _ & Hpause).
  split; [exact Hrun | exact Hpause].
Defined.

End AppFacts.

(* ===================================================================== *)
(** * A reply without text whose send fails *)
(* ===================================================================== *)

Module ReplyMore.
Import Py Cooldown Reply Demo.

(** A reply made of images only whose send raises: the [except] branch
    skips the plain send (there is no text to send), and then marks the
    cooldown and logs the send as done all the same. Nothing was delivered,
    yet the sender is resting for the channel. *)
Theorem unsent_image_reply_is_marked (env : Env) (c : Client)
    (channel_id a : Z) (s : State) :
  account_id c = AttrInt a → a ≠ 0 → user c ≠ None →
  channel_id ∈ channels c → typing env = Done →
  files env ≠ [] → rich_send env = Raises →
  let s' := send_reply env (Some c) channel_id "" s in
  sent s' = sent s ++ [mkSent c channel_id None (files env) true false]
  ∧ account_last_sent s' !! (a, str_of_int channel_id) = Some (now_plain env)
  ∧ log s' = log s ++ [WarnReplyFailed; InfoSentPlain].
Proof.
  intros Hacc Ha Huser Hch Hty Hfiles Hrich s'. subst s'.
  ReplyFacts.step5_unfold.
  rewrite Hacc, (ReplyFacts.truthy_nonzero a Ha), Hty, Hrich.
  rewrite (bool_decide_eq_true_2 _ Hch), (bool_decide_eq_false_2 _ Hfiles).
  destruct (user c) as [name|]; [| contradiction].
  cbn. rewrite lookup_insert_eq, <- app_assoc. auto.
Qed.

Lemma unsent_image_reply_is_marked_witness :
  let s' := send_reply image_only_fails (Some bot7) 900 "" fresh in
  Forall (λ m, delivered m = false) (sent s')
  ∧ account_last_sent s' !! (7, "900") = Some 1001.
Proof.
  intros s'.
  assert (Ha : (7 : Z) ≠ 0) by discriminate.
  assert (Hu : user bot7 ≠ None) by discriminate.
  assert (Hf : files image_only_fails ≠ []) by discriminate.
  destruct (unsent_image_reply_is_marked image_only_fails bot7 900 7 fresh
              eq_refl Ha Hu (list_elem_of_here _ _) eq_refl Hf eq_refl)
    as (Hsent & Hmark & _).
  split; [| exact Hmark].
  fold s' in Hsent. rewrite Hsent. repeat constructor.
Defined.

End ReplyMore.
